(** * DijkstraPF: the grid graph builder and the shortest-path search

    A shallow embedding of [DijkstraPF.go].  Go slices are lists read and
    written by index with the bounds checks of the Go runtime made explicit,
    Go's [int] is a 64-bit two's-complement integer carried in [Z], a
    run-time panic is a value of the [result] type, and the lines a method
    prints are returned next to the state it leaves.  The interactive
    editor reads a terminal, modelled as the sequence of the lines typed,
    and writes to a console that records the lines printed. *)

From Stdlib Require Import ZArith String Lia Bool.
From stdpp Require Import base tactics option list relations.

#[local] Open Scope string_scope.
#[local] Open Scope Z_scope.

(** ** Run-time outcomes *)

Inductive panic : Type :=
| IndexOutOfRange   (* index out of range *)
| SliceBounds       (* slice bounds out of range *)
| MakeLen.          (* makeslice: len out of range *)

Inductive result (A : Type) : Type :=
| Ok (a : A)
| Panic (p : panic)
| Timeout.          (* the loop budget of the model ran out *)

Arguments Ok {A} a.
Arguments Panic {A} p.
Arguments Timeout {A}.

#[global] Instance result_ret : MRet result := λ A a, Ok a.
#[global] Instance result_bind : MBind result := λ A B f m,
  match m with
  | Ok a => f a
  | Panic p => Panic p
  | Timeout => Timeout
  end.

Definition is_ok {A} (r : result A) : bool :=
  match r with Ok _ => true | _ => false end.

Definition is_panic {A} (r : result A) : bool :=
  match r with Panic _ => true | _ => false end.

(** ** Go's [int] *)

Module Int.
Definition modulus : Z := Eval cbv in 2 ^ 64.
Definition half : Z := Eval cbv in 2 ^ 63.
(* the value of the 64-bit pattern of [z]: [z] itself when it fits *)
Definition wrap (z : Z) : Z :=
  if (- half <=? z) && (z <? half) then z
  else (z + half) mod modulus - half.
Definition add (a b : Z) : Z := wrap (a + b).
Definition sub (a b : Z) : Z := wrap (a - b).
Definition mul (a b : Z) : Z := wrap (a * b).
(* Go's / and % truncate towards zero *)
Definition quot (a b : Z) : Z := wrap (Z.quot a b).
Definition rem (a b : Z) : Z := Z.rem a b.
End Int.

Infix "+i" := Int.add (at level 50, left associativity).
Infix "-i" := Int.sub (at level 50, left associativity).
Infix "*i" := Int.mul (at level 40, left associativity).

(** ** Slices *)

Definition len {A} (l : list A) : Z := Z.of_nat (length l).

(* the largest allocation the runtime accepts, in bytes, on a 64-bit
   platform *)
Definition maxAlloc : Z := 2 ^ 48.

(* make([]T, n) for an element type of [size] bytes (8 for an int, 16 for a
   string, 24 for a slice and for a node): makeslice panics when
   the length is negative or the memory asked for is more than the runtime
   accepts.  Running out of memory below that limit is not a panic and is
   outside the model. *)
Definition make {A} (zero : A) (size n : Z) : result (list A) :=
  if (n <? 0) || (maxAlloc <? size * n) then Panic MakeLen
  else Ok (replicate (Z.to_nat n) zero).

(* l[i] *)
Definition index {A} (l : list A) (i : Z) : result A :=
  if i <? 0 then Panic IndexOutOfRange
  else match l !! Z.to_nat i with
       | Some a => Ok a
       | None => Panic IndexOutOfRange
       end.

(* l[i] = a *)
Definition store {A} (l : list A) (i : Z) (a : A) : result (list A) :=
  if (0 <=? i) && (i <? len l) then Ok (<[Z.to_nat i := a]> l)
  else Panic IndexOutOfRange.

(* l[:k] *)
Definition slice_to {A} (l : list A) (k : Z) : result (list A) :=
  if (0 <=? k) && (k <=? len l) then Ok (take (Z.to_nat k) l)
  else Panic SliceBounds.

(* m[y][x] *)
Definition index2 {A} (m : list (list A)) (y x : Z) : result A :=
  row ← index m y; index row x.

(* m[y][x] = a *)
Definition store2 {A} (m : list (list A)) (y x : Z) (a : A) : result (list (list A)) :=
  row ← index m y; row' ← store row x a; store m y row'.

(** ** Loops *)

(* [n] iterations of [body], the counter starting from [i] *)
Fixpoint for_range {S} (n : nat) (i : Z) (body : Z → S → result S) (s : S) : result S :=
  match n with
  | O => Ok s
  | Datatypes.S n' => s' ← body i s; for_range n' (i + 1) body s'
  end.

(* for i := lo; i < hi; i++ *)
Definition for_lt {S} (lo hi : Z) (body : Z → S → result S) (s : S) : result S :=
  for_range (Z.to_nat (hi - lo)) lo body s.

(* for i := lo; i <= hi; i++ *)
Definition for_le {S} (lo hi : Z) (body : Z → S → result S) (s : S) : result S :=
  for_range (Z.to_nat (hi - lo + 1)) lo body s.

(* for index, a := range l *)
Fixpoint range_from {A S} (l : list A) (i : Z) (body : Z → A → S → result S) (s : S) : result S :=
  match l with
  | [] => Ok s
  | a :: l' => s' ← body i a s; range_from l' (i + 1) body s'
  end.

Definition range {A S} (l : list A) (body : Z → A → S → result S) (s : S) : result S :=
  range_from l 0 body s.

(** ** The data model *)

Record node : Type := mk_node {
  category : string;
  set_index : Z
}.

Definition zero_node : node := mk_node "" 0.

Record Graph : Type := mk_Graph {
  set : list node;
  adjecencyList : list (list node);
  start_node : Z;
  goal_node : Z;
  dist : list Z;
  prev : list Z;
  gridMatrix : list (list string);
  grid_width : Z;
  grid_height : Z
}.

Definition with_set (g : Graph) (v : list node) : Graph :=
  mk_Graph v (adjecencyList g) (start_node g) (goal_node g) (dist g) (prev g)
           (gridMatrix g) (grid_width g) (grid_height g).
Definition with_adjecencyList (g : Graph) (v : list (list node)) : Graph :=
  mk_Graph (set g) v (start_node g) (goal_node g) (dist g) (prev g)
           (gridMatrix g) (grid_width g) (grid_height g).
Definition with_start_node (g : Graph) (v : Z) : Graph :=
  mk_Graph (set g) (adjecencyList g) v (goal_node g) (dist g) (prev g)
           (gridMatrix g) (grid_width g) (grid_height g).
Definition with_goal_node (g : Graph) (v : Z) : Graph :=
  mk_Graph (set g) (adjecencyList g) (start_node g) v (dist g) (prev g)
           (gridMatrix g) (grid_width g) (grid_height g).
Definition with_dist (g : Graph) (v : list Z) : Graph :=
  mk_Graph (set g) (adjecencyList g) (start_node g) (goal_node g) v (prev g)
           (gridMatrix g) (grid_width g) (grid_height g).
Definition with_prev (g : Graph) (v : list Z) : Graph :=
  mk_Graph (set g) (adjecencyList g) (start_node g) (goal_node g) (dist g) v
           (gridMatrix g) (grid_width g) (grid_height g).
Definition with_gridMatrix (g : Graph) (v : list (list string)) : Graph :=
  mk_Graph (set g) (adjecencyList g) (start_node g) (goal_node g) (dist g) (prev g)
           v (grid_width g) (grid_height g).

(** ** fillAdjecencyList *)

(* The locals of one cell of the scan: the [neighbors] buffer, the next free
   slot and the count of walls seen. *)
Record scan : Type := mk_scan {
  neighbors : list node;
  neighbor_index : Z;
  number_of_neighboring_walls : Z
}.

(* One neighbour test, as repeated throughout the source:
     category = gridMatrix[yy][xx]
     if category != "#" { neighbors[neighbor_index] = node{category, idx}; neighbor_index++ }
     else { number_of_neighboring_walls++ } *)
Definition probe (grid : list (list string)) (yy xx idx : Z) (s : scan) : result scan :=
  cat ← index2 grid yy xx;
  if negb (String.eqb cat "#") then
    nb ← store (neighbors s) (neighbor_index s) (mk_node cat idx);
    mret (mk_scan nb (neighbor_index s +i 1) (number_of_neighboring_walls s))
  else
    mret (mk_scan (neighbors s) (neighbor_index s) (number_of_neighboring_walls s +i 1)).

(* neighbors = neighbors[:k-number_of_neighboring_walls] *)
Definition trim (k : Z) (s : scan) : result (list node) :=
  slice_to (neighbors s) (k -i number_of_neighboring_walls s).

(* Lines 218-442: the neighbour list of the cell at column [x], row [y]. *)
Definition cell_neighbors (grid : list (list string)) (h y x : Z) : result (list node) :=
  let s := mk_scan (replicate 5 zero_node) 0 0 in
  cat ← index2 grid y x;
  if String.eqb cat "#" then slice_to (neighbors s) 0
  else if x =? 0 then
    s ← probe grid y (x +i 1) (y *i h +i x +i 1) s;
    if y =? 0 then
      s ← probe grid (y +i 1) x ((y +i 1) *i h +i x) s; trim 2 s
    else if y =? 4 then
      s ← probe grid (y -i 1) x ((y -i 1) *i h +i x) s; trim 2 s
    else
      s ← probe grid (y +i 1) x ((y +i 1) *i h +i x) s;
      s ← probe grid (y -i 1) x ((y -i 1) *i h +i x) s; trim 3 s
  else if x =? 4 then
    s ← probe grid y (x -i 1) (y *i h +i x -i 1) s;
    if y =? 0 then
      s ← probe grid (y +i 1) x ((y +i 1) *i h +i x) s; trim 2 s
    else if y =? 4 then
      s ← probe grid (y -i 1) x ((y -i 1) *i h +i x) s; trim 2 s
    else
      s ← probe grid (y +i 1) x ((y +i 1) *i h +i x) s;
      s ← probe grid (y -i 1) x ((y -i 1) *i h +i x) s; trim 3 s
  else if y =? 0 then
    s ← probe grid (y +i 1) x ((y +i 1) *i h +i x) s;
    s ← probe grid y (x -i 1) (y *i h +i x -i 1) s;
    s ← probe grid y (x +i 1) (y *i h +i x +i 1) s; trim 3 s
  else if y =? 4 then
    s ← probe grid (y -i 1) x ((y -i 1) *i h +i x) s;
    (* line 389: the cell to the left is read, the index stored is x + 1 *)
    s ← probe grid y (x -i 1) (y *i h +i x +i 1) s;
    s ← probe grid y (x +i 1) (y *i h +i x +i 1) s; trim 3 s
  else
    s ← probe grid (y -i 1) x ((y -i 1) *i h +i x) s;
    s ← probe grid y (x -i 1) (y *i h +i x -i 1) s;
    s ← probe grid y (x +i 1) (y *i h +i x +i 1) s;
    s ← probe grid (y +i 1) x ((y +i 1) *i h +i x) s; trim 4 s.

(* The body of the inner loop; the state is the graph and [list_idx]. *)
Definition fill_cell (y x : Z) (st : Graph * Z) : result (Graph * Z) :=
  let '(g, list_idx) := st in
  let h := grid_height g in
  cat ← index2 (gridMatrix g) y x;
  let set_index := y *i h +i x in
  set' ← store (set g) set_index (mk_node cat set_index);
  let g := with_set g set' in
  let g := if String.eqb cat "s" then with_start_node g list_idx
           else if String.eqb cat "g" then with_goal_node g list_idx
           else g in
  nbs ← cell_neighbors (gridMatrix g) h y x;
  adj' ← store (adjecencyList g) list_idx nbs;
  mret (with_adjecencyList g adj', list_idx +i 1).

Definition fillAdjecencyList (g : Graph) : result Graph :=
  let w := grid_width g in
  let h := grid_height g in
  st ← for_lt 0 h (λ y, for_lt 0 w (λ x, fill_cell y x)) (g, 0);
  mret (fst st).

(** ** The editing methods *)

(* NewGrid *)
Definition NewGrid (g : Graph) : result Graph :=
  let w := grid_width g in
  let h := grid_height g in
  gridMatrix ← make ([] : list string) 24 h;
  gridRow ← make "" 16 w;
  gridRow ← for_lt 0 w (λ i row, store row i " ") gridRow;
  gridMatrix ← for_lt 0 h (λ i m,
                  tmp ← make "" 16 w;
                  (* copy(tmp, gridRow) *)
                  let tmp := (take (length tmp) gridRow ++ drop (length gridRow) tmp)%list in
                  store m i tmp) gridMatrix;
  fillAdjecencyList (with_gridMatrix g gridMatrix).

(* NewGraph *)
Definition NewGraph (width height : Z) : result Graph :=
  dist ← make 0 8 (width *i height);
  prev ← make 0 8 (width *i height);
  graphSet ← make zero_node 24 (width *i height);
  adjecencyList ← make ([] : list node) 24 (width *i height);
  NewGrid (mk_Graph graphSet adjecencyList (-1) (-1) dist prev [] width height).

(* MakeWallBlock *)
Definition MakeWallBlock (x y : Z) (g : Graph) : result Graph :=
  m ← store2 (gridMatrix g) y x "#";
  fillAdjecencyList (with_gridMatrix g m).

(* PlaceStart *)
Definition PlaceStart (x y : Z) (g : Graph) : result Graph :=
  m ← store2 (gridMatrix g) y x "s";
  fillAdjecencyList (with_gridMatrix g m).

(* PlaceGoal *)
Definition PlaceGoal (x y : Z) (g : Graph) : result Graph :=
  m ← store2 (gridMatrix g) y x "g";
  fillAdjecencyList (with_gridMatrix g m).

Definition not_a_line : string := "Coordinate choice does not make a line. Try again".

(* MakeWall: the graph it leaves and the lines it printed *)
Definition MakeWall (x1 y1 x2 y2 : Z) (g : Graph) : result (Graph * list string) :=
  '(m, out) ←
    (if negb (x1 =? x2) && negb (y1 =? y2) then
       mret (gridMatrix g, [not_a_line])
     else if x1 =? x2 then
       m ← for_le y1 y2 (λ i m, store2 m i x1 "#") (gridMatrix g); mret (m, [])
     else if y1 =? y2 then
       m ← for_le x1 x2 (λ i m, store2 m y1 i "#") (gridMatrix g); mret (m, [])
     else mret (gridMatrix g, []));
  g' ← fillAdjecencyList (with_gridMatrix g m);
  mret (g', out).

(** ** PathFinder *)

(* Lines 457-460 *)
Definition init_search (g : Graph) (inf : Z) (unvisitedNodes : list node)
  : result (list node * list Z) :=
  range (set g) (λ ix nd '(unvisited, dist),
    unvisited ← store unvisited ix nd;
    dist ← store dist ix inf;
    mret (unvisited, dist)) (unvisitedNodes, dist g).

(* Lines 468-476 *)
Definition find_min (dist : list Z) (inf : Z) (unvisitedNodes : list node) : result (Z * Z) :=
  range unvisitedNodes (λ ix current_node '(min, min_index),
    d ← index dist (set_index current_node);
    if d <? min then mret (d, ix) else mret (min, min_index)) (inf, 0).

(* Lines 489-497 *)
Definition relax (adj : list (list node)) (curr_node : node) (dp : list Z * list Z)
  : result (list Z * list Z) :=
  nbs ← index adj (set_index curr_node);
  range nbs (λ _ neighbor '(dist, prev),
    dc ← index dist (set_index curr_node);
    let alt := dc +i 1 in
    dn ← index dist (set_index neighbor);
    if alt <? dn then
      dist ← store dist (set_index neighbor) alt;
      prev ← store prev (set_index neighbor) (set_index curr_node);
      mret (dist, prev)
    else mret (dist, prev)) dp.

(* Lines 465-498.  Every iteration removes one element of [unvisitedNodes],
   so the loop runs at most [length unvisitedNodes] times; [fuel] is that
   bound. *)
Fixpoint search (fuel : nat) (adj : list (list node)) (inf : Z)
    (unvisitedNodes : list node) (dp : list Z * list Z) : result (list Z * list Z) :=
  if 0 <? len unvisitedNodes then
    match fuel with
    | O => Timeout
    | Datatypes.S fuel' =>
        '(_, min_index) ← find_min (fst dp) inf unvisitedNodes;
        curr_node ← index unvisitedNodes min_index;
        let unvisitedNodes :=
          (take (Z.to_nat min_index) unvisitedNodes
             ++ drop (Z.to_nat (min_index +i 1)) unvisitedNodes)%list in
        dc ← index (fst dp) (set_index curr_node);
        if dc =? inf then mret dp
        else
          dp ← relax adj curr_node dp;
          search fuel' adj inf unvisitedNodes dp
    end
  else mret dp.

(* Lines 502-507: for i > 0 { ...; i = prev[i] } *)
Fixpoint mark_path (fuel : nat) (prev : list Z) (i : Z) (grid : list (list string))
  : result (list (list string)) :=
  if 0 <? i then
    match fuel with
    | O => Timeout
    | Datatypes.S fuel' =>
        let x := Int.rem i 5 in
        let y := Int.quot (i -i x) 5 in
        grid ← store2 grid y x ".";
        i ← index prev i;
        mark_path fuel' prev i grid
    end
  else mret grid.

(* Lines 454-498: the distances and the predecessors the search leaves. *)
Definition search_phase (g : Graph) : result (list Z * list Z) :=
  unvisitedNodes ← make zero_node 24 (len (adjecencyList g));
  let inf := len (set g) in
  '(unvisitedNodes, dist) ← init_search g inf unvisitedNodes;
  dist ← store dist (start_node g) 0;
  search (length unvisitedNodes) (adjecencyList g) inf unvisitedNodes (dist, prev g).

(* PathFinder: the graph it leaves and the value it returns.  [fuel] bounds
   the iterations of the loop that marks the path. *)
Definition PathFinder (fuel : nat) (g : Graph) : result (Graph * Z) :=
  '(dist, prev) ← search_phase g;
  let inf := len (set g) in
  i ← index prev (goal_node g);
  grid ← mark_path fuel prev i (gridMatrix g);
  dg ← index dist (goal_node g);
  let g := with_gridMatrix (with_prev (with_dist g dist) prev) grid in
  if negb (dg =? inf) then mret (g, dg) else mret (g, -1).

(** ** Well-formed 5 x 5 graphs *)

(* a matrix of [h] rows of [w] cells *)
Definition grid_shape (w h : nat) (m : list (list string)) : Prop :=
  length m = h ∧ Forall (λ row, length row = w) m.

Definition index_ok (n : node) : Prop := 0 <= set_index n < 25.

(* What every method keeps true of a graph made by [NewGraph 5 5]. *)
Record wf5 (g : Graph) : Prop := mk_wf5 {
  wf_width : grid_width g = 5;
  wf_height : grid_height g = 5;
  wf_grid : grid_shape 5 5 (gridMatrix g);
  wf_set : length (set g) = 25%nat;
  wf_set_index : Forall index_ok (set g);
  wf_adj : length (adjecencyList g) = 25%nat;
  wf_adj_index : Forall (Forall index_ok) (adjecencyList g);
  wf_dist : length (dist g) = 25%nat;
  wf_prev : length (prev g) = 25%nat;
  wf_prev_index : Forall (λ p, 0 <= p < 25) (prev g)
}.

(* start and goal have been placed *)
Definition placed (g : Graph) : Prop :=
  0 <= start_node g < 25 ∧ 0 <= goal_node g < 25.

(* The locals of a cell's scan after [n] neighbour tests. *)
Definition scan_inv (n : Z) (s : scan) : Prop :=
  length (neighbors s) = 5%nat ∧
  0 <= neighbor_index s ∧ 0 <= number_of_neighboring_walls s ∧
  neighbor_index s + number_of_neighboring_walls s = n ∧
  Forall index_ok (take (Z.to_nat (neighbor_index s)) (neighbors s)).

(* The adjacency list is the one the scan computes from the current grid. *)
Definition rebuilt (g : Graph) : Prop :=
  ∀ y x, 0 <= y < 5 → 0 <= x < 5 →
    index (adjecencyList g) (y * 5 + x) = cell_neighbors (gridMatrix g) 5 y x.

(* What the rebuild has established when the next cell is number [k]. *)
Definition fill_inv (g0 : Graph) (k : Z) (st : Graph * Z) : Prop :=
  let g := st.1 in
  st.2 = k ∧ gridMatrix g = gridMatrix g0 ∧ grid_width g = 5 ∧ grid_height g = 5 ∧
  dist g = dist g0 ∧ prev g = prev g0 ∧
  length (set g) = 25%nat ∧ length (adjecencyList g) = 25%nat ∧
  (start_node g = start_node g0 ∨ 0 <= start_node g < 25) ∧
  (goal_node g = goal_node g0 ∨ 0 <= goal_node g < 25) ∧
  ∀ j, 0 <= j < k →
    (∃ c, index2 (gridMatrix g0) (j / 5) (j mod 5) = Ok c ∧
          set g !! Z.to_nat j = Some (mk_node c j)) ∧
    (∃ nbs, cell_neighbors (gridMatrix g0) 5 (j / 5) (j mod 5) = Ok nbs ∧
            adjecencyList g !! Z.to_nat j = Some nbs ∧ Forall index_ok nbs).

(* The state of the search loop: the unvisited nodes, the distances and the
   predecessors index cells of the grid. *)
Definition search_inv (unvisitedNodes : list node) (dp : list Z * list Z) : Prop :=
  Forall index_ok unvisitedNodes ∧
  length dp.1 = 25%nat ∧ length dp.2 = 25%nat ∧ Forall (λ p, 0 <= p < 25) dp.2.

(* the grid [NewGrid] builds *)
Definition empty_grid (w h : Z) : list (list string) :=
  replicate (Z.to_nat h) (replicate (Z.to_nat w) " ").

(* The graphs a program can hold after [NewGraph(5, 5)]: those left by the
   methods, and by the assignments to cells of the grid and the closing
   rebuild that [EditGraph] performs. *)
Inductive created5 : Graph → Prop :=
| created_NewGraph g :
    NewGraph 5 5 = Ok g → created5 g
| created_NewGrid g g' :
    created5 g → NewGrid g = Ok g' → created5 g'
| created_MakeWallBlock g x y g' :
    created5 g → MakeWallBlock x y g = Ok g' → created5 g'
| created_MakeWall g x1 y1 x2 y2 g' out :
    created5 g → MakeWall x1 y1 x2 y2 g = Ok (g', out) → created5 g'
| created_PlaceStart g x y g' :
    created5 g → PlaceStart x y g = Ok g' → created5 g'
| created_PlaceGoal g x y g' :
    created5 g → PlaceGoal x y g = Ok g' → created5 g'
| created_PathFinder g fuel g' d :
    created5 g → PathFinder fuel g = Ok (g', d) → created5 g'
| created_assign g x y c m :
    created5 g → store2 (gridMatrix g) y x c = Ok m → created5 (with_gridMatrix g m)
| created_fill g g' :
    created5 g → fillAdjecencyList g = Ok g' → created5 g'.

(* the graph [NewGraph] hands to the first rebuild *)
Definition blank (w h : Z) : Graph :=
  let n := Z.to_nat (w *i h) in
  mk_Graph (replicate n zero_node) (replicate n []) (-1) (-1)
           (replicate n 0) (replicate n 0) (empty_grid w h) w h.

(** ** Reading the grid and the adjacency list *)

(* the category of cell number [k], the cell at column [k mod 5] of row [k / 5] *)
Definition cell (m : list (list string)) (k : Z) : result string :=
  index2 m (k / 5) (k mod 5).

Definition wall_cell (m : list (list string)) (k : Z) : bool :=
  match cell m k with Ok c => String.eqb c "#" | _ => false end.

Definition open_cell (m : list (list string)) (k : Z) : bool :=
  match cell m k with Ok c => negb (String.eqb c "#") | _ => false end.

(* cells [a] and [b] are side by side or one above the other *)
Definition beside (a b : Z) : bool :=
  ((a / 5 =? b / 5) && ((a mod 5 - b mod 5 =? 1) || (b mod 5 - a mod 5 =? 1)))
  || ((a mod 5 =? b mod 5) && ((a / 5 - b / 5 =? 1) || (b / 5 - a / 5 =? 1))).

(* cell [b] appears in the adjacency list of cell [a] *)
Definition listed (g : Graph) (a b : Z) : bool :=
  match index (adjecencyList g) a with
  | Ok nbs => existsb (λ n, set_index n =? b) nbs
  | _ => false
  end.

(* one step between two cells that are not walls, and chains of such steps *)
Definition step (m : list (list string)) (a b : Z) : Prop :=
  beside a b = true ∧ open_cell m a = true ∧ open_cell m b = true.

Definition connected (m : list (list string)) : Z → Z → Prop := rtc (step m).

(* the cells the loop of lines 502-507 marks, in the order it marks them *)
Fixpoint route (fuel : nat) (prev : list Z) (i : Z) : list Z :=
  if 0 <? i then
    match fuel with
    | O => []
    | Datatypes.S fuel' =>
        i :: match index prev i with
             | Ok j => route fuel' prev j
             | _ => []
             end
    end
  else [].

(** ** Runs *)

(* the graph [NewGraph(5, 5)] returns *)
Definition empty5 : Graph :=
  Eval vm_compute in match NewGraph 5 5 with Ok g => g | _ => blank 5 5 end.

(* a wall block on the bottom row *)
Definition bottom_wall_run : result Graph :=
  g ← NewGraph 5 5; MakeWallBlock 2 4 g.

(* start at (1,4), goal to its left at (0,4) *)
Definition bottom_pair_run : result (Graph * Z) :=
  g ← NewGraph 5 5; g ← PlaceStart 1 4 g; g ← PlaceGoal 0 4 g; PathFinder 25 g.

(* start at (1,0), goal at (3,0) *)
Definition top_row_run : result (Graph * Z) :=
  g ← NewGraph 5 5; g ← PlaceStart 1 0 g; g ← PlaceGoal 3 0 g; PathFinder 25 g.

(* the goal at (2,0) is walled in; [searched] says whether a search was run
   before the walls were placed *)
Definition enclosed_goal (searched : bool) : result Graph :=
  g ← NewGraph 5 5; g ← PlaceStart 0 0 g; g ← PlaceGoal 2 0 g;
  g ← (if searched then '(g, _) ← PathFinder 25 g; mret g else mret g);
  g ← MakeWallBlock 1 0 g; g ← MakeWallBlock 3 0 g; MakeWallBlock 2 1 g.

(* a second search after the start was moved to (2,2) *)
Definition moved_start : result Graph :=
  g ← NewGraph 5 5; g ← PlaceStart 0 0 g; g ← PlaceGoal 4 4 g;
  '(g, _) ← PathFinder 25 g; PlaceStart 2 2 g.

(* a search that marks (1,0), and no edit after it *)
Definition marked_run : result Graph :=
  g ← NewGraph 5 5; g ← PlaceStart 0 0 g; g ← PlaceGoal 2 0 g;
  '(g, _) ← PathFinder 25 g; mret g.

(* the scenario of the claim: start (0,0), goal (4,0), wall (1,0) to (1,3) *)
Definition wall_run : result (Graph * Z) :=
  g ← NewGraph 5 5; g ← PlaceStart 0 0 g; g ← PlaceGoal 4 0 g;
  '(g, _) ← MakeWall 1 0 1 3 g; PathFinder 25 g.

(* src/test/testPF.go, lines 25-68 *)
Definition test_run : result (Graph * Z) :=
  g ← NewGraph 5 5;
  '(g, _) ← MakeWall 0 0 4 0 g;
  g ← MakeWallBlock 2 2 g;
  g ← NewGrid g;
  g ← PlaceStart 0 0 g;
  g ← PlaceGoal 4 0 g;
  '(g, _) ← MakeWall 1 0 1 3 g;
  PathFinder 25 g.

(* the grid the test expects, lines 52-62 *)
Definition expGrid : list (list string) :=
  [["s"; "#"; "."; "."; "g"];
   ["."; "#"; "."; " "; " "];
   ["."; "#"; "."; " "; " "];
   ["."; "#"; "."; " "; " "];
   ["."; "."; "."; " "; " "]].

(* down column 0, across row 4, up column 4: the cells between (0,0) and (4,0) *)
Definition claimed_route : list Z := [5; 10; 15; 20; 21; 22; 23; 24; 19; 14; 9].

(* down column 0, across row 4 to column 2, up column 2, across row 0 *)
Definition marked_route : list Z := [5; 10; 15; 20; 21; 22; 17; 12; 7; 2; 3].

(** ** The properties the rebuild is meant to keep *)

(* adjacency symmetry, between neighbouring cells that are not walls *)
Definition adjacency_symmetric (g : Graph) : Prop :=
  ∀ a b, beside a b = true →
    open_cell (gridMatrix g) a = true → open_cell (gridMatrix g) b = true →
    listed g a b = listed g b a.

(* wall isolation: a wall cell is in no adjacency list *)
Definition walls_unlisted (g : Graph) : Prop :=
  ∀ a b, wall_cell (gridMatrix g) b = true → listed g a b = false.

(* the counters of a cell's scan after [n] neighbour tests, on any grid *)
Definition scan_count (n : Z) (s : scan) : Prop :=
  length (neighbors s) = 5%nat ∧
  0 <= neighbor_index s ∧ 0 <= number_of_neighboring_walls s ∧
  neighbor_index s + number_of_neighboring_walls s = n.

(* what a rebuild keeps of a graph whatever its size *)
Definition same_grid (m : list (list string)) (h : Z) (st : Graph * Z) : Prop :=
  gridMatrix st.1 = m ∧ grid_height st.1 = h.

(* the empty grid with the start placed at (0,0), and then the goal at (4,4) *)
Definition started5 : Graph :=
  Eval vm_compute in match PlaceStart 0 0 empty5 with Ok g => g | _ => blank 5 5 end.

Definition placed5 : Graph :=
  Eval vm_compute in match PlaceGoal 4 4 started5 with Ok g => g | _ => blank 5 5 end.

(* C9 as it is stated for the sizes other than 5 and 5 *)
Definition other_sizes_fail : Prop :=
  ∀ w h, (w, h) ≠ (5, 5) → NewGraph w h = Panic IndexOutOfRange.

(* Distances are hop counts, and every predecessor other than cell 0 is
   nearer to the start than the node it was written for: true of the state
   of a search that began with no predecessor set. *)
Definition nearer (dp : list Z * list Z) : Prop :=
  Forall (λ d, 0 <= d <= 25) dp.1 ∧
  ∀ v pv, dp.2 !! v = Some pv → pv ≠ 0 →
    ∃ dv dpv, dp.1 !! v = Some dv ∧ dp.1 !! Z.to_nat pv = Some dpv ∧ dpv < dv.

(* the graph [moved_start] leaves *)
Definition moved5 : Graph :=
  Eval vm_compute in match moved_start with Ok g => g | _ => blank 5 5 end.

(** ** What the rebuild computes *)

(* The neighbour tests of the cell at column [x] of row [y], in the order of
   the source: the row and the column of the cell read and the index stored
   for it. *)
Definition probes_of (y x : Z) : list (Z * Z * Z) :=
  let right := (y, x + 1, y * 5 + x + 1) in
  let left := (y, x - 1, y * 5 + x - 1) in
  let below := (y + 1, x, (y + 1) * 5 + x) in
  let above := (y - 1, x, (y - 1) * 5 + x) in
  if x =? 0 then
    if y =? 0 then [right; below]
    else if y =? 4 then [right; above]
    else [right; below; above]
  else if x =? 4 then
    if y =? 0 then [left; below]
    else if y =? 4 then [left; above]
    else [left; below; above]
  else if y =? 0 then [below; left; right]
  else if y =? 4 then [above; (y, x - 1, y * 5 + x + 1); right]
  else [above; left; right; below].

(* the entry a neighbour test leaves: none for a wall *)
Definition kept (m : list (list string)) (pr : Z * Z * Z) : list node :=
  match index2 m pr.1.1 pr.1.2 with
  | Ok c => if String.eqb c "#" then [] else [mk_node c pr.2]
  | _ => []
  end.

(* the adjacency list of cell number [k] *)
Definition neighbours_of (m : list (list string)) (k : Z) : list node :=
  if wall_cell m k then [] else flat_map (kept m) (probes_of (k / 5) (k mod 5)).

Definition category_at (m : list (list string)) (k : Z) : string :=
  match cell m k with Ok c => c | _ => "" end.

(* the number of the last cell, in row-major order, of category [c]; [d] if
   there is none *)
Definition last_with (m : list (list string)) (c : string) (d : Z) : Z :=
  fold_left (λ acc k, if String.eqb (category_at m k) c then k else acc) (seqZ 0 25) d.

(* the graph a rebuild leaves *)
Definition rebuild_of (g : Graph) : Graph :=
  let m := gridMatrix g in
  mk_Graph (map (λ k, mk_node (category_at m k) k) (seqZ 0 25))
           (map (neighbours_of m) (seqZ 0 25))
           (last_with m "s" (start_node g)) (last_with m "g" (goal_node g))
           (dist g) (prev g) m (grid_width g) (grid_height g).

(* the locals of a cell's scan after [n] neighbour tests that kept [acc] *)
Definition scan_is (acc : list node) (n : Z) (s : scan) : Prop :=
  length (neighbors s) = 5%nat ∧
  neighbor_index s = len acc ∧
  number_of_neighboring_walls s = n - len acc ∧
  0 <= n - len acc ∧
  take (length acc) (neighbors s) = acc.

(* the start and the goal recorded when the next cell is number [k] *)
Definition marks_inv (g0 : Graph) (k : Z) (st : Graph * Z) : Prop :=
  let mark c d :=
    fold_left (λ acc j, if String.eqb (category_at (gridMatrix g0) j) c then j else acc)
              (seqZ 0 k) d in
  start_node st.1 = mark "s" (start_node g0) ∧ goal_node st.1 = mark "g" (goal_node g0).

(* the cell at column [xx] of row [yy] is on the grid and not a wall *)
Definition open_at (m : list (list string)) (yy xx : Z) : bool :=
  match index2 m yy xx with Ok c => negb (String.eqb c "#") | _ => false end.

(* the three cells of the bottom row that have a cell on either side *)
Definition bottom_middle (a : Z) : bool := (21 <=? a) && (a <=? 23).

(* A neighbour test of cell [a] reads a cell of the grid beside [a] and
   stores the index of a cell of the grid beside [a]: the index of the cell
   read, unless [a] is in the middle of the bottom row. *)
Definition probe_fits (a : Z) (pr : Z * Z * Z) : bool :=
  let '(yy, xx, idx) := pr in
  (0 <=? yy) && (yy <? 5) && (0 <=? xx) && (xx <? 5)
  && beside a (5 * yy + xx) && beside a idx && (0 <=? idx) && (idx <? 25)
  && (bottom_middle a || (idx =? 5 * yy + xx)).

(* every cell of the grid beside [a] is read by a test that stores its index *)
Definition probes_cover (a : Z) : bool :=
  forallb (λ b, negb (beside a b)
                || existsb (λ pr : Z * Z * Z,
                              (pr.2 =? b) && (5 * pr.1.1 + pr.1.2 =? b))
                           (probes_of (a / 5) (a mod 5)))
          (seqZ 0 25).

(** ** What the search computes *)

(* a chain of [n] entries of the adjacency list that leads from cell [a] to
   cell [b] *)
Fixpoint hops (g : Graph) (n : nat) (a b : Z) : Prop :=
  match n with
  | O => a = b
  | Datatypes.S n' => ∃ c, hops g n' a c ∧ listed g c b = true
  end.

(* [d] is the length of the shortest chain from [a] to [b], and 25, the
   value PathFinder uses for infinity, when there is no chain *)
Definition hop_distance (g : Graph) (a b d : Z) : Prop :=
  (d = 25 ∧ ∀ n, ¬ hops g n a b)
  ∨ (0 <= d < 25 ∧ hops g (Z.to_nat d) a b ∧ ∀ n, hops g n a b → d <= Z.of_nat n).

(* node [k] of the node set carries the index [k] *)
Definition numbered (g : Graph) : Prop := map set_index (set g) = seqZ 0 25.

(* the distance recorded for cell [v]; 25 outside the slice *)
Definition dist_at (d : list Z) (v : Z) : Z :=
  match index d v with Ok x => x | _ => 25 end.

(* cell [v] is still in the queue *)
Definition unvisited (u : list node) (v : Z) : Prop := ∃ n, n ∈ u ∧ set_index n = v.

(* The state of the loop of lines 465-498 with queue [u] and distances [d]:
   a distance below 25 is the length of a chain from the start, the cells
   taken from the queue are closed under the adjacency list and no farther
   than the cells in the queue. *)
Record dijkstra_inv (g : Graph) (u : list node) (d : list Z) : Prop := mk_dijkstra_inv {
  dj_queue : len u <= 25;
  dj_range : ∀ v, 0 <= dist_at d v <= 25;
  dj_start : dist_at d (start_node g) = 0;
  dj_sound : ∀ v, dist_at d v < 25 → hops g (Z.to_nat (dist_at d v)) (start_node g) v;
  dj_count : ∀ v, dist_at d v < 25 → dist_at d v <= 25 - len u;
  dj_visited : ∀ v, 0 <= v < 25 → ¬ unvisited u v → dist_at d v < 25 - len u;
  dj_closed : ∀ v w, 0 <= v < 25 → ¬ unvisited u v → listed g v w = true →
                dist_at d w <= dist_at d v + 1;
  dj_order : ∀ v w, 0 <= v < 25 → ¬ unvisited u v → unvisited u w →
               dist_at d v <= dist_at d w
}.

(* the distances when the loop has ended *)
Definition settled (g : Graph) (d : list Z) : Prop :=
  (∀ v, 0 <= dist_at d v <= 25) ∧
  dist_at d (start_node g) = 0 ∧
  (∀ v, dist_at d v < 25 → hops g (Z.to_nat (dist_at d v)) (start_node g) v) ∧
  (∀ v w, dist_at d v < 25 → listed g v w = true →
     dist_at d w <= dist_at d v + 1 ∧ dist_at d w < 25).

(** ** The console *)

(* Standard input is a terminal, read a line at a time: the scanner of
   EditGraph and the scanners coordinateInput makes each get the next line
   typed.  [input n] is the text of line [n], without its line end. *)
Definition stdin : Type := nat → string.

(* the number of lines read so far and the lines printed so far *)
Record console : Type := mk_console {
  lines_read : nat;
  printed : list string
}.

(* fmt.Println(s), and fmt.Print of a text that ends the line *)
Definition Println (s : string) (c : console) : console :=
  mk_console (lines_read c) (printed c ++ [s])%list.

(* scanner.Scan(); scanner.Text() *)
Definition Scan (input : stdin) (c : console) : string * console :=
  (input (lines_read c), mk_console (Datatypes.S (lines_read c)) (printed c)).

(** ** strconv.Atoi *)

Inductive num_error : Type := ErrSyntax | ErrRange.

(* [c - '0'] for a decimal digit *)
Definition digit (c : Ascii.ascii) : option Z :=
  let n := Z.of_nat (Ascii.nat_of_ascii c) in
  if (48 <=? n) && (n <=? 57) then Some (n - 48) else None.

(* the loop of ParseUint(s, 10, 64), which stops at the first overflow *)
Fixpoint ParseUint_from (n : Z) (s : string) : Z * option num_error :=
  match s with
  | EmptyString => (n, None)
  | String c s' =>
      match digit c with
      | None => (0, Some ErrSyntax)
      | Some d =>
          if (2 ^ 64 - 1) / 10 + 1 <=? n then (2 ^ 64 - 1, Some ErrRange)
          else
            let n1 := n * 10 + d in
            if 2 ^ 64 - 1 <? n1 then (2 ^ 64 - 1, Some ErrRange)
            else ParseUint_from n1 s'
      end
  end.

Definition ParseUint (s : string) : Z * option num_error :=
  match s with
  | EmptyString => (0, Some ErrSyntax)
  | _ => ParseUint_from 0 s
  end.

(* ParseInt(s, 10, 0) *)
Definition ParseInt (s : string) : Z * option num_error :=
  match s with
  | EmptyString => (0, Some ErrSyntax)
  | String c rest =>
      let '(neg, body) :=
        if Z.of_nat (Ascii.nat_of_ascii c) =? 43 (* '+' *) then (false, rest)
        else if Z.of_nat (Ascii.nat_of_ascii c) =? 45 (* '-' *) then (true, rest)
        else (false, s) in
      let '(un, err) := ParseUint body in
      match err with
      | Some ErrSyntax => (0, err)
      | _ =>
          if negb neg && (2 ^ 63 <=? un) then (2 ^ 63 - 1, Some ErrRange)
          else if neg && (2 ^ 63 <? un) then (- 2 ^ 63, Some ErrRange)
          else (if neg then - un else un, None)
      end
  end.

(* the value, and whether the error is not nil *)
Definition Atoi (s : string) : Z * bool :=
  let '(n, err) := ParseInt s in (n, bool_decide (err ≠ None)).

(** ** The editor *)

(* fmt.Println of a slice of strings *)
Definition show_row (row : list string) : string :=
  "[" ++ String.concat " " row ++ "]".

(* PrintGrid *)
Definition PrintGrid (g : Graph) (c : console) : result console :=
  for_lt 0 (len (gridMatrix g)) (λ i c,
    row ← index (gridMatrix g) i;
    mret (Println (show_row row) c)) c.

(* coordinateInput *)
Definition coordinateInput (input : stdin) (c : console) : Z * Z * console :=
  let c := Println "x coordinate:" c in
  let '(x_input, c) := Scan input c in
  let c := Println "y coordinate:" c in
  let '(y_input, c) := Scan input c in
  let '(x, errx) := Atoi x_input in
  let c := if errx then Println "Error, input an integer" c else c in
  let '(y, erry) := Atoi y_input in
  let c := if erry then Println "Error, input an integer" c else c in
  (x, y, c).

(* the graph and the locals of EditGraph *)
Record editor : Type := mk_editor {
  ed_graph : Graph;
  startPos : Z * Z;
  goalPos : Z * Z;
  start_chosen : bool;
  goal_chosen : bool
}.

Definition with_graph (st : editor) (g : Graph) : editor :=
  mk_editor g (startPos st) (goalPos st) (start_chosen st) (goal_chosen st).

Definition prompt : string :=
  "Wall block (b), wall (w), start (s), goal (g) or clear (c)? Type 'exit' when done ".

(* One round of the question loop of EditGraph, lines 107-163; the flag
   says whether the loop is left. *)
Definition question (input : stdin) (st : editor) (c : console)
  : result (editor * console * bool) :=
  let g := ed_graph st in
  let c := Println "Current grid:" c in
  c ← PrintGrid g c;
  let c := Println prompt c in
  let '(inp, c) := Scan input c in
  if String.eqb inp "c" then
    g ← NewGrid g; mret (with_graph st g, c, false)
  else if String.eqb inp "b" then
    let '(x, y, c) := coordinateInput input c in
    g ← MakeWallBlock x y g; mret (with_graph st g, c, false)
  else if String.eqb inp "w" then
    let c := Println "First point:" c in
    let '(x1, y1, c) := coordinateInput input c in
    let c := Println "Second point:" c in
    let '(x2, y2, c) := coordinateInput input c in
    '(g, out) ← MakeWall x1 y1 x2 y2 g;
    mret (with_graph st g, mk_console (lines_read c) (printed c ++ out)%list, false)
  else if String.eqb inp "s" then
    let '(x, y, c) := coordinateInput input c in
    let '(x_prev, y_prev) := startPos st in
    cur ← index2 (gridMatrix g) y_prev x_prev;
    m ← (if negb (String.eqb cur "g") then store2 (gridMatrix g) y_prev x_prev " "
         else mret (gridMatrix g));
    m ← store2 m y x "s";
    mret (mk_editor (with_gridMatrix g m) (x, y) (goalPos st) true (goal_chosen st),
          c, false)
  else if String.eqb inp "g" then
    let '(x, y, c) := coordinateInput input c in
    let '(x_prev, y_prev) := goalPos st in
    cur ← index2 (gridMatrix g) y_prev x_prev;
    m ← (if negb (String.eqb cur "s") then store2 (gridMatrix g) y_prev x_prev " "
         else mret (gridMatrix g));
    m ← store2 m y x "g";
    mret (mk_editor (with_gridMatrix g m) (startPos st) (x, y) (start_chosen st) true,
          c, false)
  else if String.eqb inp "exit" then
    if start_chosen st && goal_chosen st then mret (st, c, true)
    else mret (st, Println "You must choose both start and goal." c, false)
  else mret (st, Println "Invalid choice. Try again" c, false).

(* the question loop; [fuel] bounds the number of rounds *)
Fixpoint questionLoop (fuel : nat) (input : stdin) (st : editor) (c : console)
  : result (editor * console) :=
  match fuel with
  | O => Timeout
  | Datatypes.S fuel' =>
      '(next, leave) ← question input st c;
      if (leave : bool) then mret next else questionLoop fuel' input next.1 next.2
  end.

(* EditGraph *)
Definition EditGraph (fuel : nat) (input : stdin) (g : Graph) (c : console)
  : result (Graph * console) :=
  '(st, c) ← questionLoop fuel input (mk_editor g (0, 0) (0, 0) false false) c;
  g ← fillAdjecencyList (ed_graph st);
  mret (g, c).

(* the cell a position names *)
Definition cell_of (pos : Z * Z) : Z := 5 * pos.2 + pos.1.

Definition in_grid (pos : Z * Z) : Prop := 0 <= pos.1 < 5 ∧ 0 <= pos.2 < 5.

(* the lines typed at the terminal, in order *)
Definition typed (lines : list string) : stdin := λ n, nth n lines "".

(* the locals of EditGraph when its loop is entered *)
Definition editing (g : Graph) : editor := mk_editor g (0, 0) (0, 0) false false.

(* what every round prints before it reads the answer *)
Definition asked (g : Graph) : list string :=
  ("Current grid:" :: map show_row (gridMatrix g) ++ [prompt])%list.

(* a session at the terminal: start at (1,2), goal at (4,3), exit *)
Definition edit_session : result (Graph * console) :=
  EditGraph 3 (typed ["s"; "1"; "2"; "g"; "4"; "3"; "exit"]) empty5 (mk_console 0 []).

Definition edited5 : Graph :=
  Eval vm_compute in match edit_session with Ok (g, _) => g | _ => blank 5 5 end.

Definition edited_console : console :=
  Eval vm_compute in match edit_session with Ok (_, c) => c | _ => mk_console 0 [] end.

(* the predecessor recorded for cell [v]; 0 outside the slice *)
Definition prev_at (p : list Z) (v : Z) : Z :=
  match index p v with Ok x => x | _ => 0 end.

(* The predecessor of a cell with a distance below 25, the start apart, has
   that cell in its adjacency list and is nearer to the start. *)
Definition pred_inv (g : Graph) (dp : list Z * list Z) : Prop :=
  ∀ v, v ≠ start_node g → dist_at dp.1 v < 25 →
    listed g (prev_at dp.2 v) v = true ∧
    dist_at dp.1 (prev_at dp.2 v) + 1 <= dist_at dp.1 v.

(** * Lemmas *)

(** ** Integers and slices *)

Lemma wrap_small z : - 2 ^ 63 <= z < 2 ^ 63 → Int.wrap z = z.
Proof.
  intros Hz. unfold Int.wrap.
  change Int.half with (2 ^ 63).
  destruct (Z.leb_spec (- 2 ^ 63) z); [| lia].
  destruct (Z.ltb_spec z (2 ^ 63)); [done | lia].
Qed.

Lemma len_nonneg {A} (l : list A) : 0 <= len l.
Proof. unfold len. lia. Qed.

Lemma index_Ok {A} (l : list A) i a :
  index l i = Ok a ↔ 0 <= i ∧ l !! Z.to_nat i = Some a.
Proof.
  unfold index. destruct (Z.ltb_spec i 0).
  - split; [discriminate | lia].
  - destruct (l !! Z.to_nat i) eqn:E; split.
    + intros [= ->]. split; [lia | done].
    + intros [_ [= ->]]. done.
    + discriminate.
    + intros [_ [=]].
Qed.

Lemma index_in_range {A} (l : list A) i :
  0 <= i < len l → ∃ a, index l i = Ok a ∧ l !! Z.to_nat i = Some a.
Proof.
  intros Hi. unfold len in Hi.
  destruct (lookup_lt_is_Some_2 l (Z.to_nat i)) as [a Ha]; [lia |].
  exists a. split; [| done]. apply index_Ok. split; [lia | done].
Qed.

Lemma index_out_of_range {A} (l : list A) i :
  i < 0 ∨ len l <= i → index l i = Panic IndexOutOfRange.
Proof.
  intros Hi. unfold index, len in *. destruct (Z.ltb_spec i 0); [done |].
  rewrite lookup_ge_None_2; [done | lia].
Qed.

(* an index expression never yields anything but a value or that panic *)
Lemma index_cases {A} (l : list A) i :
  (∃ a, index l i = Ok a) ∨ index l i = Panic IndexOutOfRange.
Proof.
  unfold index. destruct (i <? 0); [by right |].
  destruct (l !! Z.to_nat i); [left; eauto | by right].
Qed.

Lemma store_in_range {A} (l : list A) i a :
  0 <= i < len l → store l i a = Ok (<[Z.to_nat i := a]> l).
Proof.
  intros Hi. unfold store.
  destruct (Z.leb_spec 0 i); [| lia]. destruct (Z.ltb_spec i (len l)); [done | lia].
Qed.

Lemma store_cases {A} (l : list A) i a :
  store l i a = Ok (<[Z.to_nat i := a]> l) ∨ store l i a = Panic IndexOutOfRange.
Proof. unfold store. destruct (_ && _); [by left | by right]. Qed.

Lemma store_Ok_length {A} (l l' : list A) i a :
  store l i a = Ok l' → length l' = length l.
Proof.
  unfold store. destruct (_ && _); [| discriminate].
  intros [= <-]. apply length_insert.
Qed.

Lemma make_ok {A} (zero : A) size n :
  0 <= n → size * n <= 2 ^ 48 → make zero size n = Ok (replicate (Z.to_nat n) zero).
Proof.
  intros Hn Hmem. unfold make, maxAlloc.
  destruct (Z.ltb_spec n 0); [lia |]. destruct (Z.ltb_spec (2 ^ 48) (size * n)); [lia | done].
Qed.


Lemma index2_cases {A} (m : list (list A)) y x :
  (∃ a, index2 m y x = Ok a) ∨ index2 m y x = Panic IndexOutOfRange.
Proof.
  unfold index2. destruct (index_cases m y) as [[row ->] | ->]; [| by right].
  apply index_cases.
Qed.

(** ** Loops *)

Lemma bind_Ok {A B} (m : result A) (f : A → result B) b :
  m ≫= f = Ok b ↔ ∃ a, m = Ok a ∧ f a = Ok b.
Proof.
  destruct m; simpl; split; try (intros [? [? ?]]); try done; eauto.
  congruence.
Qed.

Lemma bind_Ok_l {A B} (a : A) (f : A → result B) : Ok a ≫= f = f a.
Proof. reflexivity. Qed.

(* Hoare rule of the counted loop: an invariant kept by a body that does not
   fail is kept by the loop, which does not fail either. *)
Lemma for_range_inv {S} (I : Z → S → Prop) (body : Z → S → result S) n i s :
  I i s →
  (∀ j t, i <= j < i + Z.of_nat n → I j t → ∃ t', body j t = Ok t' ∧ I (j + 1) t') →
  ∃ s', for_range n i body s = Ok s' ∧ I (i + Z.of_nat n) s'.
Proof.
  revert i s. induction n as [| n IH]; intros i s Hs Hbody.
  - exists s. split; [done |]. by replace (i + Z.of_nat 0) with i by lia.
  - destruct (Hbody i s) as (t & Ht & HIt); [lia | done |].
    destruct (IH (i + 1) t) as (s' & Hs' & HIs'); [done | |].
    + intros j u Hj Hu. apply Hbody; [lia | done].
    + exists s'. simpl. rewrite Ht. simpl. split; [done |].
      by replace (i + Z.of_nat (Datatypes.S n)) with (i + 1 + Z.of_nat n) by lia.
Qed.

(* A loop whose rounds end or fail out of range does the same. *)
Lemma for_range_cases {S} (I : S → Prop) (body : Z → S → result S) n i s :
  I s →
  (∀ j t, I t → (∃ t', body j t = Ok t' ∧ I t') ∨ body j t = Panic IndexOutOfRange) →
  (∃ s', for_range n i body s = Ok s' ∧ I s')
  ∨ for_range n i body s = Panic IndexOutOfRange.
Proof.
  intros Hs Hbody. revert i s Hs. induction n as [| n IH]; intros i s Hs.
  - left. by exists s.
  - simpl. destruct (Hbody i s Hs) as [(t & -> & Ht) | ->]; [| by right].
    rewrite bind_Ok_l. by apply IH.
Qed.

(* If moreover round [k] fails whatever the state, the loop fails. *)
Lemma for_range_panics {S} (I : S → Prop) (body : Z → S → result S) n i s k :
  i <= k < i + Z.of_nat n → I s →
  (∀ j t, I t → (∃ t', body j t = Ok t' ∧ I t') ∨ body j t = Panic IndexOutOfRange) →
  (∀ t, I t → body k t = Panic IndexOutOfRange) →
  for_range n i body s = Panic IndexOutOfRange.
Proof.
  intros Hk Hs Hbody Hfail. revert i s Hk Hs.
  induction n as [| n IH]; intros i s Hk Hs; [lia |].
  simpl. destruct (decide (i = k)) as [-> | Hne].
  - by rewrite Hfail.
  - destruct (Hbody i s Hs) as [(t & -> & Ht) | ->]; [| done].
    rewrite bind_Ok_l. apply IH; [lia | done].
Qed.

Lemma range_from_inv {A S} (I : nat → S → Prop) (body : Z → A → S → result S)
    (l : list A) (k : nat) s :
  I k s →
  (∀ j a t, l !! (j - k)%nat = Some a → (k <= j)%nat → I j t →
     ∃ t', body (Z.of_nat j) a t = Ok t' ∧ I (Datatypes.S j) t') →
  ∃ s', range_from l (Z.of_nat k) body s = Ok s' ∧ I (k + length l)%nat s'.
Proof.
  revert k s. induction l as [| a l IH]; intros k s Hs Hbody.
  - exists s. split; [done |]. by rewrite Nat.add_0_r.
  - destruct (Hbody k a s) as (t & Ht & HIt); [by rewrite Nat.sub_diag | lia | done |].
    destruct (IH (Datatypes.S k) t) as (s' & Hs' & HIs'); [done | |].
    + intros j b u Hb Hj Hu. apply Hbody; [| lia | done].
      replace (j - k)%nat with (Datatypes.S (j - Datatypes.S k)) by lia. done.
    + exists s'. simpl. rewrite Ht. simpl.
      replace (Z.of_nat k + 1) with (Z.of_nat (Datatypes.S k)) by lia.
      split; [done |]. by replace (k + Datatypes.S (length l))%nat
        with (Datatypes.S k + length l)%nat by lia.
Qed.

(** ** Grids of five rows of five cells *)

Lemma grid_shape_5_5 m :
  grid_shape 5 5 m →
  ∃ a0 a1 a2 a3 a4 b0 b1 b2 b3 b4 c0 c1 c2 c3 c4 d0 d1 d2 d3 d4 e0 e1 e2 e3 e4,
    m = [[a0; a1; a2; a3; a4]; [b0; b1; b2; b3; b4]; [c0; c1; c2; c3; c4];
         [d0; d1; d2; d3; d4]; [e0; e1; e2; e3; e4]].
Proof.
  intros [Hlen Hrows].
  destruct m as [| r0 [| r1 [| r2 [| r3 [| r4 [| ? ?]]]]]]; try discriminate.
  clear Hlen.
  rewrite !Forall_cons in Hrows. destruct Hrows as (? & ? & ? & ? & ? & _).
  repeat match goal with
         | H : length ?r = 5%nat |- _ =>
             destruct r as [| ? [| ? [| ? [| ? [| ? [| ? ?]]]]]]; try done; clear H
         end.
  repeat eexists.
Qed.

Lemma below_5 z : 0 <= z < 5 → z = 0 ∨ z = 1 ∨ z = 2 ∨ z = 3 ∨ z = 4.
Proof. lia. Qed.

Lemma index2_in_grid m y x :
  grid_shape 5 5 m → 0 <= y < 5 → 0 <= x < 5 → ∃ c, index2 m y x = Ok c.
Proof.
  intros [Hlen Hrows] Hy Hx. unfold index2.
  destruct (index_in_range m y) as (row & -> & Hrow); [unfold len; lia |].
  simpl. rewrite Forall_lookup in Hrows. specialize (Hrows _ _ Hrow).
  destruct (index_in_range row x) as (c & -> & _); [unfold len; lia |]. eauto.
Qed.

Lemma store2_in_grid m y x v :
  grid_shape 5 5 m → 0 <= y < 5 → 0 <= x < 5 →
  ∃ m', store2 m y x v = Ok m' ∧ grid_shape 5 5 m'.
Proof.
  intros [Hlen Hrows] Hy Hx. unfold store2.
  destruct (index_in_range m y) as (row & -> & Hrow); [unfold len; lia |].
  simpl. pose proof Hrows as Hrows'.
  rewrite Forall_lookup in Hrows'. specialize (Hrows' _ _ Hrow).
  rewrite store_in_range by (unfold len; lia). simpl.
  rewrite store_in_range by (unfold len; lia).
  eexists. split; [done |]. split.
  - by rewrite length_insert.
  - apply Forall_insert; [done |]. by rewrite length_insert.
Qed.

(** ** The scan of one cell *)

Lemma scan_inv_start : scan_inv 0 (mk_scan (replicate 5 zero_node) 0 0).
Proof. unfold scan_inv. simpl. repeat split; try done. Qed.

Lemma probe_inv m yy xx idx s n :
  scan_inv n s → n < 5 → (∃ c, index2 m yy xx = Ok c) → 0 <= idx < 25 →
  ∃ s', probe m yy xx idx s = Ok s' ∧ scan_inv (n + 1) s'.
Proof.
  intros (Hlen & Hni & Hw & Hsum & Hall) Hn [c Hc] Hidx.
  unfold probe. rewrite Hc. simpl.
  destruct (String.eqb c "#"); simpl.
  - eexists. split; [done |]. unfold Int.add. rewrite wrap_small by lia.
    repeat split; simpl; try done; lia.
  - rewrite store_in_range by (unfold len; lia). simpl.
    eexists. split; [done |]. unfold Int.add. rewrite wrap_small by lia.
    repeat split; simpl; try lia.
    + by rewrite length_insert.
    + replace (Z.to_nat (neighbor_index s + 1))
        with (Datatypes.S (Z.to_nat (neighbor_index s))) by lia.
      rewrite (take_S_r _ _ (mk_node c idx)) by (apply list_lookup_insert_eq; lia).
      apply Forall_app. split; [by rewrite take_insert_ge by lia |].
      apply Forall_singleton. unfold index_ok. simpl. lia.
Qed.

Lemma trim_inv k s :
  scan_inv k s → 0 <= k <= 4 →
  ∃ nbs, trim k s = Ok nbs ∧ (length nbs <= 4)%nat ∧ Forall index_ok nbs.
Proof.
  intros (Hlen & Hni & Hw & Hsum & Hall) Hk.
  unfold trim, slice_to, Int.sub. rewrite wrap_small by lia.
  replace (k - number_of_neighboring_walls s) with (neighbor_index s) by lia.
  destruct (Z.leb_spec 0 (neighbor_index s)); [| lia].
  destruct (Z.leb_spec (neighbor_index s) (len (neighbors s))); [| unfold len in *; lia].
  simpl. eexists. split; [done |]. split; [| done].
  rewrite length_take. lia.
Qed.

Ltac closed_bounds := vm_compute; split; [discriminate | reflexivity].

Ltac probe_step :=
  match goal with
  | Hs : scan_inv _ ?s |- context [probe ?m ?yy ?xx ?idx ?s] =>
      let s' := fresh "s" in
      let E := fresh "E" in
      let Hs' := fresh "Hs" in
      destruct (probe_inv m yy xx idx s _ Hs) as (s' & E & Hs');
      [ lia
      | apply index2_in_grid; [assumption | closed_bounds | closed_bounds]
      | closed_bounds
      | rewrite E; clear E Hs; cbn [mbind result_bind] ]
  end.

(* On a 5 x 5 grid the scan of a cell reads and writes in bounds only, and
   leaves at most four entries, each the index of a cell of the grid. *)
Lemma cell_neighbors_ok m y x :
  grid_shape 5 5 m → 0 <= y < 5 → 0 <= x < 5 →
  ∃ nbs, cell_neighbors m 5 y x = Ok nbs ∧ (length nbs <= 4)%nat ∧ Forall index_ok nbs.
Proof.
  intros Hm Hy Hx. unfold cell_neighbors.
  destruct (index2_in_grid m y x Hm Hy Hx) as [c ->]. cbn [mbind result_bind].
  pose proof scan_inv_start as Hs.
  destruct (String.eqb c "#").
  { exists []. split; [reflexivity |]. split; [simpl; lia | constructor]. }
  destruct (below_5 y Hy) as [-> | [-> | [-> | [-> | ->]]]];
  destruct (below_5 x Hx) as [-> | [-> | [-> | [-> | ->]]]];
  cbn [Z.eqb Pos.eqb];
  repeat probe_step; (apply trim_inv; [assumption | lia]).
Qed.

(** ** The rebuild *)

Lemma cell_number y x : 0 <= x < 5 → (5 * y + x) / 5 = y ∧ (5 * y + x) mod 5 = x.
Proof. intros Hx. Z.div_mod_to_equations. lia. Qed.

Lemma fill_cell_inv g0 y x st :
  grid_shape 5 5 (gridMatrix g0) → 0 <= y < 5 → 0 <= x < 5 →
  fill_inv g0 (5 * y + x) st →
  ∃ st', fill_cell y x st = Ok st' ∧ fill_inv g0 (5 * y + x + 1) st'.
Proof.
  intros Hm Hy Hx. destruct st as [g li].
  intros (Hli & Hgrid & Hw & Hh & Hdist & Hprev & Hset & Hadj & Hstart & Hgoal & Hdone).
  simpl in *. subst li. unfold fill_cell.
  rewrite Hgrid, Hh.
  destruct (index2_in_grid _ y x Hm Hy Hx) as [c Hc]. rewrite Hc.
  cbn [mbind result_bind].
  assert (y *i 5 +i x = 5 * y + x) as ->.
  { unfold Int.add, Int.mul. rewrite (wrap_small (y * 5)) by lia.
    rewrite wrap_small by lia. lia. }
  rewrite store_in_range by (unfold len; lia). cbn [mbind result_bind].
  destruct (cell_neighbors_ok _ y x Hm Hy Hx) as (nbs & Hnbs & _ & Hnbs_ok).
  set (g1 := if String.eqb c "s" then _ else _).
  assert (gridMatrix g1 = gridMatrix g0 ∧ adjecencyList g1 = adjecencyList g ∧
          set g1 = <[Z.to_nat (5 * y + x) := mk_node c (5 * y + x)]> (set g) ∧
          grid_width g1 = 5 ∧ grid_height g1 = 5 ∧ dist g1 = dist g0 ∧ prev g1 = prev g0 ∧
          (start_node g1 = start_node g0 ∨ 0 <= start_node g1 < 25) ∧
          (goal_node g1 = goal_node g0 ∨ 0 <= goal_node g1 < 25))
    as (Hgrid1 & Hadj1 & Hset1 & Hw1 & Hh1 & Hdist1 & Hprev1 & Hstart1 & Hgoal1).
  { subst g1. destruct (String.eqb c "s"); [| destruct (String.eqb c "g")]; simpl;
      repeat split; try done; right; lia. }
  clearbody g1. rewrite Hgrid1, Hnbs, Hadj1. cbn [mbind result_bind].
  rewrite store_in_range by (unfold len; lia). cbn [mbind result_bind mret result_ret].
  eexists. split; [reflexivity |].
  unfold fill_inv. simpl. rewrite Hset1, !length_insert.
  split. { unfold Int.add. rewrite wrap_small; lia. }
  repeat split; try done.
  - destruct (decide (j = 5 * y + x)) as [-> | Hne].
    + destruct (cell_number y x Hx) as [-> ->]. exists c. split; [done |].
      apply list_lookup_insert_eq. lia.
    + destruct (Hdone j) as [(c' & Hc' & Hs') _]; [lia |]. exists c'. split; [done |].
      rewrite list_lookup_insert_ne by lia. done.
  - destruct (decide (j = 5 * y + x)) as [-> | Hne].
    + destruct (cell_number y x Hx) as [-> ->]. exists nbs. split; [done |]. split; [| done].
      apply list_lookup_insert_eq. lia.
    + destruct (Hdone j) as [_ (nbs' & Hn' & Ha' & Hok')]; [lia |].
      exists nbs'. split; [done |]. split; [| done].
      rewrite list_lookup_insert_ne by lia. done.
Qed.

(* The rebuild of a well-formed graph does not fail; it leaves the grid, the
   distances and the predecessors as they were and an adjacency list that is
   the scan of the grid. *)
Lemma fillAdjecencyList_ok g :
  wf5 g →
  ∃ g', fillAdjecencyList g = Ok g' ∧ wf5 g' ∧ rebuilt g' ∧
        gridMatrix g' = gridMatrix g ∧ dist g' = dist g ∧ prev g' = prev g ∧
        (start_node g' = start_node g ∨ 0 <= start_node g' < 25) ∧
        (goal_node g' = goal_node g ∨ 0 <= goal_node g' < 25).
Proof.
  intros [Hw Hh Hm Hset _ Hadj _ Hdist Hprev Hprev_ok].
  unfold fillAdjecencyList, for_lt. cbv zeta. rewrite Hw, Hh.
  change (Z.to_nat (5 - 0)) with 5%nat.
  destruct (for_range_inv (λ y st, fill_inv g (5 * y) st)
              (λ y s, for_range 5 0 (λ x, fill_cell y x) s) 5 0 (g, 0))
    as ([g' li] & -> & Hinv).
  { unfold fill_inv. simpl. repeat split; try done; try (by left); lia. }
  { intros y st Hy Hst.
    destruct (for_range_inv (λ x st, fill_inv g (5 * y + x) st)
                (λ x, fill_cell y x) 5 0 st) as (st' & Hst' & Hinv').
    - by replace (5 * y + 0) with (5 * y) by lia.
    - intros x t Hx Ht.
      destruct (fill_cell_inv g y x t) as (t' & Ht' & Hinv''); try done; try lia.
      exists t'. split; [done |]. by replace (5 * y + (x + 1)) with (5 * y + x + 1) by lia.
    - exists st'. split; [done |].
      by replace (5 * (y + 1)) with (5 * y + (0 + Z.of_nat 5)) by lia. }
  destruct Hinv as (_ & Hgrid & Hw' & Hh' & Hdist' & Hprev' & Hset' & Hadj' & Hstart & Hgoal & Hdone).
  simpl in *. exists g'. split; [done |].
  assert (Forall index_ok (set g')) as Hset_ok.
  { apply Forall_lookup. intros i n Hn.
    destruct (Hdone (Z.of_nat i)) as [(c & _ & Hc) _].
    { apply lookup_lt_Some in Hn. lia. }
    rewrite Nat2Z.id in Hc. assert (n = mk_node c (Z.of_nat i)) as -> by congruence.
    apply lookup_lt_Some in Hn. unfold index_ok. simpl. lia. }
  assert (Forall (Forall index_ok) (adjecencyList g')) as Hadj_ok.
  { apply Forall_lookup. intros i nbs Hn.
    destruct (Hdone (Z.of_nat i)) as [_ (nbs' & _ & Hc & Hok)].
    { apply lookup_lt_Some in Hn. lia. }
    rewrite Nat2Z.id in Hc. congruence. }
  split. { constructor; try done; congruence. }
  split; [| done].
  intros y x Hy Hx.
  destruct (Hdone (5 * y + x)) as [_ (nbs & Hnbs & Hl & _)]; [lia |].
  destruct (cell_number y x Hx) as [E1 E2]. rewrite E1, E2 in Hnbs.
  rewrite Hgrid, Hnbs. replace (y * 5 + x) with (5 * y + x) by lia.
  apply index_Ok. split; [lia | done].
Qed.

(** ** The search *)

(* Lines 457-460 copy the node set into [unvisitedNodes] and reset every
   distance to [inf]. *)
Lemma init_search_ok g inf u0 :
  length u0 = length (set g) → length (dist g) = length (set g) →
  init_search g inf u0 = Ok (set g, replicate (length (set g)) inf).
Proof.
  intros Hu0 Hd. unfold init_search, range.
  destruct (range_from_inv
    (λ k (st : list node * list Z),
       (k <= length (set g))%nat ∧
       st.1 = (take k (set g) ++ drop k u0)%list ∧
       st.2 = (replicate k inf ++ drop k (dist g))%list)
    (λ ix nd '(unvisited, dist),
       unvisited ← store unvisited ix nd;
       dist ← store dist ix inf; mret (unvisited, dist))
    (set g) 0%nat (u0, dist g)) as ([u d] & Hrun & _ & Hu & Hdd).
  - simpl. rewrite !drop_0. repeat split; try done. lia.
  - intros j a [u d] Ha _ (Hj & Hu & Hdd). rewrite Nat.sub_0_r in Ha. simpl in *.
    pose proof (lookup_lt_Some _ _ _ Ha) as Hlt.
    assert (length u = length (set g)) as Hlu.
    { rewrite Hu, length_app, length_take, length_drop. lia. }
    assert (length d = length (set g)) as Hld.
    { rewrite Hdd, length_app, length_replicate, length_drop. lia. }
    rewrite store_in_range by (unfold len; lia). cbn [mbind result_bind].
    rewrite store_in_range by (unfold len; lia). cbn [mbind result_bind mret result_ret].
    eexists. split; [reflexivity |]. simpl. rewrite Nat2Z.id.
    split; [lia |]. split.
    + rewrite Hu. rewrite insert_app_r_alt by (rewrite length_take; lia).
      rewrite length_take. replace (j - j `min` length (set g))%nat with 0%nat by lia.
      destruct (lookup_lt_is_Some_2 u0 j) as [b Hb]; [lia |].
      rewrite (drop_S _ _ _ Hb). simpl.
      rewrite (take_S_r _ _ _ Ha). by rewrite <- app_assoc.
    + rewrite Hdd. rewrite insert_app_r_alt by (rewrite length_replicate; lia).
      rewrite length_replicate. replace (j - j)%nat with 0%nat by lia.
      destruct (lookup_lt_is_Some_2 (dist g) j) as [b Hb]; [lia |].
      rewrite (drop_S _ _ _ Hb). simpl.
      rewrite cons_middle, app_assoc, <- replicate_cons_app. done.
  - change (Z.of_nat 0) with 0 in Hrun. rewrite Hrun. simpl in *.
    rewrite Hu, Hdd. rewrite take_ge, !drop_ge, !app_nil_r by lia. done.
Qed.

(* Lines 468-476: the scan for the minimum reads [dist] in bounds and
   returns a position of [unvisitedNodes]. *)
Lemma find_min_ok d inf u :
  length d = 25%nat → Forall index_ok u →
  ∃ mn mi, find_min d inf u = Ok (mn, mi) ∧ 0 <= mi ∧ (mi < len u ∨ mi = 0).
Proof.
  intros Hd Hu. unfold find_min, range.
  destruct (range_from_inv
    (λ k (st : Z * Z), 0 <= st.2 ∧ (st.2 < Z.of_nat k ∨ st.2 = 0))
    (λ ix current_node '(min, min_index),
       d0 ← index d (set_index current_node);
       if d0 <? min then mret (d0, ix) else mret (min, min_index))
    u 0%nat (inf, 0)) as ([mn mi] & Hrun & Hmi & Hlt).
  - simpl. lia.
  - intros j a [mn mi] Ha _ [Hmi Hlt]. simpl in *.
    rewrite Forall_lookup in Hu. specialize (Hu _ _ Ha).
    destruct (index_in_range d (set_index a)) as (da & -> & _).
    { unfold len, index_ok in *. lia. }
    cbn [mbind result_bind]. destruct (da <? mn); eexists; (split; [reflexivity |]);
      simpl; lia.
  - exists mn, mi. change (Z.of_nat 0) with 0 in Hrun. simpl in *.
    split; [done |]. split; [done |]. unfold len. lia.
Qed.

(* Lines 489-497: relaxing the neighbours of a node of the grid. *)
Lemma relax_ok adj curr_node dp u :
  length adj = 25%nat → Forall (Forall index_ok) adj → index_ok curr_node →
  search_inv u dp →
  ∃ dp', relax adj curr_node dp = Ok dp' ∧ search_inv u dp'.
Proof.
  intros Hadj Hadj_ok Hcurr Hinv. unfold relax.
  destruct (index_in_range adj (set_index curr_node)) as (nbs & -> & Hnbs).
  { unfold len, index_ok in *. lia. }
  cbn [mbind result_bind].
  rewrite Forall_lookup in Hadj_ok. specialize (Hadj_ok _ _ Hnbs).
  unfold range.
  destruct (range_from_inv (λ _ st, search_inv u st)
    (λ (_ : Z) neighbor '(dist, prev),
       dc ← index dist (set_index curr_node);
       let alt := dc +i 1 in
       dn ← index dist (set_index neighbor);
       if alt <? dn then
         dist ← store dist (set_index neighbor) alt;
         prev ← store prev (set_index neighbor) (set_index curr_node);
         mret (dist, prev)
       else mret (dist, prev))
    nbs 0%nat dp) as (dp' & Hrun & Hinv'); [done | | by eauto].
  intros j a [d p] Ha _ (Hu & Hd & Hp & Hp_ok). simpl in *.
  rewrite Forall_lookup in Hadj_ok. specialize (Hadj_ok _ _ Ha).
  destruct (index_in_range d (set_index curr_node)) as (dc & -> & _).
  { unfold len, index_ok in *. lia. }
  cbn [mbind result_bind].
  destruct (index_in_range d (set_index a)) as (dn & -> & _).
  { unfold len, index_ok in *. lia. }
  cbn [mbind result_bind].
  destruct ((dc +i 1) <? dn).
  - rewrite store_in_range by (unfold len, index_ok in *; lia). cbn [mbind result_bind].
    rewrite store_in_range by (unfold len, index_ok in *; lia).
    eexists. split; [reflexivity |]. unfold search_inv. simpl.
    rewrite !length_insert. repeat split; try done.
    apply Forall_insert; [done | apply Hcurr].
  - eexists. split; [reflexivity |]. done.
Qed.

(* Lines 465-498: the loop ends within [length unvisitedNodes] rounds and
   reads and writes in bounds only. *)
Lemma search_ok adj inf fuel u dp :
  length adj = 25%nat → Forall (Forall index_ok) adj →
  length u = fuel → (fuel <= 25)%nat → search_inv u dp →
  ∃ dp', search fuel adj inf u dp = Ok dp' ∧ search_inv [] dp'.
Proof.
  intros Hadj Hadj_ok. revert u dp.
  induction fuel as [| fuel IH]; intros u dp Hlen Hfuel Hinv.
  - destruct u; [| done]. simpl. exists dp. split; [done |].
    destruct Hinv as (_ & ? & ? & ?). by split.
  - assert ((0 <? len u) = true) as Hpos by (apply Z.ltb_lt; unfold len; lia).
    cbn [search]. rewrite Hpos.
    destruct Hinv as (Hu & Hd & Hp & Hp_ok).
    destruct (find_min_ok dp.1 inf u Hd Hu) as (mn & mi & -> & Hmi & Hlt).
    cbn [mbind result_bind].
    assert (0 <= mi < len u) as Hmi' by (unfold len in *; lia).
    destruct (index_in_range u mi Hmi') as (curr & -> & Hcurr_at).
    cbn [mbind result_bind].
    assert (index_ok curr) as Hcurr.
    { rewrite Forall_lookup in Hu. by apply (Hu _ _ Hcurr_at). }
    destruct (index_in_range dp.1 (set_index curr)) as (dc & -> & _).
    { unfold len, index_ok in *. lia. }
    cbn [mbind result_bind].
    destruct (dc =? inf).
    { exists dp. split; [done |]. by split. }
    set (u' := (take (Z.to_nat mi) u ++ drop (Z.to_nat (mi +i 1)) u)%list).
    assert (Forall index_ok u') as Hu'.
    { apply Forall_app. split; [by apply Forall_take | by apply Forall_drop]. }
    assert (length u' = fuel) as Hlen'.
    { subst u'. unfold Int.add. rewrite wrap_small by (unfold len in *; lia).
      rewrite length_app, length_take, length_drop. unfold len in *. lia. }
    destruct (relax_ok adj curr dp u') as (dp' & -> & Hinv'); try done.
    cbn [mbind result_bind]. apply IH; [done | lia | done].
Qed.

(** ** Marking the path *)

(* Lines 503-504 turn a positive index below 25 into a column and a row. *)
Lemma path_cell i :
  0 < i < 25 →
  Int.rem i 5 = i mod 5 ∧ Int.quot (i -i Int.rem i 5) 5 = i / 5.
Proof.
  intros Hi. unfold Int.rem, Int.quot, Int.sub.
  rewrite Z.rem_mod_nonneg by lia.
  assert (0 <= i mod 5 < 5) by (apply Z.mod_pos_bound; lia).
  rewrite (wrap_small (i - i mod 5)) by lia.
  rewrite Z.quot_div_nonneg by (Z.div_mod_to_equations; lia).
  assert ((i - i mod 5) / 5 = i / 5) as -> by (Z.div_mod_to_equations; lia).
  split; [done |]. apply wrap_small. Z.div_mod_to_equations. lia.
Qed.

(* Lines 502-507 write cells of the grid only and read [prev] in bounds; the
   walk may go on for ever. *)
Lemma mark_path_safe fuel prev i grid :
  length prev = 25%nat → Forall (λ p, 0 <= p < 25) prev → i < 25 →
  grid_shape 5 5 grid →
  mark_path fuel prev i grid = Timeout ∨
  ∃ grid', mark_path fuel prev i grid = Ok grid' ∧ grid_shape 5 5 grid'.
Proof.
  intros Hlen Hprev. revert i grid.
  induction fuel as [| fuel IH]; intros i grid Hi Hgrid; cbn [mark_path];
    destruct (Z.ltb_spec 0 i); try (right; by eauto); [by left |].
  destruct (path_cell i) as [-> ->]; [lia |].
  destruct (store2_in_grid grid (i / 5) (i mod 5) "." Hgrid) as (grid' & -> & Hgrid').
  { Z.div_mod_to_equations. lia. }
  { apply Z.mod_pos_bound. lia. }
  cbn [mbind result_bind].
  destruct (index_in_range prev i) as (i' & -> & Hi'); [unfold len; lia |].
  cbn [mbind result_bind]. apply IH; [| done].
  rewrite Forall_lookup in Hprev. specialize (Hprev _ _ Hi'). lia.
Qed.

(** ** PathFinder reads and writes in bounds *)

Lemma search_phase_ok g :
  wf5 g → 0 <= start_node g < 25 →
  ∃ d p, search_phase g = Ok (d, p) ∧ length d = 25%nat ∧ length p = 25%nat ∧
         Forall (λ i, 0 <= i < 25) p.
Proof.
  intros [Hw Hh Hm Hset Hset_ok Hadj Hadj_ok Hdist Hprev Hprev_ok] Hstart.
  unfold search_phase.
  assert (len (adjecencyList g) = 25) as -> by (unfold len; lia).
  assert (len (set g) = 25) as -> by (unfold len; lia).
  rewrite make_ok, bind_Ok_l by lia.
  rewrite init_search_ok by (rewrite ?length_replicate; lia).
  rewrite bind_Ok_l, Hset.
  rewrite store_in_range by (unfold len; rewrite length_replicate; lia).
  rewrite bind_Ok_l.
  destruct (search_ok (adjecencyList g) 25 25 (set g)
              (<[Z.to_nat (start_node g) := 0]> (replicate 25 25), prev g))
    as ([d p] & -> & _ & Hd & Hp & Hp_ok); try done; try lia.
  { unfold search_inv. cbn [fst snd]. rewrite length_insert, length_replicate. done. }
  exists d, p. done.
Qed.

(* With the start not placed, the write of its distance is out of range. *)
Lemma search_phase_unplaced g :
  wf5 g → ¬ 0 <= start_node g < 25 → search_phase g = Panic IndexOutOfRange.
Proof.
  intros [Hw Hh Hm Hset Hset_ok Hadj Hadj_ok Hdist Hprev Hprev_ok] Hstart.
  unfold search_phase.
  assert (len (adjecencyList g) = 25) as -> by (unfold len; lia).
  assert (len (set g) = 25) as -> by (unfold len; lia).
  rewrite make_ok, bind_Ok_l by lia.
  rewrite init_search_ok by (rewrite ?length_replicate; lia).
  rewrite bind_Ok_l, Hset.
  unfold store, len. rewrite length_replicate.
  destruct (Z.leb_spec 0 (start_node g)); [| reflexivity].
  destruct (Z.ltb_spec (start_node g) (Z.of_nat 25)); [lia | reflexivity].
Qed.

Lemma PathFinder_safe fuel g :
  wf5 g → placed g →
  PathFinder fuel g = Timeout ∨
  ∃ g' d, PathFinder fuel g = Ok (g', d) ∧ wf5 g' ∧
          set g' = set g ∧ adjecencyList g' = adjecencyList g ∧
          start_node g' = start_node g ∧ goal_node g' = goal_node g.
Proof.
  intros Hg [Hstart Hgoal].
  destruct (search_phase_ok g Hg Hstart) as (d & p & Hrun & Hd & Hp & Hp_ok).
  destruct Hg as [Hw Hh Hm Hset Hset_ok Hadj Hadj_ok Hdist Hprev Hprev_ok].
  unfold PathFinder. rewrite Hrun, bind_Ok_l. clear Hrun. cbv zeta.
  assert (len (set g) = 25) as -> by (unfold len; lia).
  destruct (index_in_range p (goal_node g)) as (i & -> & Hi); [unfold len; lia |].
  rewrite bind_Ok_l.
  rewrite Forall_lookup in Hp_ok. pose proof (Hp_ok _ _ Hi) as Hi_ok.
  destruct (mark_path_safe fuel p i (gridMatrix g)) as [-> | (grid' & -> & Hgrid')];
    try done; try lia; [by apply Forall_lookup | by left |].
  rewrite bind_Ok_l.
  destruct (index_in_range d (goal_node g)) as (dg & -> & _); [unfold len; lia |].
  rewrite bind_Ok_l. right.
  destruct (negb (dg =? 25)); eexists _, _; (split; [reflexivity |]);
    (split; [constructor; simpl; try done; by apply Forall_lookup | done]).
Qed.

(* With the start or the goal not placed, the first use of its index is out
   of range. *)
Lemma PathFinder_unplaced fuel g :
  wf5 g → ¬ placed g → PathFinder fuel g = Panic IndexOutOfRange.
Proof.
  intros Hg Hnot. unfold PathFinder.
  assert (0 <= start_node g < 25 ∨ ¬ 0 <= start_node g < 25) as [Hstart | Hstart] by lia.
  - destruct (search_phase_ok g Hg Hstart) as (d & p & -> & Hd & Hp & Hp_ok).
    rewrite bind_Ok_l. cbv zeta.
    assert (index p (goal_node g) = Panic IndexOutOfRange) as ->
      by (apply index_out_of_range; unfold placed, len in *; lia).
    reflexivity.
  - by rewrite search_phase_unplaced.
Qed.

(** ** The editing methods *)

(* an invariant kept by every round that ends is kept by a loop that ends *)
Lemma for_range_Ok_inv {S} (I : S → Prop) (body : Z → S → result S) n i s s' :
  (∀ j t t', body j t = Ok t' → I t → I t') →
  for_range n i body s = Ok s' → I s → I s'.
Proof.
  intros Hbody. revert i s. induction n as [| n IH]; intros i s; simpl.
  - by intros [= ->].
  - destruct (body i s) as [t | |] eqn:Hb; simpl; try done.
    intros Hrun Hs. eapply IH; [done |]. by eapply Hbody.
Qed.

Lemma store2_Ok_shape w h m y x v m' :
  store2 m y x v = Ok m' → grid_shape w h m → grid_shape w h m'.
Proof.
  unfold store2. intros Hrun [Hlen Hrows].
  apply bind_Ok in Hrun as (row & Hrow & Hrun).
  apply bind_Ok in Hrun as (row' & Hrow' & Hrun).
  apply index_Ok in Hrow as [_ Hrow].
  pose proof (store_Ok_length _ _ _ _ Hrow') as Hlen'.
  unfold store in Hrun. destruct (_ && _); [| done]. injection Hrun as <-.
  split; [by rewrite length_insert |].
  rewrite Forall_lookup in Hrows. pose proof (Hrows _ _ Hrow) as Hr.
  apply Forall_insert; [by apply Forall_lookup | congruence].
Qed.

Lemma wf5_with_gridMatrix g m : wf5 g → grid_shape 5 5 m → wf5 (with_gridMatrix g m).
Proof. intros [] Hm. by constructor. Qed.

(* [NewGrid] builds a grid of blanks and rebuilds *)
Lemma fresh_row w :
  0 <= w →
  for_lt 0 w (λ i row, store row i " ") (replicate (Z.to_nat w) "")
  = Ok (replicate (Z.to_nat w) " ").
Proof.
  intros Hw. unfold for_lt. rewrite Z.sub_0_r.
  destruct (for_range_inv
    (λ i (row : list string),
       row = (replicate (Z.to_nat i) " " ++ replicate (Z.to_nat (w - i)) "")%list)
    (λ i row, store row i " ") (Z.to_nat w) 0 (replicate (Z.to_nat w) ""))
    as (row & -> & Hrow).
  - by rewrite Z.sub_0_r.
  - intros j t Hj ->.
    rewrite store_in_range
      by (unfold len; rewrite length_app, !length_replicate; lia).
    eexists. split; [done |].
    rewrite insert_app_r_alt by (rewrite length_replicate; lia).
    rewrite length_replicate, Nat.sub_diag.
    replace (Z.to_nat (w - j)) with (Datatypes.S (Z.to_nat (w - (j + 1)))) by lia.
    replace (Z.to_nat (j + 1)) with (Datatypes.S (Z.to_nat j)) by lia.
    simpl. by rewrite cons_middle, app_assoc, <- replicate_cons_app.
  - rewrite Hrow. replace (Z.to_nat (w - (0 + Z.of_nat (Z.to_nat w)))) with 0%nat by lia.
    replace (Z.to_nat (0 + Z.of_nat (Z.to_nat w))) with (Z.to_nat w) by lia.
    by rewrite app_nil_r.
Qed.

Lemma fresh_rows w h :
  0 <= w → 0 <= h →
  for_lt 0 h (λ i m,
      tmp ← Ok (replicate (Z.to_nat w) "");
      store m i (take (length tmp) (replicate (Z.to_nat w) " ")
                 ++ drop (length (replicate (Z.to_nat w) " ")) tmp)%list)
    (replicate (Z.to_nat h) [])
  = Ok (empty_grid w h).
Proof.
  intros Hw Hh. unfold for_lt, empty_grid. rewrite Z.sub_0_r.
  set (row := replicate (Z.to_nat w) " ").
  match goal with
  | |- for_range ?n ?lo ?body ?s = _ =>
      destruct (for_range_inv
        (λ k (m : list (list string)),
           m = (replicate (Z.to_nat k) row ++ replicate (Z.to_nat (h - k)) [])%list)
        body n lo s) as (m & -> & Hm)
  end.
  - by rewrite Z.sub_0_r.
  - intros j t Hj ->. rewrite bind_Ok_l.
    assert ((take (length (replicate (Z.to_nat w) "")) row
             ++ drop (length row) (replicate (Z.to_nat w) ""))%list = row) as ->.
    { subst row. rewrite !length_replicate.
      rewrite take_ge, drop_ge by (rewrite length_replicate; lia).
      by rewrite app_nil_r. }
    rewrite store_in_range
      by (unfold len; rewrite length_app, !length_replicate; lia).
    eexists. split; [done |].
    rewrite insert_app_r_alt by (rewrite length_replicate; lia).
    rewrite length_replicate, Nat.sub_diag.
    replace (Z.to_nat (h - j)) with (Datatypes.S (Z.to_nat (h - (j + 1)))) by lia.
    replace (Z.to_nat (j + 1)) with (Datatypes.S (Z.to_nat j)) by lia.
    simpl. by rewrite cons_middle, app_assoc, <- replicate_cons_app.
  - rewrite Hm. replace (Z.to_nat (h - (0 + Z.of_nat (Z.to_nat h)))) with 0%nat by lia.
    replace (Z.to_nat (0 + Z.of_nat (Z.to_nat h))) with (Z.to_nat h) by lia.
    by rewrite app_nil_r.
Qed.

Lemma NewGrid_eq g :
  0 <= grid_width g <= 2 ^ 40 → 0 <= grid_height g <= 2 ^ 40 →
  NewGrid g
  = fillAdjecencyList (with_gridMatrix g (empty_grid (grid_width g) (grid_height g))).
Proof.
  intros Hw Hh. unfold NewGrid. cbv zeta.
  rewrite !make_ok, !bind_Ok_l by lia.
  rewrite fresh_row, bind_Ok_l by lia.
  by rewrite fresh_rows, bind_Ok_l by lia.
Qed.

Lemma empty_grid_shape : grid_shape 5 5 (empty_grid 5 5).
Proof. split; [done |]. repeat constructor. Qed.

Lemma NewGrid_ok g :
  wf5 g → ∃ g', NewGrid g = Ok g' ∧ wf5 g' ∧ rebuilt g' ∧ gridMatrix g' = empty_grid 5 5.
Proof.
  intros Hg. rewrite NewGrid_eq by (destruct Hg; lia).
  destruct Hg as [Hw Hh ? ? ? ? ? ? ? ?] eqn:E. rewrite Hw, Hh. clear E.
  destruct (fillAdjecencyList_ok (with_gridMatrix g (empty_grid 5 5)))
    as (g' & -> & Hwf & Hre & Hgrid & _).
  { apply wf5_with_gridMatrix; [done | apply empty_grid_shape]. }
  eauto.
Qed.

(* the three methods that write one cell and rebuild *)
Lemma write_cell_ok g x y c :
  wf5 g → 0 <= x < 5 → 0 <= y < 5 →
  ∃ m g', store2 (gridMatrix g) y x c = Ok m ∧
          fillAdjecencyList (with_gridMatrix g m) = Ok g' ∧
          wf5 g' ∧ rebuilt g' ∧ gridMatrix g' = m.
Proof.
  intros Hg Hx Hy.
  destruct (store2_in_grid (gridMatrix g) y x c) as (m & Hm & Hshape);
    [by destruct Hg | done | done |].
  destruct (fillAdjecencyList_ok (with_gridMatrix g m))
    as (g' & Hg' & Hwf & Hre & Hgrid & _).
  { by apply wf5_with_gridMatrix. }
  exists m, g'. eauto.
Qed.

Lemma fill_Ok_wf5 g g' : wf5 g → fillAdjecencyList g = Ok g' → wf5 g'.
Proof.
  intros Hg Hrun. destruct (fillAdjecencyList_ok g Hg) as (g'' & Hg'' & Hwf & _).
  congruence.
Qed.

Lemma NewGraph_eq w h :
  0 <= w <= 2 ^ 40 → 0 <= h <= 2 ^ 40 → 0 <= w *i h <= 2 ^ 40 →
  NewGraph w h = fillAdjecencyList (blank w h).
Proof.
  intros Hw Hh Hn. unfold NewGraph.
  rewrite !make_ok, !bind_Ok_l by lia.
  by rewrite NewGrid_eq.
Qed.

Lemma area_5_5 : Z.to_nat (5 *i 5) = 25%nat.
Proof. vm_compute. reflexivity. Qed.

Lemma blank_5_5 : wf5 (blank 5 5).
Proof.
  unfold blank. cbv zeta. rewrite area_5_5.
  constructor; cbn [grid_width grid_height gridMatrix set adjecencyList dist prev].
  - reflexivity.
  - reflexivity.
  - apply empty_grid_shape.
  - apply length_replicate.
  - apply Forall_replicate. split; [done | done].
  - apply length_replicate.
  - apply Forall_replicate. constructor.
  - apply length_replicate.
  - apply length_replicate.
  - apply Forall_replicate. split; [done | done].
Qed.

Lemma NewGraph_5_5 g :
  NewGraph 5 5 = Ok g → wf5 g ∧ rebuilt g ∧ gridMatrix g = empty_grid 5 5.
Proof.
  rewrite NewGraph_eq by (vm_compute; split; discriminate).
  destruct (fillAdjecencyList_ok (blank 5 5) blank_5_5)
    as (g' & -> & Hwf & Hre & Hgrid & _).
  intros [= <-]. split; [exact Hwf |]. split; [exact Hre | exact Hgrid].
Qed.

(* Every graph made from [NewGraph(5, 5)] is well formed. *)
Lemma created5_wf5 g : created5 g → wf5 g.
Proof.
  induction 1 as [g Hnew | g g' _ IH Hrun | g x y g' _ IH Hrun
                 | g x1 y1 x2 y2 g' out _ IH Hrun | g x y g' _ IH Hrun
                 | g x y g' _ IH Hrun | g fuel g' d _ IH Hrun
                 | g x y c m _ IH Hrun | g g' _ IH Hrun].
  - by apply NewGraph_5_5.
  - destruct (NewGrid_ok g IH) as (g'' & Hg'' & Hwf & _). congruence.
  - unfold MakeWallBlock in Hrun. apply bind_Ok in Hrun as (m & Hm & Hrun).
    eapply fill_Ok_wf5; [| done]. apply wf5_with_gridMatrix; [done |].
    eapply store2_Ok_shape; [done | by destruct IH].
  - unfold MakeWall in Hrun. apply bind_Ok in Hrun as ([m o] & Hm & Hrun).
    apply bind_Ok in Hrun as (g'' & Hfill & [= <- <-]).
    eapply fill_Ok_wf5; [| done]. apply wf5_with_gridMatrix; [done |].
    assert (grid_shape 5 5 (gridMatrix g)) as Hshape by (by destruct IH).
    destruct (negb (x1 =? x2) && negb (y1 =? y2)); [by injection Hm as <- <- |].
    destruct (x1 =? x2); [| destruct (y1 =? y2)].
    + apply bind_Ok in Hm as (m' & Hloop & [= <- <-]).
      eapply (for_range_Ok_inv (grid_shape 5 5)); [| done | done].
      intros j t t' Ht Hs. exact (store2_Ok_shape _ _ _ _ _ _ _ Ht Hs).
    + apply bind_Ok in Hm as (m' & Hloop & [= <- <-]).
      eapply (for_range_Ok_inv (grid_shape 5 5)); [| done | done].
      intros j t t' Ht Hs. exact (store2_Ok_shape _ _ _ _ _ _ _ Ht Hs).
    + by injection Hm as <- <-.
  - unfold PlaceStart in Hrun. apply bind_Ok in Hrun as (m & Hm & Hrun).
    eapply fill_Ok_wf5; [| done]. apply wf5_with_gridMatrix; [done |].
    eapply store2_Ok_shape; [done | by destruct IH].
  - unfold PlaceGoal in Hrun. apply bind_Ok in Hrun as (m & Hm & Hrun).
    eapply fill_Ok_wf5; [| done]. apply wf5_with_gridMatrix; [done |].
    eapply store2_Ok_shape; [done | by destruct IH].
  - assert (placed g ∨ ¬ placed g) as [Hpl | Hpl] by (unfold placed; lia).
    + destruct (PathFinder_safe fuel g IH Hpl) as [Ht | (g'' & d' & Hg'' & Hwf & _)];
        [congruence |].
      rewrite Hg'' in Hrun. by injection Hrun as <- <-.
    + rewrite (PathFinder_unplaced fuel g IH Hpl) in Hrun. discriminate.
  - apply wf5_with_gridMatrix; [done |].
    eapply store2_Ok_shape; [done | by destruct IH].
  - by eapply fill_Ok_wf5.
Qed.

(** ** The graphs of the runs *)

Lemma NewGraph_5_5_value : NewGraph 5 5 = Ok empty5.
Proof. vm_compute. reflexivity. Qed.

Lemma empty5_wf5 : wf5 empty5.
Proof. apply NewGraph_5_5. exact NewGraph_5_5_value. Qed.

Lemma empty5_rebuilt : rebuilt empty5.
Proof. apply NewGraph_5_5. exact NewGraph_5_5_value. Qed.

Lemma placed5_created : created5 placed5.
Proof.
  apply (created_PlaceGoal started5 4 4); [| vm_compute; reflexivity].
  apply (created_PlaceStart empty5 0 0); [| vm_compute; reflexivity].
  apply created_NewGraph. exact NewGraph_5_5_value.
Qed.

Lemma placed5_placed : placed placed5.
Proof. vm_compute. repeat split; discriminate. Qed.

(** ** The first search returns *)

Lemma nearer_round d p c a dc dn :
  nearer (d, p) → 0 <= c → 0 <= a →
  d !! Z.to_nat c = Some dc → d !! Z.to_nat a = Some dn → dc + 1 < dn →
  nearer (<[Z.to_nat a := dc + 1]> d, <[Z.to_nat a := c]> p).
Proof.
  intros [Hd Hp] Hc Ha Hdc Hdn Hlt. cbn [fst snd] in *.
  pose proof Hd as Hd'. rewrite Forall_lookup in Hd'.
  pose proof (Hd' _ _ Hdc) as Hdc_b. pose proof (Hd' _ _ Hdn) as Hdn_b.
  pose proof (lookup_lt_Some _ _ _ Hdn) as Ha_lt.
  assert (Z.to_nat c ≠ Z.to_nat a) as Hca by (intros E; rewrite E in Hdc; simplify_eq; lia).
  split; cbn [fst snd].
  - apply Forall_insert; [done | lia].
  - intros v pv Hv Hpv.
    destruct (decide (v = Z.to_nat a)) as [-> | Hva].
    + destruct (decide (Z.to_nat a < length p)%nat) as [Hlt_p | Hge].
      * rewrite list_lookup_insert_eq in Hv by done. injection Hv as <-.
        exists (dc + 1), dc. rewrite list_lookup_insert_eq by done.
        rewrite list_lookup_insert_ne by done. split; [done |]. split; [done | lia].
      * rewrite list_insert_ge in Hv by lia.
        apply lookup_lt_Some in Hv. lia.
    + rewrite list_lookup_insert_ne in Hv by done.
      destruct (Hp v pv Hv Hpv) as (dv & dpv & Hdv & Hdpv & Hless).
      rewrite list_lookup_insert_ne by done.
      destruct (decide (Z.to_nat pv = Z.to_nat a)) as [E | Hne].
      * exists dv, (dc + 1). rewrite E, list_lookup_insert_eq by done.
        rewrite E in Hdpv. split; [done |]. split; [done |]. simplify_eq. lia.
      * exists dv, dpv. rewrite list_lookup_insert_ne by done. done.
Qed.

Lemma relax_nearer adj curr_node dp u :
  length adj = 25%nat → Forall (Forall index_ok) adj → index_ok curr_node →
  search_inv u dp → nearer dp →
  ∃ dp', relax adj curr_node dp = Ok dp' ∧ search_inv u dp' ∧ nearer dp'.
Proof.
  intros Hadj Hadj_ok Hcurr Hinv Hnear. unfold relax.
  destruct (index_in_range adj (set_index curr_node)) as (nbs & -> & Hnbs).
  { unfold len, index_ok in *. lia. }
  rewrite bind_Ok_l.
  rewrite Forall_lookup in Hadj_ok. specialize (Hadj_ok _ _ Hnbs).
  unfold range.
  match goal with
  | |- ∃ dp', range_from ?l _ ?body ?s = _ ∧ _ =>
      destruct (range_from_inv (λ _ st, search_inv u st ∧ nearer st) body l 0%nat s)
        as (dp' & Hrun & Hinv' & Hnear'); [done | | by eauto]
  end.
  intros j a [d p] Ha _ [(Hu & Hd & Hp & Hp_ok) Hnr]. simpl in Hd, Hp, Hp_ok.
  rewrite Forall_lookup in Hadj_ok. specialize (Hadj_ok _ _ Ha).
  destruct (index_in_range d (set_index curr_node)) as (dc & -> & Hdc).
  { unfold len, index_ok in *. lia. }
  rewrite bind_Ok_l. cbv zeta.
  destruct (index_in_range d (set_index a)) as (dn & -> & Hdn).
  { unfold len, index_ok in *. lia. }
  rewrite bind_Ok_l.
  assert (dc +i 1 = dc + 1) as ->.
  { destruct Hnr as [Hb _]. simpl in Hb. rewrite Forall_lookup in Hb.
    specialize (Hb _ _ Hdc). unfold Int.add. rewrite wrap_small; lia. }
  destruct (Z.ltb_spec (dc + 1) dn).
  - rewrite !store_in_range by (unfold len, index_ok in *; lia). rewrite !bind_Ok_l.
    eexists. split; [reflexivity |]. split.
    + unfold search_inv. simpl. rewrite !length_insert. repeat split; try done.
      apply Forall_insert; [done | apply Hcurr].
    + unfold index_ok in *. by apply (nearer_round d p _ _ dc dn); try lia.
  - eexists. split; [reflexivity |]. split; [by repeat split | done].
Qed.

Lemma search_nearer adj inf fuel u dp :
  length adj = 25%nat → Forall (Forall index_ok) adj →
  length u = fuel → (fuel <= 25)%nat → search_inv u dp → nearer dp →
  ∃ dp', search fuel adj inf u dp = Ok dp' ∧ search_inv [] dp' ∧ nearer dp'.
Proof.
  intros Hadj Hadj_ok. revert u dp.
  induction fuel as [| fuel IH]; intros u dp Hlen Hfuel Hinv Hnear.
  - destruct u; [| done]. simpl. exists dp. by split.
  - assert ((0 <? len u) = true) as Hpos by (apply Z.ltb_lt; unfold len; lia).
    cbn [search]. rewrite Hpos.
    destruct Hinv as (Hu & Hd & Hp & Hp_ok).
    destruct (find_min_ok dp.1 inf u Hd Hu) as (mn & mi & -> & Hmi & Hlt).
    rewrite bind_Ok_l.
    assert (0 <= mi < len u) as Hmi' by (unfold len in *; lia).
    destruct (index_in_range u mi Hmi') as (curr & -> & Hcurr_at).
    rewrite bind_Ok_l.
    assert (index_ok curr) as Hcurr.
    { rewrite Forall_lookup in Hu. by apply (Hu _ _ Hcurr_at). }
    destruct (index_in_range dp.1 (set_index curr)) as (dc & -> & _).
    { unfold len, index_ok in *. lia. }
    rewrite bind_Ok_l.
    destruct (dc =? inf).
    { exists dp. split; [done |]. split; [by split | done]. }
    set (u' := (take (Z.to_nat mi) u ++ drop (Z.to_nat (mi +i 1)) u)%list).
    assert (Forall index_ok u') as Hu'.
    { apply Forall_app. split; [by apply Forall_take | by apply Forall_drop]. }
    assert (length u' = fuel) as Hlen'.
    { subst u'. unfold Int.add. rewrite wrap_small by (unfold len in *; lia).
      rewrite length_app, length_take, length_drop. unfold len in *. lia. }
    destruct (relax_nearer adj curr dp u') as (dp' & -> & Hinv' & Hnear'); try done.
    rewrite bind_Ok_l. apply IH; [done | lia | done | done].
Qed.

(* With every predecessor nearer to the start, the walk from a node at
   distance below [fuel] ends. *)
Lemma mark_path_returns d p fuel i grid :
  nearer (d, p) → length p = 25%nat → Forall (λ k, 0 <= k < 25) p →
  grid_shape 5 5 grid → i < 25 →
  (i <= 0 ∨ ∃ di, d !! Z.to_nat i = Some di ∧ di < Z.of_nat fuel) →
  ∃ grid', mark_path fuel p i grid = Ok grid' ∧ grid_shape 5 5 grid'.
Proof.
  intros [Hd Hnear] Hlen Hp. cbn [fst snd] in *. revert i grid.
  induction fuel as [| fuel IH]; intros i grid Hgrid Hi Hdist; cbn [mark_path];
    destruct (Z.ltb_spec 0 i); try (by eauto).
  - destruct Hdist as [? | (di & Hdi & Hlt)]; [lia |].
    rewrite Forall_lookup in Hd. specialize (Hd _ _ Hdi). lia.
  - destruct Hdist as [? | (di & Hdi & Hlt)]; [lia |].
    destruct (path_cell i) as [-> ->]; [lia |].
    destruct (store2_in_grid grid (i / 5) (i mod 5) "." Hgrid) as (grid' & -> & Hgrid').
    { Z.div_mod_to_equations. lia. }
    { apply Z.mod_pos_bound. lia. }
    rewrite bind_Ok_l.
    destruct (index_in_range p i) as (j & -> & Hj); [unfold len; lia |].
    rewrite bind_Ok_l.
    pose proof Hp as Hp'. rewrite Forall_lookup in Hp'. specialize (Hp' _ _ Hj).
    apply IH; [done | lia |].
    destruct (decide (j = 0)) as [-> | Hj0]; [left; lia | right].
    destruct (Hnear _ _ Hj Hj0) as (dv & dj & Hdv & Hdj & Hless).
    exists dj. split; [done |]. simplify_eq. lia.
Qed.

(* On a graph that has not been searched (no predecessor set), with start
   and goal placed, PathFinder returns. *)
Lemma first_search_returns g :
  wf5 g → placed g → Forall (λ k, k = 0) (prev g) →
  ∃ g' d, PathFinder 25 g = Ok (g', d).
Proof.
  intros Hg [Hstart Hgoal] Hfresh.
  destruct Hg as [Hw Hh Hm Hset Hset_ok Hadj Hadj_ok Hdist Hprev Hprev_ok].
  unfold PathFinder, search_phase.
  assert (len (adjecencyList g) = 25) as -> by (unfold len; lia).
  assert (len (set g) = 25) as -> by (unfold len; lia).
  rewrite make_ok, bind_Ok_l by lia. cbv zeta.
  rewrite init_search_ok by (rewrite ?length_replicate; lia).
  rewrite bind_Ok_l, Hset.
  rewrite store_in_range by (unfold len; rewrite length_replicate; lia).
  rewrite bind_Ok_l.
  destruct (search_nearer (adjecencyList g) 25 25 (set g)
              (<[Z.to_nat (start_node g) := 0]> (replicate 25 25), prev g))
    as ([d p] & -> & (_ & Hd & Hp & Hp_ok) & Hnear); try done; try lia.
  { unfold search_inv. cbn [fst snd]. rewrite length_insert, length_replicate. done. }
  { split; cbn [fst snd].
    - apply Forall_insert; [| lia]. apply Forall_replicate. lia.
    - intros v pv Hv Hpv. rewrite Forall_lookup in Hfresh.
      by specialize (Hfresh _ _ Hv). }
  rewrite bind_Ok_l. simpl in Hd, Hp, Hp_ok.
  destruct (index_in_range p (goal_node g)) as (i & -> & Hi); [unfold len; lia |].
  rewrite bind_Ok_l.
  pose proof Hp_ok as Hp_ok'. rewrite Forall_lookup in Hp_ok'.
  pose proof (Hp_ok' _ _ Hi) as Hi_ok.
  destruct (mark_path_returns d p 25 i (gridMatrix g)) as (grid' & -> & Hgrid');
    try done; try lia.
  { destruct (decide (i = 0)) as [-> | Hi0]; [left; lia | right].
    destruct Hnear as [Hb Hnear]. cbn [fst snd] in *.
    destruct (Hnear _ _ Hi Hi0) as (dv & di & Hdv & Hdi & Hless).
    exists di. split; [done |].
    rewrite Forall_lookup in Hb. specialize (Hb _ _ Hdv). lia. }
  rewrite bind_Ok_l.
  destruct (index_in_range d (goal_node g)) as (dg & -> & _); [unfold len; lia |].
  rewrite bind_Ok_l.
  destruct (negb (dg =? 25)); eexists _, _; reflexivity.
Qed.

(** ** A search that does not return *)

(* Two cells that are each other's predecessor keep the walk going. *)
Lemma mark_path_cycle p fuel i j grid :
  0 < i < 25 → 0 < j < 25 →
  p !! Z.to_nat i = Some j → p !! Z.to_nat j = Some i →
  grid_shape 5 5 grid → mark_path fuel p i grid = Timeout.
Proof.
  revert i j grid. induction fuel as [| fuel IH]; intros i j grid Hi Hj Hij Hji Hgrid;
    cbn [mark_path]; destruct (Z.ltb_spec 0 i); try lia; [done |].
  destruct (path_cell i) as [-> ->]; [lia |].
  destruct (store2_in_grid grid (i / 5) (i mod 5) "." Hgrid) as (grid' & -> & Hgrid').
  { Z.div_mod_to_equations. lia. }
  { apply Z.mod_pos_bound. lia. }
  rewrite bind_Ok_l.
  assert (index p i = Ok j) as -> by (apply index_Ok; split; [lia | done]).
  rewrite bind_Ok_l. by apply (IH j i).
Qed.

(* A walk that reaches a cell from which it does not end does not end. *)
Lemma mark_path_onto p i j :
  0 < i < 25 → p !! Z.to_nat i = Some j →
  (∀ fuel grid, grid_shape 5 5 grid → mark_path fuel p j grid = Timeout) →
  ∀ fuel grid, grid_shape 5 5 grid → mark_path fuel p i grid = Timeout.
Proof.
  intros Hi Hij Hj fuel grid Hgrid. destruct fuel as [| fuel]; cbn [mark_path];
    destruct (Z.ltb_spec 0 i); try lia; [done |].
  destruct (path_cell i) as [-> ->]; [lia |].
  destruct (store2_in_grid grid (i / 5) (i mod 5) "." Hgrid) as (grid' & -> & Hgrid').
  { Z.div_mod_to_equations. lia. }
  { apply Z.mod_pos_bound. lia. }
  rewrite bind_Ok_l.
  assert (index p i = Ok j) as -> by (apply index_Ok; split; [lia | done]).
  rewrite bind_Ok_l. by apply Hj.
Qed.

(* After a search from (0,0) to (4,4) the start is moved to (2,2): the
   second search leaves (2,2) and (2,1) as each other's predecessor, one
   written by the first search and one by the second, and the loop that
   marks the path never ends. *)
Lemma second_search_never_returns :
  moved_start = Ok moved5 ∧ created5 moved5 ∧ placed moved5 ∧
  ∀ fuel, PathFinder fuel moved5 = Timeout.
Proof.
  split; [vm_compute; reflexivity |]. split; [| split].
  - apply (created_PlaceStart
             (match (g ← NewGraph 5 5; g ← PlaceStart 0 0 g; g ← PlaceGoal 4 4 g;
                     PathFinder 25 g) with Ok (g, _) => g | _ => blank 5 5 end) 2 2);
      [| vm_compute; reflexivity].
    apply (created_PathFinder placed5 25 _ 8); [exact placed5_created |].
    vm_compute. reflexivity.
  - vm_compute. repeat split; discriminate.
  - intros fuel.
    assert (∃ d p, search_phase moved5 = Ok (d, p) ∧
                   p !! 24%nat = Some 19 ∧ p !! 19%nat = Some 14 ∧
                   p !! 14%nat = Some 13 ∧ p !! 13%nat = Some 12 ∧
                   p !! 12%nat = Some 7 ∧ p !! 7%nat = Some 12)
      as (d & p & Hrun & H24 & H19 & H14 & H13 & H12 & H7).
    { eexists _, _. split; [vm_compute; reflexivity |]. repeat split. }
    unfold PathFinder. rewrite Hrun, bind_Ok_l. cbv zeta. clear Hrun.
    assert (index p (goal_node moved5) = Ok 19) as ->
      by (apply index_Ok; split; [done | exact H24]).
    rewrite bind_Ok_l.
    rewrite (mark_path_onto p 19 14); [reflexivity | lia | exact H19 | |].
    + apply (mark_path_onto p 14 13); [lia | exact H14 |].
      apply (mark_path_onto p 13 12); [lia | exact H13 |].
      intros f m Hm.
      apply (mark_path_cycle p f 12 7); [lia | lia | exact H12 | exact H7 | exact Hm].
    + split; [reflexivity |]. repeat constructor.
Qed.

(** ** Graphs of other sizes *)

Lemma scan_count_start : scan_count 0 (mk_scan (replicate 5 zero_node) 0 0).
Proof. unfold scan_count. simpl. repeat split; done. Qed.

(* On any grid a neighbour test ends or fails out of range. *)
Lemma probe_cases m yy xx idx s n :
  scan_count n s → n < 5 →
  (∃ s', probe m yy xx idx s = Ok s' ∧ scan_count (n + 1) s')
  ∨ probe m yy xx idx s = Panic IndexOutOfRange.
Proof.
  intros (Hlen & Hni & Hw & Hsum) Hn. unfold probe.
  destruct (index2_cases m yy xx) as [[c ->] | ->]; [| by right].
  rewrite bind_Ok_l. left. destruct (String.eqb c "#"); cbn [negb].
  - eexists. split; [reflexivity |]. unfold Int.add. rewrite wrap_small by lia.
    unfold scan_count. simpl. repeat split; try done; lia.
  - rewrite store_in_range by (unfold len; lia). rewrite bind_Ok_l.
    eexists. split; [reflexivity |]. unfold Int.add. rewrite wrap_small by lia.
    unfold scan_count. simpl. rewrite length_insert. repeat split; try done; lia.
Qed.

Lemma probe_panics m yy xx idx s :
  index2 m yy xx = Panic IndexOutOfRange →
  probe m yy xx idx s = Panic IndexOutOfRange.
Proof. intros H. unfold probe. by rewrite H. Qed.

Lemma trim_count k s :
  scan_count k s → 0 <= k <= 5 → ∃ nbs, trim k s = Ok nbs.
Proof.
  intros (Hlen & Hni & Hw & Hsum) Hk.
  unfold trim, slice_to, Int.sub. rewrite wrap_small by lia.
  destruct (Z.leb_spec 0 (k - number_of_neighboring_walls s)); [| lia].
  destruct (Z.leb_spec (k - number_of_neighboring_walls s) (len (neighbors s)));
    [| unfold len in *; lia].
  simpl. eauto.
Qed.

Ltac probe_case :=
  match goal with
  | Hs : scan_count _ ?s |- context [probe ?m ?yy ?xx ?idx ?s] =>
      let s' := fresh "s" in
      let E := fresh "E" in
      let Hs' := fresh "Hs" in
      destruct (probe_cases m yy xx idx s _ Hs) as [(s' & E & Hs') | E];
      [ lia
      | rewrite E, !bind_Ok_l; clear E Hs
      | rewrite E; right; reflexivity ]
  end.

(* On any grid the scan of a cell ends or fails out of range. *)
Lemma cell_neighbors_cases m h y x :
  (∃ nbs, cell_neighbors m h y x = Ok nbs)
  ∨ cell_neighbors m h y x = Panic IndexOutOfRange.
Proof.
  unfold cell_neighbors. cbv zeta.
  destruct (index2_cases m y x) as [[c ->] | ->]; [| by right].
  rewrite bind_Ok_l. pose proof scan_count_start as Hs.
  destruct (String.eqb c "#"); [left; by eexists |].
  destruct (x =? 0); [| destruct (x =? 4)];
    destruct (y =? 0); try destruct (y =? 4);
    repeat probe_case; left; (apply trim_count; [assumption | lia]).
Qed.

(* On any graph a round of the rebuild ends, with the grid and the height as
   they were, or fails out of range. *)
Lemma fill_cell_cases m h y x st :
  same_grid m h st →
  (∃ st', fill_cell y x st = Ok st' ∧ same_grid m h st')
  ∨ fill_cell y x st = Panic IndexOutOfRange.
Proof.
  destruct st as [g li]. intros [Hm Hh]. simpl in Hm, Hh. unfold fill_cell.
  destruct (index2_cases (gridMatrix g) y x) as [[c ->] | ->]; [| by right].
  rewrite bind_Ok_l. cbv zeta.
  destruct (store_cases (set g) (y *i grid_height g +i x)
              (mk_node c (y *i grid_height g +i x))) as [-> | ->]; [| by right].
  rewrite bind_Ok_l.
  set (g1 := if String.eqb c "s" then _ else _).
  assert (gridMatrix g1 = m ∧ grid_height g1 = h) as [Hm1 Hh1].
  { subst g1. destruct (String.eqb c "s"); [| destruct (String.eqb c "g")]; by simpl. }
  clearbody g1.
  destruct (cell_neighbors_cases (gridMatrix g1) (grid_height g) y x) as [[nbs ->] | ->];
    [| by right].
  rewrite bind_Ok_l.
  destruct (store_cases (adjecencyList g1) li nbs) as [-> | ->]; [| by right].
  rewrite bind_Ok_l. left. eexists. split; [reflexivity |]. by split.
Qed.

(* the cells of the grid [NewGrid] builds *)
Lemma index2_empty_grid w h y x :
  0 <= y < h → 0 <= x < w → index2 (empty_grid w h) y x = Ok " ".
Proof.
  intros Hy Hx. unfold index2, empty_grid, index.
  destruct (Z.ltb_spec y 0); [lia |].
  rewrite lookup_replicate_2 by lia. rewrite bind_Ok_l.
  destruct (Z.ltb_spec x 0); [lia |].
  by rewrite lookup_replicate_2 by lia.
Qed.

Lemma index2_empty_grid_outside w h y x :
  0 <= w → 0 <= h → h <= y ∨ w <= x →
  index2 (empty_grid w h) y x = Panic IndexOutOfRange.
Proof.
  intros Hw Hh Hout. unfold index2, empty_grid.
  destruct (index_cases (replicate (Z.to_nat h) (replicate (Z.to_nat w) " ")) y)
    as [[row Hrow] | ->]; [| done].
  rewrite Hrow, bind_Ok_l. apply index_Ok in Hrow as [Hy Hrow].
  apply lookup_replicate in Hrow as [-> Hlt].
  apply index_out_of_range. unfold len. rewrite length_replicate. lia.
Qed.

Ltac probe_or_panic :=
  match goal with
  | Hs : scan_count _ ?s |- context [probe ?m ?yy ?xx ?idx ?s] =>
      let s' := fresh "s" in
      let E := fresh "E" in
      let Hs' := fresh "Hs" in
      destruct (probe_cases m yy xx idx s _ Hs) as [(s' & E & Hs') | E];
      [ lia
      | rewrite E, !bind_Ok_l; clear E Hs
      | rewrite E; reflexivity ]
  end.

(* With a width other than 5 the scan of the last cell of row 0 reads the
   cell to its right, which is not there. *)
Lemma scan_last_column w h :
  1 <= w < 2 ^ 63 → 1 <= h → w ≠ 5 →
  cell_neighbors (empty_grid w h) h 0 (w - 1) = Panic IndexOutOfRange.
Proof.
  intros Hw Hh Hne. unfold cell_neighbors. cbv zeta.
  rewrite index2_empty_grid by lia. rewrite bind_Ok_l.
  change (String.eqb " " "#") with false. cbv iota.
  pose proof scan_count_start as Hs.
  assert (w - 1 +i 1 = w) as Hright
    by (unfold Int.add; rewrite wrap_small by lia; lia).
  change (0 =? 0) with true. cbv iota.
  destruct (Z.eqb_spec (w - 1) 0) as [E0 | _]; [| destruct (Z.eqb_spec (w - 1) 4); [lia |]].
  - rewrite probe_panics; [reflexivity |].
    rewrite Hright. apply index2_empty_grid_outside; lia.
  - do 2 probe_or_panic.
    rewrite probe_panics; [reflexivity |].
    rewrite Hright. apply index2_empty_grid_outside; lia.
Qed.

(* With width 5 and a height other than 5 the scan of the first cell of the
   last row reads the cell below, which is not there. *)
Lemma scan_last_row h :
  1 <= h < 2 ^ 63 → h ≠ 5 →
  cell_neighbors (empty_grid 5 h) h (h - 1) 0 = Panic IndexOutOfRange.
Proof.
  intros Hh Hne. unfold cell_neighbors. cbv zeta.
  rewrite index2_empty_grid by lia. rewrite bind_Ok_l.
  change (String.eqb " " "#") with false. cbv iota.
  pose proof scan_count_start as Hs.
  assert (h - 1 +i 1 = h) as Hbelow
    by (unfold Int.add; rewrite wrap_small by lia; lia).
  change (0 =? 0) with true. cbv iota.
  probe_or_panic.
  destruct (Z.eqb_spec (h - 1) 0) as [E0 | _]; [| destruct (Z.eqb_spec (h - 1) 4); [lia |]].
  - rewrite probe_panics; [reflexivity |].
    rewrite Hbelow. apply index2_empty_grid_outside; lia.
  - rewrite probe_panics; [reflexivity |].
    rewrite Hbelow. apply index2_empty_grid_outside; lia.
Qed.

Lemma fill_cell_panics m h y x st :
  same_grid m h st →
  cell_neighbors m h y x = Panic IndexOutOfRange →
  fill_cell y x st = Panic IndexOutOfRange.
Proof.
  destruct st as [g li]. intros [Hm Hh] Hscan. simpl in Hm, Hh. unfold fill_cell.
  destruct (index2_cases (gridMatrix g) y x) as [[c ->] | ->]; [| done].
  rewrite bind_Ok_l. cbv zeta.
  destruct (store_cases (set g) (y *i grid_height g +i x)
              (mk_node c (y *i grid_height g +i x))) as [-> | ->]; [| done].
  rewrite bind_Ok_l.
  set (g1 := if String.eqb c "s" then _ else _).
  assert (gridMatrix g1 = m) as ->.
  { subst g1. destruct (String.eqb c "s"); [| destruct (String.eqb c "g")]; by simpl. }
  by rewrite Hh, Hscan.
Qed.

(* The rebuild of a blank grid of any other size with a cell in it fails
   out of range. *)
Lemma fill_panics w h g :
  1 <= w < 2 ^ 63 → 1 <= h < 2 ^ 63 → w ≠ 5 ∨ h ≠ 5 →
  gridMatrix g = empty_grid w h → grid_width g = w → grid_height g = h →
  fillAdjecencyList g = Panic IndexOutOfRange.
Proof.
  intros Hw Hh Hne Hm Hgw Hgh. unfold fillAdjecencyList, for_lt. cbv zeta.
  rewrite Hgw, Hgh, !Z.sub_0_r.
  set (I := same_grid (empty_grid w h) h).
  assert (∀ j t, I t →
            (∃ t', for_range (Z.to_nat w) 0 (λ x, fill_cell j x) t = Ok t' ∧ I t')
            ∨ for_range (Z.to_nat w) 0 (λ x, fill_cell j x) t = Panic IndexOutOfRange)
    as Hrow.
  { intros j t Ht. apply for_range_cases; [done |].
    intros x u Hu. by apply fill_cell_cases. }
  rewrite (for_range_panics I _ _ _ _ (if decide (w = 5) then h - 1 else 0));
    [reflexivity | | by split | exact Hrow |].
  - destruct (decide (w = 5)); lia.
  - intros t Ht. destruct (decide (w = 5)) as [-> | Hw5].
    + apply (for_range_panics I _ _ _ _ 0); [lia | done | |].
      * intros x u Hu. by apply fill_cell_cases.
      * intros u Hu. eapply fill_cell_panics; [exact Hu |].
        apply scan_last_row; lia.
    + apply (for_range_panics I _ _ _ _ (w - 1)); [lia | done | |].
      * intros x u Hu. by apply fill_cell_cases.
      * intros u Hu. eapply fill_cell_panics; [exact Hu |].
        apply scan_last_column; lia.
Qed.

(* [NewGraph] with sizes of at least 1 that are not 5 and 5, and few enough
   cells for every slice to be allocated. *)
Lemma NewGraph_other_sizes w h :
  1 <= w → 1 <= h → w * h <= 2 ^ 20 → (w, h) ≠ (5, 5) →
  NewGraph w h = Panic IndexOutOfRange.
Proof.
  intros Hw Hh Harea Hne.
  assert (w *i h = w * h) as Hmul
    by (unfold Int.mul; rewrite wrap_small by nia; lia).
  assert (w <= 2 ^ 20 ∧ h <= 2 ^ 20) as [Hw' Hh'] by nia.
  rewrite NewGraph_eq by (rewrite ?Hmul; lia).
  apply (fill_panics w h); try done; try nia.
  destruct (decide (w = 5)) as [-> |]; [| by left].
  right. congruence.
Qed.

(* With no row or no column the rebuild visits no cell. *)
Lemma fill_no_cell g :
  grid_height g = 0 ∨ grid_width g = 0 → 0 <= grid_height g →
  fillAdjecencyList g = Ok g.
Proof.
  intros Hzero Hh. unfold fillAdjecencyList, for_lt. cbv zeta. rewrite !Z.sub_0_r.
  destruct Hzero as [-> | ->].
  - reflexivity.
  - change (Z.to_nat 0) with 0%nat.
    destruct (for_range_inv (λ _ st, st = (g, 0))
                (λ y s, for_range 0 0 (λ x, fill_cell y x) s)
                (Z.to_nat (grid_height g)) 0 (g, 0)) as (st & -> & ->); [done | | done].
    intros j t _ ->. by exists (g, 0).
Qed.

(** * The claims *)

Lemma beside_cases a b :
  beside a b = true → a = b + 1 ∨ a = b - 1 ∨ a = b + 5 ∨ a = b - 5.
Proof.
  unfold beside. rewrite !orb_true_iff, !andb_true_iff, !orb_true_iff, !Z.eqb_eq.
  Z.div_mod_to_equations. lia.
Qed.

Ltac by_cells :=
  let y := fresh "y" in
  let x := fresh "x" in
  let Hy := fresh "Hy" in
  let Hx := fresh "Hx" in
  intros y x Hy Hx;
  destruct (below_5 y Hy) as [-> | [-> | [-> | [-> | ->]]]];
  destruct (below_5 x Hx) as [-> | [-> | [-> | [-> | ->]]]];
  vm_compute; reflexivity.

(** C1 (adjacency symmetry after a rebuild).  The rebuild breaks it on the
    bottom row: on the grid [NewGraph(5, 5)] makes, where no cell is a wall,
    cell (1,4) is in the adjacency list of its left neighbour (0,4), and
    (0,4) is not in the adjacency list of (1,4).  Line 389 stores the index
    [y*h + x + 1] for the cell to the left. *)
Theorem bottom_row_adjacency_one_way :
  NewGraph 5 5 = Ok empty5 ∧ rebuilt empty5 ∧
  beside 20 21 = true ∧
  open_cell (gridMatrix empty5) 20 = true ∧ open_cell (gridMatrix empty5) 21 = true ∧
  listed empty5 20 21 = true ∧ listed empty5 21 20 = false ∧
  ¬ adjacency_symmetric empty5.
Proof.
  split; [exact NewGraph_5_5_value |]. split; [exact empty5_rebuilt |].
  repeat (split; [vm_compute; reflexivity |]).
  intros Hsym. specialize (Hsym 20 21). vm_compute in Hsym.
  specialize (Hsym eq_refl eq_refl eq_refl). discriminate.
Qed.

(** C2 (no entry for a wall, at most four entries, walls isolated).  After
    [MakeWallBlock(2, 4)] on the empty grid the rebuilt adjacency list of
    cell (1,4) holds the index of the wall cell (2,4): the entry written at
    line 389 for the cell to the left carries the index of the cell to the
    right. *)
Theorem wall_listed_on_bottom_row :
  ∃ g, bottom_wall_run = Ok g ∧ rebuilt g ∧
       wall_cell (gridMatrix g) 22 = true ∧ open_cell (gridMatrix g) 21 = true ∧
       listed g 21 22 = true ∧ ¬ walls_unlisted g.
Proof.
  eexists. split; [vm_compute; reflexivity |].
  split; [by_cells |].
  repeat (split; [vm_compute; reflexivity |]).
  intros Hw. specialize (Hw 21 22). vm_compute in Hw.
  specialize (Hw eq_refl). discriminate.
Qed.

(** C3 (adjacent start and goal give distance 1).  With the start at (1,4)
    and the goal beside it at (0,4) on an otherwise empty grid, PathFinder
    returns 3: the adjacency list of (1,4) does not hold (0,4). *)
Theorem bottom_row_neighbours_distance_3 :
  ∃ g, bottom_pair_run = Ok (g, 3) ∧
       start_node g = 21 ∧ goal_node g = 20 ∧ beside 21 20 = true.
Proof.
  eexists. split; [vm_compute; reflexivity |]. vm_compute. done.
Qed.

(** C4 (only the cells between start and goal are marked).  With the start
    at (1,0) and the goal at (3,0) PathFinder returns 2 and leaves the path
    marker on the start cell as well: the loop of line 502 stops at index 0,
    not at the start. *)
Theorem start_cell_marked :
  ∃ g, top_row_run = Ok (g, 2) ∧ start_node g = 1 ∧ goal_node g = 3 ∧
       gridMatrix g = [[" "; "."; "."; "g"; " "];
                       [" "; " "; " "; " "; " "];
                       [" "; " "; " "; " "; " "];
                       [" "; " "; " "; " "; " "];
                       [" "; " "; " "; " "; " "]].
Proof.
  eexists. split; [vm_compute; reflexivity |]. vm_compute. done.
Qed.

Lemma enclosed_goal_unreachable m :
  open_cell m 1 = false → open_cell m 3 = false → open_cell m 7 = false →
  ¬ connected m 0 2.
Proof.
  intros H1 H3 H7 Hc.
  assert (∀ a, rtc (step m) a 2 → a = 2) as Hall.
  { apply (rtc_ind_l (λ a, a = 2)); [done |].
    intros x y (Hb & Hx & _) _ ->.
    destruct (beside_cases _ _ Hb) as [-> | [-> | [-> | ->]]].
    - change (2 + 1) with 3 in Hx. congruence.
    - change (2 - 1) with 1 in Hx. congruence.
    - change (2 + 5) with 7 in Hx. congruence.
    - vm_compute in Hx. destruct m as [| ? ?]; discriminate. }
  specialize (Hall 0 Hc). discriminate.
Qed.

(** C5 (an unreachable goal gives -1 and no path marker).  After a search
    that found the goal at (2,0), the goal is walled in; the next search
    returns -1 and writes the path marker over the wall at (1,0): it walks
    the predecessors the earlier search left (the defect of C7). *)
Theorem marker_left_after_not_found :
  ∃ g g', enclosed_goal true = Ok g ∧
          start_node g = 0 ∧ goal_node g = 2 ∧
          ¬ connected (gridMatrix g) (start_node g) (goal_node g) ∧
          PathFinder 25 g = Ok (g', -1) ∧
          cell (gridMatrix g) 1 = Ok "#" ∧ cell (gridMatrix g') 1 = Ok ".".
Proof.
  eexists _, _. split; [vm_compute; reflexivity |].
  split; [reflexivity |]. split; [reflexivity |].
  split. { apply enclosed_goal_unreachable; vm_compute; reflexivity. }
  split; [vm_compute; reflexivity |]. split; vm_compute; reflexivity.
Qed.

(** C7 (the search state is fresh in every invocation).  Two graphs with
    the same grid, node set, adjacency list, start and goal, one of them
    searched before: PathFinder returns -1 on both and leaves different
    grids, and the predecessor of the goal it leaves on the first is the one
    the earlier search wrote.  PathFinder resets [dist] and never [prev]. *)
Theorem search_depends_on_earlier_search :
  ∃ g1 g2 g1' g2',
    enclosed_goal true = Ok g1 ∧ enclosed_goal false = Ok g2 ∧
    gridMatrix g1 = gridMatrix g2 ∧ set g1 = set g2 ∧
    adjecencyList g1 = adjecencyList g2 ∧
    start_node g1 = start_node g2 ∧ goal_node g1 = goal_node g2 ∧
    PathFinder 25 g1 = Ok (g1', -1) ∧ PathFinder 25 g2 = Ok (g2', -1) ∧
    gridMatrix g1' ≠ gridMatrix g2' ∧
    index (prev g1) 2 = Ok 1 ∧ index (prev g1') 2 = Ok 1 ∧ index (prev g2') 2 = Ok 0.
Proof.
  eexists _, _, _, _.
  split; [vm_compute; reflexivity |]. split; [vm_compute; reflexivity |].
  do 5 (split; [reflexivity |]).
  split; [vm_compute; reflexivity |]. split; [vm_compute; reflexivity |].
  split; [vm_compute; discriminate |].
  split; [vm_compute; reflexivity |]. split; vm_compute; reflexivity.
Qed.

Lemma wall_run_leaves_23_blank g d :
  wall_run = Ok (g, d) → cell (gridMatrix g) 23 = Ok " ".
Proof.
  assert (match wall_run with
          | Ok (g, _) => cell (gridMatrix g) 23
          | _ => Panic IndexOutOfRange
          end = Ok " ") as Hv by (vm_compute; reflexivity).
  intros Hrun. by rewrite Hrun in Hv.
Qed.

(** C6, as stated, fails on the code: after the search of the 5 x 5 scenario
    the cells of row 4 right of column 2 and the cells of column 4 are not
    marked, so the path does not go across row 4 and up column 4. *)
Lemma wall_run_not_up_column_4 :
  ¬ ∃ g, wall_run = Ok (g, 12) ∧
         Forall (λ k, cell (gridMatrix g) k = Ok ".") claimed_route.
Proof.
  intros (g & Hrun & Hroute).
  pose proof (wall_run_leaves_23_blank g 12 Hrun) as Hblank.
  rewrite Forall_lookup in Hroute.
  specialize (Hroute 6%nat 23 eq_refl). simpl in Hroute.
  rewrite Hroute in Hblank. discriminate.
Qed.

(** C6, amended.  On the 5 x 5 grid with start (0,0), goal (4,0) and the wall
    from (1,0) to (1,3), PathFinder returns 12 and the path it marks goes
    down column 0, across row 4 as far as column 2, up column 2 and across
    row 0 to the goal; the grid it leaves is the one src/test/testPF.go
    expects, and the run of that test gives the same. *)
Theorem wall_run_distance_and_route :
  ∃ g, wall_run = Ok (g, 12) ∧ gridMatrix g = expGrid ∧
       index (prev g) (goal_node g) = Ok 3 ∧
       route 25 (prev g) 3 = rev marked_route ∧
       Forall (λ k, cell (gridMatrix g) k = Ok ".") marked_route ∧
       test_run = Ok (g, 12).
Proof.
  eexists. split; [vm_compute; reflexivity |].
  split; [vm_compute; reflexivity |]. split; [vm_compute; reflexivity |].
  split; [vm_compute; reflexivity |].
  split; [| vm_compute; reflexivity].
  unfold marked_route. repeat (constructor; [vm_compute; reflexivity |]). constructor.
Qed.

(** ** MakeWall *)

Lemma with_gridMatrix_same g : with_gridMatrix g (gridMatrix g) = g.
Proof. by destruct g. Qed.

(* Two rebuilt adjacency lists of one grid are the same list. *)
Lemma rebuilt_same_adjacency g1 g2 :
  rebuilt g1 → rebuilt g2 → gridMatrix g1 = gridMatrix g2 →
  length (adjecencyList g1) = 25%nat → length (adjecencyList g2) = 25%nat →
  adjecencyList g1 = adjecencyList g2.
Proof.
  intros H1 H2 Hgrid Hl1 Hl2. apply list_eq. intros i.
  destruct (decide (i < 25)%nat) as [Hi | Hi].
  - specialize (H1 (Z.of_nat i / 5) (Z.of_nat i mod 5)).
    specialize (H2 (Z.of_nat i / 5) (Z.of_nat i mod 5)).
    assert (Z.of_nat i / 5 * 5 + Z.of_nat i mod 5 = Z.of_nat i) as E
      by (Z.div_mod_to_equations; lia).
    rewrite E in H1, H2.
    destruct (index_in_range (adjecencyList g1) (Z.of_nat i)) as (a & Ha & Hla);
      [unfold len; lia |].
    destruct (index_in_range (adjecencyList g2) (Z.of_nat i)) as (b & Hb & Hlb);
      [unfold len; lia |].
    rewrite Nat2Z.id in Hla, Hlb. rewrite Hla, Hlb.
    rewrite Ha in H1. rewrite Hb in H2. rewrite Hgrid in H1.
    assert (0 <= Z.of_nat i / 5 < 5) as Hy by (Z.div_mod_to_equations; lia).
    assert (0 <= Z.of_nat i mod 5 < 5) as Hx by (Z.div_mod_to_equations; lia).
    specialize (H1 Hy Hx). specialize (H2 Hy Hx). congruence.
  - rewrite !lookup_ge_None_2 by lia. done.
Qed.

(** C8, as stated, fails on the code in its last part: after a search has
    marked (1,0), a call of MakeWall with endpoints that are not on a line
    leaves the grid as it was and rebuilds an adjacency list that differs
    from the one before the call, whose entries for (1,0) still carried the
    category of the blank cell. *)
Lemma stale_list_replaced :
  ∃ g g', marked_run = Ok g ∧
          MakeWall 0 2 1 3 g = Ok (g', [not_a_line]) ∧
          gridMatrix g' = gridMatrix g ∧
          adjecencyList g' ≠ adjecencyList g.
Proof.
  eexists _, _. split; [vm_compute; reflexivity |].
  split; [vm_compute; reflexivity |]. split; [reflexivity |].
  vm_compute. discriminate.
Qed.

(** C8, amended.  On a well-formed graph a call of MakeWall with endpoints
    that are not on a line prints the error line and nothing else, places no
    wall, leaves the grid as it was and rebuilds; the rebuilt adjacency list
    is the one the graph had whenever that one was rebuilt from the current
    grid. *)
Theorem MakeWall_not_a_line g x1 y1 x2 y2 :
  wf5 g → x1 ≠ x2 → y1 ≠ y2 →
  ∃ g', MakeWall x1 y1 x2 y2 g = Ok (g', [not_a_line]) ∧
        gridMatrix g' = gridMatrix g ∧ rebuilt g' ∧
        (rebuilt g → adjecencyList g' = adjecencyList g).
Proof.
  intros Hg Hx Hy. unfold MakeWall.
  destruct (Z.eqb_spec x1 x2) as [| _]; [done |].
  destruct (Z.eqb_spec y1 y2) as [| _]; [done |].
  cbn [negb andb]. rewrite bind_Ok_l. cbv beta iota.
  rewrite with_gridMatrix_same.
  destruct (fillAdjecencyList_ok g Hg) as (g' & -> & Hwf & Hre & Hgrid & _).
  rewrite bind_Ok_l. exists g'. split; [reflexivity |].
  split; [exact Hgrid |]. split; [exact Hre |].
  intros Hre0. apply rebuilt_same_adjacency; try done; by destruct Hg, Hwf.
Qed.

Lemma MakeWall_not_a_line_witness :
  wf5 empty5 ∧ 0 ≠ 1 ∧ 2 ≠ 3 ∧
  ∃ g', MakeWall 0 2 1 3 empty5 = Ok (g', [not_a_line]) ∧
        gridMatrix g' = gridMatrix empty5 ∧ rebuilt g' ∧
        (rebuilt empty5 → adjecencyList g' = adjecencyList empty5).
Proof.
  split; [exact empty5_wf5 |]. split; [lia |]. split; [lia |].
  apply (MakeWall_not_a_line empty5 0 2 1 3); [exact empty5_wf5 | lia | lia].
Defined.

(** C10 (MakeWall with the endpoints of a line in decreasing order).  On a
    well-formed graph the call places no wall and prints nothing: the loop
    over the cells of the line runs no round, and the grid is left as it
    was. *)
Theorem MakeWall_backwards_is_silent g x1 y1 x2 y2 :
  wf5 g → (x1 = x2 ∧ y1 > y2) ∨ (y1 = y2 ∧ x1 > x2) →
  ∃ g', MakeWall x1 y1 x2 y2 g = Ok (g', []) ∧ gridMatrix g' = gridMatrix g.
Proof.
  intros Hg Hline. unfold MakeWall, for_le.
  destruct (fillAdjecencyList_ok g Hg) as (g' & Hfill & _ & _ & Hgrid & _).
  exists g'. split; [| exact Hgrid].
  destruct Hline as [[-> Hy] | [-> Hx]].
  - rewrite Z.eqb_refl. cbn [negb andb].
    replace (Z.to_nat (y2 - y1 + 1)) with 0%nat by lia.
    cbn [for_range]. rewrite !bind_Ok_l. cbv beta iota.
    rewrite with_gridMatrix_same, Hfill. reflexivity.
  - rewrite Z.eqb_refl. rewrite andb_false_r.
    destruct (Z.eqb_spec x1 x2) as [| _]; [lia |].
    replace (Z.to_nat (x2 - x1 + 1)) with 0%nat by lia.
    cbn [for_range]. rewrite !bind_Ok_l. cbv beta iota.
    rewrite with_gridMatrix_same, Hfill. reflexivity.
Qed.

Lemma MakeWall_backwards_is_silent_witness :
  wf5 empty5 ∧ ((1 = 1 ∧ 3 > 0) ∨ (3 = 0 ∧ 1 > 1)) ∧
  ∃ g', MakeWall 1 3 1 0 empty5 = Ok (g', []) ∧ gridMatrix g' = gridMatrix empty5.
Proof.
  split; [exact empty5_wf5 |]. split; [left; lia |].
  apply (MakeWall_backwards_is_silent empty5 1 3 1 0); [exact empty5_wf5 | left; lia].
Defined.

(** ** Bounds *)

(** C9, as stated, fails on the code in two places: [NewGraph(0, 0)] returns
    a graph whose rebuild visits no cell and makes no access at all, and on
    the 5 x 5 graph with no start placed PathFinder writes [dist[-1]]. *)
Lemma no_cell_no_access :
  NewGraph 0 0 = Ok (blank 0 0) ∧
  fillAdjecencyList (blank 0 0) = Ok (blank 0 0) ∧
  ¬ other_sizes_fail ∧
  created5 empty5 ∧ PathFinder 25 empty5 = Panic IndexOutOfRange.
Proof.
  split; [vm_compute; reflexivity |]. split; [vm_compute; reflexivity |].
  split.
  - intros Hall. specialize (Hall 0 0). vm_compute in Hall.
    assert ((0, 0) = (5, 5) → False) as Hne by discriminate.
    specialize (Hall Hne). discriminate.
  - split; [apply created_NewGraph; exact NewGraph_5_5_value |].
    vm_compute. reflexivity.
Qed.

(** C9, amended.  On every graph made from [NewGraph(5, 5)], with or
    without a start and a goal, the rebuild reads and writes in bounds only,
    and so does PathFinder once the start and the goal are placed (its
    marking loop need not end); [NewGraph] with a width and a height of at
    least 1 that are not both 5, and with at most 2^20 cells so that all its
    slices are allocated, fails with an index out of range in its own
    rebuild. *)
Theorem bounds_by_size g fuel w h :
  (created5 g →
     (∃ g', fillAdjecencyList g = Ok g' ∧ created5 g') ∧
     (placed g →
        PathFinder fuel g = Timeout ∨
        ∃ g' d, PathFinder fuel g = Ok (g', d) ∧ created5 g')) ∧
  (1 <= w → 1 <= h → w * h <= 2 ^ 20 → (w, h) ≠ (5, 5) →
     NewGraph w h = Panic IndexOutOfRange).
Proof.
  split.
  - intros Hg. pose proof (created5_wf5 g Hg) as Hwf. split.
    + destruct (fillAdjecencyList_ok g Hwf) as (g' & Hg' & _).
      exists g'. split; [exact Hg' |]. by apply (created_fill g).
    + intros Hpl.
      destruct (PathFinder_safe fuel g Hwf Hpl) as [Ht | (g' & d & Hg' & _)];
        [by left | right].
      exists g', d. split; [exact Hg' |]. by apply (created_PathFinder g fuel g' d).
  - intros Hw Hh Harea Hne. by apply NewGraph_other_sizes.
Qed.

Lemma bounds_by_size_witness :
  created5 placed5 ∧ placed placed5 ∧
  1 <= 6 ∧ 1 <= 4 ∧ 6 * 4 <= 2 ^ 20 ∧ (6, 4) ≠ (5, 5) ∧
  (∃ g', fillAdjecencyList placed5 = Ok g' ∧ created5 g') ∧
  (PathFinder 25 placed5 = Timeout ∨
   ∃ g' d, PathFinder 25 placed5 = Ok (g', d) ∧ created5 g') ∧
  NewGraph 6 4 = Panic IndexOutOfRange.
Proof.
  split; [exact placed5_created |]. split; [exact placed5_placed |].
  split; [lia |]. split; [lia |]. split; [lia |]. split; [discriminate |].
  destruct (bounds_by_size placed5 25 6 4) as [Hgraph Hnew].
  destruct (Hgraph placed5_created) as [Hfill Hpath].
  split; [exact Hfill |]. split; [exact (Hpath placed5_placed) |].
  apply Hnew; [lia | lia | lia | discriminate].
Defined.

(** * Further properties *)

(** ** The rebuild, cell by cell *)

Lemma scan_is_start : scan_is [] 0 (mk_scan (replicate 5 zero_node) 0 0).
Proof. unfold scan_is, len. simpl. repeat split; done. Qed.

Lemma probe_exact m yy xx idx s acc n :
  scan_is acc n s → n < 5 → (∃ c, index2 m yy xx = Ok c) →
  ∃ s', probe m yy xx idx s = Ok s' ∧ scan_is (acc ++ kept m (yy, xx, idx)) (n + 1) s'.
Proof.
  intros (Hlen & Hni & Hw & Hpos & Htake) Hn [c Hc].
  unfold probe, kept. cbn [fst snd]. rewrite Hc, bind_Ok_l.
  unfold len in *. destruct (String.eqb c "#"); cbn [negb].
  - eexists. split; [reflexivity |]. unfold Int.add. rewrite wrap_small by lia.
    unfold scan_is, len. rewrite app_nil_r. cbn [neighbors neighbor_index
      number_of_neighboring_walls]. repeat split; try done; lia.
  - rewrite store_in_range by (unfold len; lia). rewrite bind_Ok_l.
    eexists. split; [reflexivity |]. unfold Int.add. rewrite wrap_small by lia.
    unfold scan_is, len. cbn [neighbors neighbor_index number_of_neighboring_walls].
    rewrite length_insert, length_app. cbn [length].
    repeat split; try done; try lia.
    rewrite Hni, Nat2Z.id.
    replace (length acc + 1)%nat with (Datatypes.S (length acc)) by lia.
    rewrite (take_S_r _ _ (mk_node c idx)) by (apply list_lookup_insert_eq; lia).
    by rewrite take_insert_ge, Htake by lia.
Qed.

Lemma trim_exact k s acc :
  scan_is acc k s → 0 <= k <= 5 → trim k s = Ok acc.
Proof.
  intros (Hlen & Hni & Hw & Hpos & Htake) Hk.
  unfold trim, slice_to, Int.sub. rewrite Hw. unfold len in *.
  rewrite wrap_small by lia.
  replace (k - (k - Z.of_nat (length acc))) with (Z.of_nat (length acc)) by lia.
  destruct (Z.leb_spec 0 (Z.of_nat (length acc))); [| lia].
  destruct (Z.leb_spec (Z.of_nat (length acc)) (Z.of_nat (length (neighbors s))));
    [| lia].
  cbn [andb]. by rewrite Nat2Z.id, Htake.
Qed.

Ltac probe_exactly :=
  match goal with
  | Hs : scan_is _ _ ?s |- context [probe ?m ?yy ?xx ?idx ?s] =>
      let s' := fresh "s" in
      let E := fresh "E" in
      let Hs' := fresh "Hs" in
      destruct (probe_exact m yy xx idx s _ _ Hs) as (s' & E & Hs');
      [ lia
      | apply index2_in_grid; [assumption | closed_bounds | closed_bounds]
      | rewrite E, bind_Ok_l; clear E Hs ]
  end.

Lemma wall_cell_at m y x c :
  0 <= x < 5 → index2 m y x = Ok c → wall_cell m (5 * y + x) = String.eqb c "#".
Proof.
  intros Hx Hc. unfold wall_cell, cell.
  destruct (cell_number y x Hx) as [-> ->]. by rewrite Hc.
Qed.

(* On a 5 x 5 grid the scan of a cell leaves the entries of its neighbour
   tests that did not meet a wall, in the order of the tests. *)
Lemma cell_neighbors_exact m y x :
  grid_shape 5 5 m → 0 <= y < 5 → 0 <= x < 5 →
  cell_neighbors m 5 y x = Ok (neighbours_of m (5 * y + x)).
Proof.
  intros Hm Hy Hx. unfold cell_neighbors, neighbours_of. cbv zeta.
  destruct (index2_in_grid m y x Hm Hy Hx) as [c Hc].
  rewrite (wall_cell_at m y x c Hx Hc), Hc, bind_Ok_l.
  destruct (cell_number y x Hx) as [-> ->].
  pose proof scan_is_start as Hs.
  destruct (String.eqb c "#"); [reflexivity |].
  destruct (below_5 y Hy) as [-> | [-> | [-> | [-> | ->]]]];
  destruct (below_5 x Hx) as [-> | [-> | [-> | [-> | ->]]]];
  cbn [Z.eqb Pos.eqb];
  repeat probe_exactly;
  (erewrite trim_exact; [| eassumption | lia]);
  match goal with
  | |- context [probes_of ?y ?x] =>
      let v := eval vm_compute in (probes_of y x) in change (probes_of y x) with v
  end;
  cbn [flat_map]; rewrite ?app_nil_r, <- ?app_assoc; reflexivity.
Qed.

(** ** The rebuild as a whole *)

Lemma category_at_cell m y x c :
  0 <= x < 5 → index2 m y x = Ok c → category_at m (5 * y + x) = c.
Proof.
  intros Hx Hc. unfold category_at, cell.
  destruct (cell_number y x Hx) as [-> ->]. by rewrite Hc.
Qed.

Lemma fill_cell_marks y x g li st' :
  fill_cell y x (g, li) = Ok st' →
  ∃ c, index2 (gridMatrix g) y x = Ok c ∧
       start_node st'.1 = (if String.eqb c "s" then li else start_node g) ∧
       goal_node st'.1 = (if String.eqb c "g" then li else goal_node g).
Proof.
  unfold fill_cell. intros Hrun.
  apply bind_Ok in Hrun as (c & Hc & Hrun). cbv zeta in Hrun.
  apply bind_Ok in Hrun as (set' & _ & Hrun).
  apply bind_Ok in Hrun as (nbs & _ & Hrun).
  apply bind_Ok in Hrun as (adj' & _ & Hrun).
  injection Hrun as <-. exists c. split; [done |].
  destruct (String.eqb_spec c "s") as [-> | _]; [by split |].
  by destruct (String.eqb c "g").
Qed.

Lemma fill_cell_marks_inv g0 y x st st' :
  0 <= y < 5 → 0 <= x < 5 → st.2 = 5 * y + x → gridMatrix st.1 = gridMatrix g0 →
  marks_inv g0 (5 * y + x) st → fill_cell y x st = Ok st' →
  marks_inv g0 (5 * y + x + 1) st'.
Proof.
  intros Hy Hx Hli Hgrid [Hs Hg] Hrun. destruct st as [g li]. simpl in Hli, Hgrid, Hs, Hg.
  destruct (fill_cell_marks y x g li st' Hrun) as (c & Hc & Hs' & Hg').
  rewrite Hgrid in Hc. pose proof (category_at_cell _ y x c Hx Hc) as Hcat.
  unfold marks_inv. rewrite seqZ_app by lia. rewrite !fold_left_app.
  change (seqZ (0 + (5 * y + x)) 1) with [0 + (5 * y + x)].
  cbn [fold_left]. rewrite Z.add_0_l, Hcat, Hs', Hg', <- Hs, <- Hg, Hli. done.
Qed.

(* The loops of the rebuild, with all they establish. *)
Lemma fill_loops g :
  wf5 g →
  ∃ st, for_range 5 0 (λ y s, for_range 5 0 (λ x, fill_cell y x) s) (g, 0) = Ok st ∧
        fill_inv g 25 st ∧ marks_inv g 25 st.
Proof.
  intros [Hw Hh Hm Hset _ Hadj _ Hdist Hprev Hprev_ok].
  destruct (for_range_inv (λ y st, fill_inv g (5 * y) st ∧ marks_inv g (5 * y) st)
              (λ y s, for_range 5 0 (λ x, fill_cell y x) s) 5 0 (g, 0))
    as (st & Hrun & Hinv); [| | by exists st].
  { split; [| by split].
    unfold fill_inv. simpl. repeat split; try done; try (by left); lia. }
  intros y st Hy Hst.
  destruct (for_range_inv
              (λ x st, fill_inv g (5 * y + x) st ∧ marks_inv g (5 * y + x) st)
              (λ x, fill_cell y x) 5 0 st) as (st' & Hst' & Hinv').
  - by replace (5 * y + 0) with (5 * y) by lia.
  - intros x t Hx [Ht Hmk].
    destruct (fill_cell_inv g y x t) as (t' & Ht' & Hinv''); try done; try lia.
    exists t'. split; [done |].
    replace (5 * y + (x + 1)) with (5 * y + x + 1) by lia. split; [done |].
    destruct Ht as (Hli & Hgrid & _).
    apply (fill_cell_marks_inv g y x t t'); try done; lia.
  - exists st'. split; [done |].
    by replace (5 * (y + 1)) with (5 * y + (0 + Z.of_nat 5)) by lia.
Qed.

Lemma cell_split k : 5 * (k / 5) + k mod 5 = k.
Proof. Z.div_mod_to_equations. lia. Qed.

Lemma cell_split_bounds k : 0 <= k < 25 → 0 <= k / 5 < 5 ∧ 0 <= k mod 5 < 5.
Proof. intros Hk. Z.div_mod_to_equations. lia. Qed.

(* The rebuild of a well-formed graph, as a value. *)
Lemma fillAdjecencyList_exact g :
  wf5 g → fillAdjecencyList g = Ok (rebuild_of g).
Proof.
  intros Hg. destruct (fill_loops g Hg) as ([g' li] & Hrun & Hinv & Hs & Hgl).
  pose proof Hg as [Hw Hh Hm _ _ _ _ _ _ _].
  unfold fillAdjecencyList, for_lt. cbv zeta. rewrite Hw, Hh.
  change (Z.to_nat (5 - 0)) with 5%nat. rewrite Hrun, bind_Ok_l. clear Hrun.
  destruct Hinv as (_ & Hgrid & Hw' & Hh' & Hdist & Hprev & Hset & Hadj & _ & _ & Hdone).
  cbn [fst snd] in *.
  destruct g' as [set' adj' start' goal' dist' prev' m' w' h'].
  cbn [set adjecencyList start_node goal_node dist prev gridMatrix grid_width
       grid_height] in *.
  unfold rebuild_of. cbn [mret result_ret fst]. subst. rewrite Hw, Hh.
  f_equal. f_equal.
  - apply list_eq. intros i. rewrite list_lookup_fmap.
    destruct (decide (i < 25)%nat) as [Hi | Hi].
    + destruct (Hdone (Z.of_nat i)) as [(c & Hc & Hl) _]; [lia |].
      rewrite Nat2Z.id in Hl. rewrite Hl.
      rewrite (lookup_seqZ_lt 0 25 i) by lia. cbn [fmap option_fmap option_map].
      rewrite Z.add_0_l.
      destruct (cell_split_bounds (Z.of_nat i)) as [_ Hx]; [lia |].
      rewrite <- (category_at_cell _ _ _ c Hx Hc). by rewrite cell_split.
    + rewrite lookup_ge_None_2 by lia.
      by rewrite lookup_seqZ_ge by lia.
  - apply list_eq. intros i. rewrite list_lookup_fmap.
    destruct (decide (i < 25)%nat) as [Hi | Hi].
    + destruct (Hdone (Z.of_nat i)) as [_ (nbs & Hn & Hl & _)]; [lia |].
      rewrite Nat2Z.id in Hl. rewrite Hl.
      rewrite (lookup_seqZ_lt 0 25 i) by lia. cbn [fmap option_fmap option_map].
      rewrite Z.add_0_l.
      destruct (cell_split_bounds (Z.of_nat i)) as [Hy Hx]; [lia |].
      rewrite cell_neighbors_exact in Hn by done.
      rewrite cell_split in Hn. by injection Hn as ->.
    + rewrite lookup_ge_None_2 by lia.
      by rewrite lookup_seqZ_ge by lia.
Qed.

(** ** The adjacency list and the grid *)

Lemma probes_fit :
  forallb (λ a, forallb (probe_fits a) (probes_of (a / 5) (a mod 5))) (seqZ 0 25) = true.
Proof. vm_compute. reflexivity. Qed.

Lemma probes_cover_all :
  forallb (λ a, bottom_middle a || probes_cover a) (seqZ 0 25) = true.
Proof. vm_compute. reflexivity. Qed.

Lemma in_seqZ_25 a : 0 <= a < 25 → a ∈ seqZ 0 25.
Proof. intros Ha. apply elem_of_seqZ. lia. Qed.

Lemma probe_fits_at a pr :
  0 <= a < 25 → pr ∈ probes_of (a / 5) (a mod 5) → probe_fits a pr = true.
Proof.
  intros Ha Hpr. pose proof probes_fit as H.
  rewrite forallb_forall in H. specialize (H a).
  rewrite <- list_elem_of_In in H. specialize (H (in_seqZ_25 a Ha)).
  rewrite forallb_forall in H. apply H. by apply list_elem_of_In.
Qed.

Lemma open_at_cell m k : open_at m (k / 5) (k mod 5) = open_cell m k.
Proof. reflexivity. Qed.

Lemma open_at_split m yy xx :
  0 <= xx < 5 → open_at m yy xx = open_cell m (5 * yy + xx).
Proof.
  intros Hx. unfold open_cell, cell, open_at.
  by destruct (cell_number yy xx Hx) as [-> ->].
Qed.

Lemma open_cell_in_grid m k :
  grid_shape 5 5 m → open_cell m k = true → 0 <= k < 25.
Proof.
  intros [Hlen Hrows] Hopen. unfold open_cell, cell, index2 in Hopen.
  destruct (index m (k / 5)) as [row | |] eqn:Hrow; try done.
  apply index_Ok in Hrow as [Hy Hrow]. apply lookup_lt_Some in Hrow.
  Z.div_mod_to_equations. lia.
Qed.

Lemma wall_or_open m k :
  grid_shape 5 5 m → 0 <= k < 25 → wall_cell m k = negb (open_cell m k).
Proof.
  intros Hm Hk. unfold wall_cell, open_cell, cell.
  destruct (cell_split_bounds k Hk) as [Hy Hx].
  destruct (index2_in_grid m _ _ Hm Hy Hx) as [c ->]. by rewrite negb_involutive.
Qed.

Lemma existsb_kept m pr b :
  existsb (λ n, set_index n =? b) (kept m pr) = open_at m pr.1.1 pr.1.2 && (pr.2 =? b).
Proof.
  unfold kept, open_at. destruct (index2 m pr.1.1 pr.1.2) as [c | |]; try done.
  destruct (String.eqb c "#"); [done |]. simpl. by rewrite orb_false_r.
Qed.

Lemma existsb_flat_map {A B} (f : B → bool) (h : A → list B) l :
  existsb f (flat_map h l) = existsb (λ a, existsb f (h a)) l.
Proof.
  induction l as [| a l IH]; [done |]. simpl. by rewrite existsb_app, IH.
Qed.

Lemma existsb_same {A} (f h : A → bool) l :
  (∀ a, f a = h a) → existsb f l = existsb h l.
Proof. intros E. induction l as [| a l IH]; [done |]. simpl. by rewrite E, IH. Qed.

(* what [listed] reads on a rebuilt graph *)
Lemma listed_rebuild_of g a b :
  0 <= a < 25 →
  listed (rebuild_of g) a b
  = negb (wall_cell (gridMatrix g) a)
    && existsb (λ pr : Z * Z * Z,
                  open_at (gridMatrix g) pr.1.1 pr.1.2 && (pr.2 =? b))
               (probes_of (a / 5) (a mod 5)).
Proof.
  intros Ha. unfold listed, rebuild_of. cbn [adjecencyList].
  assert (index (map (neighbours_of (gridMatrix g)) (seqZ 0 25)) a
          = Ok (neighbours_of (gridMatrix g) a)) as ->.
  { apply index_Ok. split; [lia |]. rewrite list_lookup_fmap.
    rewrite (lookup_seqZ_lt 0 25) by lia. simpl. f_equal. f_equal. lia. }
  unfold neighbours_of. destruct (wall_cell (gridMatrix g) a); [done |].
  rewrite existsb_flat_map. cbn [negb andb].
  apply existsb_same. intros pr. apply existsb_kept.
Qed.

Lemma listed_outside g a b :
  length (adjecencyList g) = 25%nat → ¬ 0 <= a < 25 → listed g a b = false.
Proof.
  intros Hlen Ha. unfold listed. rewrite index_out_of_range; [done |].
  unfold len. lia.
Qed.

Lemma beside_sym a b : beside a b = beside b a.
Proof.
  unfold beside. rewrite (Z.eqb_sym (a / 5)), (Z.eqb_sym (a mod 5)).
  by rewrite (orb_comm (a mod 5 - b mod 5 =? 1)), (orb_comm (a / 5 - b / 5 =? 1)).
Qed.

Lemma rebuild_of_lists g : length (adjecencyList (rebuild_of g)) = 25%nat.
Proof. unfold rebuild_of. cbn [adjecencyList]. by rewrite length_map, length_seqZ. Qed.

(* An entry of a rebuilt list is for a cell beside the cell of the list,
   which is not a wall. *)
Lemma listed_sound g a b :
  grid_shape 5 5 (gridMatrix g) → listed (rebuild_of g) a b = true →
  0 <= a < 25 ∧ 0 <= b < 25 ∧ beside a b = true ∧ open_cell (gridMatrix g) a = true.
Proof.
  intros Hm Hl.
  assert (0 <= a < 25) as Ha.
  { destruct (decide (0 <= a < 25)) as [| Hout]; [done |].
    rewrite listed_outside in Hl; [done | apply rebuild_of_lists | done]. }
  rewrite listed_rebuild_of in Hl by done.
  apply andb_prop in Hl as [Hw He]. rewrite (wall_or_open _ _ Hm Ha) in Hw.
  rewrite negb_involutive in Hw.
  apply existsb_exists in He as (pr & Hpr & Hb). apply andb_prop in Hb as [_ Hidx].
  apply Z.eqb_eq in Hidx. apply list_elem_of_In in Hpr.
  pose proof (probe_fits_at a pr Ha Hpr) as Hfit.
  destruct pr as [[yy xx] idx]. simpl in Hidx. subst idx.
  unfold probe_fits in Hfit. repeat (apply andb_prop in Hfit as [Hfit ?]).
  repeat split; try done; lia.
Qed.

(* Away from the middle of the bottom row a rebuilt list holds the cells
   beside its cell that are not walls, if its cell is not a wall. *)
Lemma listed_exact g a b :
  grid_shape 5 5 (gridMatrix g) → bottom_middle a = false →
  listed (rebuild_of g) a b
  = beside a b && open_cell (gridMatrix g) a && open_cell (gridMatrix g) b.
Proof.
  intros Hm Hbm. apply Bool.eq_iff_eq_true. split.
  - intros Hl. destruct (listed_sound g a b Hm Hl) as (Ha & Hb & Hbes & Hopen).
    rewrite Hbes, Hopen. cbn [andb].
    rewrite listed_rebuild_of in Hl by done. apply andb_prop in Hl as [_ He].
    apply existsb_exists in He as (pr & Hpr & Hp). apply andb_prop in Hp as [Hop Hidx].
    apply Z.eqb_eq in Hidx. apply list_elem_of_In in Hpr.
    pose proof (probe_fits_at a pr Ha Hpr) as Hfit.
    destruct pr as [[yy xx] idx]. cbn [fst snd] in *. subst idx.
    unfold probe_fits in Hfit. rewrite Hbm in Hfit. cbn [orb] in Hfit.
    repeat (apply andb_prop in Hfit as [Hfit ?]).
    rewrite open_at_split in Hop by lia.
    assert (b = 5 * yy + xx) as -> by (by apply Z.eqb_eq). done.
  - intros H. apply andb_prop in H as [H Hob]. apply andb_prop in H as [Hbes Hoa].
    pose proof (open_cell_in_grid _ _ Hm Hoa) as Ha.
    pose proof (open_cell_in_grid _ _ Hm Hob) as Hb.
    rewrite listed_rebuild_of by done.
    rewrite (wall_or_open _ _ Hm Ha), Hoa. cbn [negb andb].
    pose proof probes_cover_all as Hcov. rewrite forallb_forall in Hcov.
    specialize (Hcov a). rewrite <- list_elem_of_In in Hcov.
    specialize (Hcov (in_seqZ_25 a Ha)). rewrite Hbm in Hcov. cbn [orb] in Hcov.
    unfold probes_cover in Hcov. rewrite forallb_forall in Hcov.
    specialize (Hcov b). rewrite <- list_elem_of_In in Hcov.
    specialize (Hcov (in_seqZ_25 b Hb)). rewrite Hbes in Hcov. cbn [negb orb] in Hcov.
    apply existsb_exists in Hcov as (pr & Hpr & Hp). apply andb_prop in Hp as [Hidx Hcell].
    apply existsb_exists. exists pr. split; [done |]. rewrite Hidx, andb_true_r.
    apply list_elem_of_In in Hpr. pose proof (probe_fits_at a pr Ha Hpr) as Hfit.
    destruct pr as [[yy xx] idx]. cbn [fst snd] in *.
    unfold probe_fits in Hfit. repeat (apply andb_prop in Hfit as [Hfit ?]).
    rewrite open_at_split by lia. apply Z.eqb_eq in Hcell. by rewrite Hcell.
Qed.

(* what the fold that records the start and the goal returns *)
Lemma last_mark (P : Z → bool) (n : nat) (d : Z) :
  let r := fold_left (λ acc k, if P k then k else acc) (seqZ 0 (Z.of_nat n)) d in
  (r = d ∧ ∀ k, 0 <= k < Z.of_nat n → P k = false)
  ∨ (0 <= r < Z.of_nat n ∧ P r = true ∧ ∀ j, r < j < Z.of_nat n → P j = false).
Proof.
  cbv zeta. induction n as [| n IH]; [left; split; [done | lia] |].
  replace (Z.of_nat (Datatypes.S n)) with (Z.of_nat n + 1) by lia.
  rewrite seqZ_app by lia. rewrite fold_left_app.
  change (seqZ (0 + Z.of_nat n) 1) with [0 + Z.of_nat n]. rewrite Z.add_0_l.
  cbn [fold_left]. destruct (P (Z.of_nat n)) eqn:Hn.
  - right. split; [lia |]. split; [done |]. intros j Hj. lia.
  - destruct IH as [[E Hall] | (Hr & HP & Hall)].
    + left. split; [done |]. intros k Hk.
      destruct (decide (k = Z.of_nat n)) as [-> |]; [done | apply Hall; lia].
    + right. split; [lia |]. split; [done |]. intros j Hj.
      destruct (decide (j = Z.of_nat n)) as [-> |]; [done | apply Hall; lia].
Qed.

Lemma last_with_none m c d :
  (∀ k, 0 <= k < 25 → category_at m k ≠ c) → last_with m c d = d.
Proof.
  intros Hnone. unfold last_with.
  destruct (last_mark (λ k, String.eqb (category_at m k) c) 25 d)
    as [[E _] | (Hr & HP & _)]; [done |].
  apply String.eqb_eq in HP. by destruct (Hnone _ Hr).
Qed.

Lemma last_with_last m c d k :
  0 <= k < 25 → category_at m k = c →
  (∀ j, k < j < 25 → category_at m j ≠ c) → last_with m c d = k.
Proof.
  intros Hk Hc Hlast. unfold last_with.
  destruct (last_mark (λ k, String.eqb (category_at m k) c) 25 d)
    as [[_ Hall] | (Hr & HP & Hall)].
  - specialize (Hall k Hk). cbv beta in Hall. apply String.eqb_neq in Hall. done.
  - cbv beta in HP. apply String.eqb_eq in HP.
    set (r := fold_left _ _ _) in *.
    destruct (Z.lt_trichotomy r k) as [Hlt | [E | Hgt]]; [| done |].
    + specialize (Hall k). cbv beta in Hall.
      rewrite (proj2 (String.eqb_eq _ _) Hc) in Hall. by specialize (Hall ltac:(lia)).
    + by destruct (Hlast r ltac:(lia)).
Qed.

Lemma placed5_wf5 : wf5 placed5.
Proof. apply created5_wf5. exact placed5_created. Qed.

Lemma rebuild_of_grid g : gridMatrix (rebuild_of g) = gridMatrix g.
Proof. reflexivity. Qed.

Lemma last_with_again m c d : last_with m c (last_with m c d) = last_with m c d.
Proof.
  pose proof (last_mark (λ k, String.eqb (category_at m k) c) 25 d) as H.
  cbv zeta beta in H. change (Z.of_nat 25) with 25 in H.
  change (fold_left _ (seqZ 0 25) d) with (last_with m c d) in H.
  destruct H as [[E Hall] | (Hr & HP & Hall)].
  - rewrite E. apply last_with_none. intros k Hk. apply String.eqb_neq. by apply Hall.
  - apply last_with_last; [done | by apply String.eqb_eq |].
    intros j Hj. apply String.eqb_neq. by apply Hall.
Qed.

(** X1.  The rebuild of a well-formed graph returns and leaves a node set of
    25 nodes, one for every cell, walls included: node [k] carries the
    category of cell [k] and the index [k]. *)
Theorem rebuild_node_set g :
  wf5 g →
  ∃ g', fillAdjecencyList g = Ok g' ∧ length (set g') = 25%nat ∧
        ∀ k, 0 <= k < 25 →
          index (set g') k = Ok (mk_node (category_at (gridMatrix g) k) k).
Proof.
  intros Hg. exists (rebuild_of g). split; [by apply fillAdjecencyList_exact |].
  unfold rebuild_of. cbn [set]. split; [by rewrite length_map, length_seqZ |].
  intros k Hk. apply index_Ok. split; [lia |]. rewrite list_lookup_fmap.
  rewrite (lookup_seqZ_lt 0 25) by lia. simpl. f_equal. f_equal; [f_equal |]; lia.
Qed.

Lemma rebuild_node_set_witness :
  wf5 placed5 ∧
  ∃ g', fillAdjecencyList placed5 = Ok g' ∧ length (set g') = 25%nat ∧
        ∀ k, 0 <= k < 25 →
          index (set g') k = Ok (mk_node (category_at (gridMatrix placed5) k) k).
Proof. split; [exact placed5_wf5 |]. apply (rebuild_node_set placed5). exact placed5_wf5. Defined.

(** X2.  After a rebuild every entry of an adjacency list is for a cell of
    the grid beside the cell of the list, the cell of the list is not a
    wall, and no list has more than four entries. *)
Theorem rebuild_lists_neighbours g :
  wf5 g →
  ∃ g', fillAdjecencyList g = Ok g' ∧
        (∀ a b, listed g' a b = true →
           0 <= a < 25 ∧ 0 <= b < 25 ∧ beside a b = true ∧
           open_cell (gridMatrix g) a = true) ∧
        (∀ a nbs, index (adjecencyList g') a = Ok nbs → (length nbs <= 4)%nat).
Proof.
  intros Hg. exists (rebuild_of g). split; [by apply fillAdjecencyList_exact |].
  pose proof Hg as [_ _ Hm _ _ _ _ _ _ _]. split.
  - intros a b. by apply listed_sound.
  - intros a nbs Ha.
    destruct (fillAdjecencyList_ok g Hg) as (g' & Hg' & _ & Hre & Hgrid & _).
    rewrite fillAdjecencyList_exact in Hg' by done. injection Hg' as <-.
    assert (0 <= a < 25) as Hr.
    { destruct (decide (0 <= a < 25)) as [| Hout]; [done |].
      rewrite index_out_of_range in Ha; [done |].
      unfold len. rewrite rebuild_of_lists. lia. }
    destruct (cell_split_bounds a Hr) as [Hy Hx].
    specialize (Hre _ _ Hy Hx).
    replace (a / 5 * 5 + a mod 5) with a in Hre by (Z.div_mod_to_equations; lia).
    rewrite Ha in Hre.
    destruct (cell_neighbors_ok (gridMatrix (rebuild_of g)) _ _ Hm Hy Hx)
      as (nbs' & Hn & Hlen & _).
    rewrite Hn in Hre. by injection Hre as ->.
Qed.

Lemma rebuild_lists_neighbours_witness :
  wf5 placed5 ∧
  ∃ g', fillAdjecencyList placed5 = Ok g' ∧
        (∀ a b, listed g' a b = true →
           0 <= a < 25 ∧ 0 <= b < 25 ∧ beside a b = true ∧
           open_cell (gridMatrix placed5) a = true) ∧
        (∀ a nbs, index (adjecencyList g') a = Ok nbs → (length nbs <= 4)%nat).
Proof.
  split; [exact placed5_wf5 |]. apply (rebuild_lists_neighbours placed5). exact placed5_wf5.
Defined.

(** X3.  After a rebuild, for every cell that is not one of the three middle
    cells of the bottom row, the adjacency list holds exactly the cells
    beside it that are not walls, provided the cell itself is not a wall;
    between two such cells the lists are symmetric. *)
Theorem rebuild_lists_exact g :
  wf5 g →
  ∃ g', fillAdjecencyList g = Ok g' ∧
        (∀ a b, bottom_middle a = false →
           listed g' a b
           = beside a b && open_cell (gridMatrix g) a && open_cell (gridMatrix g) b) ∧
        (∀ a b, bottom_middle a = false → bottom_middle b = false →
           listed g' a b = listed g' b a).
Proof.
  intros Hg. exists (rebuild_of g). split; [by apply fillAdjecencyList_exact |].
  pose proof Hg as [_ _ Hm _ _ _ _ _ _ _]. split.
  - intros a b Ha. by apply listed_exact.
  - intros a b Ha Hb. rewrite !listed_exact by done.
    rewrite (beside_sym b a). by destruct (beside a b), (open_cell _ a), (open_cell _ b).
Qed.

Lemma rebuild_lists_exact_witness :
  wf5 placed5 ∧
  ∃ g', fillAdjecencyList placed5 = Ok g' ∧
        (∀ a b, bottom_middle a = false →
           listed g' a b
           = beside a b && open_cell (gridMatrix placed5) a
             && open_cell (gridMatrix placed5) b) ∧
        (∀ a b, bottom_middle a = false → bottom_middle b = false →
           listed g' a b = listed g' b a).
Proof.
  split; [exact placed5_wf5 |]. apply (rebuild_lists_exact placed5). exact placed5_wf5.
Defined.

(** X4.  The rebuild records as start the last cell, in row-major order,
    that holds "s", and as goal the last that holds "g"; with no such cell
    it keeps the index it had. *)
Theorem rebuild_start_and_goal g :
  wf5 g →
  ∃ g', fillAdjecencyList g = Ok g' ∧
        ((∀ k, 0 <= k < 25 → category_at (gridMatrix g) k ≠ "s") →
           start_node g' = start_node g) ∧
        (∀ k, 0 <= k < 25 → category_at (gridMatrix g) k = "s" →
           (∀ j, k < j < 25 → category_at (gridMatrix g) j ≠ "s") →
           start_node g' = k) ∧
        ((∀ k, 0 <= k < 25 → category_at (gridMatrix g) k ≠ "g") →
           goal_node g' = goal_node g) ∧
        (∀ k, 0 <= k < 25 → category_at (gridMatrix g) k = "g" →
           (∀ j, k < j < 25 → category_at (gridMatrix g) j ≠ "g") →
           goal_node g' = k).
Proof.
  intros Hg. exists (rebuild_of g). split; [by apply fillAdjecencyList_exact |].
  unfold rebuild_of. cbn [start_node goal_node].
  split; [apply last_with_none |]. split; [intros k; apply last_with_last |].
  split; [apply last_with_none | intros k; apply last_with_last].
Qed.

Lemma rebuild_start_and_goal_witness :
  wf5 placed5 ∧
  ∃ g', fillAdjecencyList placed5 = Ok g' ∧
        ((∀ k, 0 <= k < 25 → category_at (gridMatrix placed5) k ≠ "s") →
           start_node g' = start_node placed5) ∧
        (∀ k, 0 <= k < 25 → category_at (gridMatrix placed5) k = "s" →
           (∀ j, k < j < 25 → category_at (gridMatrix placed5) j ≠ "s") →
           start_node g' = k) ∧
        ((∀ k, 0 <= k < 25 → category_at (gridMatrix placed5) k ≠ "g") →
           goal_node g' = goal_node placed5) ∧
        (∀ k, 0 <= k < 25 → category_at (gridMatrix placed5) k = "g" →
           (∀ j, k < j < 25 → category_at (gridMatrix placed5) j ≠ "g") →
           goal_node g' = k).
Proof.
  split; [exact placed5_wf5 |]. apply (rebuild_start_and_goal placed5). exact placed5_wf5.
Defined.

(** X5.  A rebuild is idempotent: rebuilding the graph a rebuild returned
    returns the same graph. *)
Theorem rebuild_twice g :
  wf5 g → ∃ g', fillAdjecencyList g = Ok g' ∧ fillAdjecencyList g' = Ok g'.
Proof.
  intros Hg. destruct (fillAdjecencyList_ok g Hg) as (g' & Hg' & Hwf & _).
  exists g'. split; [done |].
  rewrite fillAdjecencyList_exact in Hg' by done. injection Hg' as <-.
  rewrite fillAdjecencyList_exact by done. f_equal.
  unfold rebuild_of at 1. rewrite rebuild_of_grid.
  change (start_node (rebuild_of g)) with (last_with (gridMatrix g) "s" (start_node g)).
  change (goal_node (rebuild_of g)) with (last_with (gridMatrix g) "g" (goal_node g)).
  by rewrite !last_with_again.
Qed.

Lemma rebuild_twice_witness :
  wf5 placed5 ∧
  ∃ g', fillAdjecencyList placed5 = Ok g' ∧ fillAdjecencyList g' = Ok g'.
Proof. split; [exact placed5_wf5 |]. apply (rebuild_twice placed5). exact placed5_wf5. Defined.

(** ** Writing a cell *)

Lemma store2_read {A} (m : list (list A)) y x v m' yy xx :
  store2 m y x v = Ok m' →
  index2 m' yy xx = if (yy =? y) && (xx =? x) then Ok v else index2 m yy xx.
Proof.
  unfold store2. intros Hrun.
  apply bind_Ok in Hrun as (row & Hrow & Hrun).
  apply bind_Ok in Hrun as (row' & Hrow' & Hrun).
  apply index_Ok in Hrow as [Hy Hrow].
  unfold store in Hrow', Hrun.
  destruct (Z.leb_spec 0 x); [| done]. destruct (Z.ltb_spec x (len row)); [| done].
  destruct (Z.leb_spec 0 y); [| done]. destruct (Z.ltb_spec y (len m)); [| done].
  cbn [andb] in Hrow', Hrun. injection Hrow' as <-. injection Hrun as <-.
  unfold len in *. unfold index2.
  destruct (Z.eqb_spec yy y) as [-> | Hne].
  - assert (index (<[Z.to_nat y:=<[Z.to_nat x:=v]> row]> m) y = Ok (<[Z.to_nat x:=v]> row))
      as ->.
    { apply index_Ok. split; [done |]. apply list_lookup_insert_eq. lia. }
    assert (index m y = Ok row) as -> by (by apply index_Ok).
    rewrite !bind_Ok_l. cbn [andb].
    destruct (Z.eqb_spec xx x) as [-> | Hnx].
    + apply index_Ok. split; [done |]. apply list_lookup_insert_eq. lia.
    + unfold index. destruct (xx <? 0) eqn:E; [done |].
      rewrite list_lookup_insert_ne; [done |]. apply Z.ltb_ge in E. lia.
  - cbn [andb].
    assert (index (<[Z.to_nat y:=<[Z.to_nat x:=v]> row]> m) yy = index m yy) as ->; [| done].
    unfold index. destruct (yy <? 0) eqn:E; [done |].
    rewrite list_lookup_insert_ne; [done |]. apply Z.ltb_ge in E. lia.
Qed.

Lemma store2_category m y x v m' k :
  0 <= x < 5 → store2 m y x v = Ok m' →
  category_at m' k = if k =? 5 * y + x then v else category_at m k.
Proof.
  intros Hx Hrun. unfold category_at, cell.
  rewrite (store2_read _ _ _ _ _ _ _ Hrun).
  destruct (Z.eqb_spec k (5 * y + x)) as [-> | Hne].
  - destruct (cell_number y x Hx) as [-> ->]. by rewrite !Z.eqb_refl.
  - destruct (Z.eqb_spec (k / 5) y) as [Ey | _]; [| done].
    destruct (Z.eqb_spec (k mod 5) x) as [Ex | _]; [| done].
    exfalso. apply Hne. Z.div_mod_to_equations. lia.
Qed.

(* the three methods that write one cell: the grid they leave and the graph
   the rebuild makes of it *)
Lemma write_cell_exact g x y c :
  wf5 g → 0 <= x < 5 → 0 <= y < 5 →
  ∃ m, store2 (gridMatrix g) y x c = Ok m ∧
       (∀ k, category_at m k = if k =? 5 * y + x then c else category_at (gridMatrix g) k) ∧
       fillAdjecencyList (with_gridMatrix g m) = Ok (rebuild_of (with_gridMatrix g m)).
Proof.
  intros Hg Hx Hy.
  destruct (store2_in_grid (gridMatrix g) y x c) as (m & Hm & Hshape);
    [by destruct Hg | done | done |].
  exists m. split; [done |]. split.
  - intros k. by apply (store2_category _ _ _ _ _ _ Hx Hm).
  - apply fillAdjecencyList_exact. by apply wf5_with_gridMatrix.
Qed.

(* the last cell of a category is at or after every cell of that category *)
Lemma last_with_after m c d j :
  0 <= j < 25 → category_at m j = c →
  j <= last_with m c d < 25 ∧ category_at m (last_with m c d) = c.
Proof.
  intros Hj Hc.
  pose proof (last_mark (λ k, String.eqb (category_at m k) c) 25 d) as H.
  cbv zeta beta in H. change (Z.of_nat 25) with 25 in H.
  change (fold_left _ (seqZ 0 25) d) with (last_with m c d) in H.
  destruct H as [[_ Hall] | (Hr & HP & Hall)].
  - specialize (Hall j Hj). apply String.eqb_neq in Hall. done.
  - apply String.eqb_eq in HP. split; [| done]. split; [| lia].
    destruct (Z.le_gt_cases j (last_with m c d)) as [| Hlt]; [done |].
    specialize (Hall j ltac:(lia)). apply String.eqb_neq in Hall. done.
Qed.

Lemma wf5_grid_width g : wf5 g → 0 <= grid_width g <= 5 ∧ 0 <= grid_height g <= 5.
Proof. intros [-> -> _ _ _ _ _ _ _ _]. lia. Qed.

(** X6.  PlaceStart on a cell of the grid writes "s" there and changes no
    other cell, so a start placed earlier stays in the grid.  The start
    index becomes the cell written only if no cell after it in row-major
    order holds "s"; otherwise it is the last such cell.  The goal index is
    kept when no other cell holds "g". *)
Theorem PlaceStart_writes g x y :
  wf5 g → 0 <= x < 5 → 0 <= y < 5 →
  ∃ g', PlaceStart x y g = Ok g' ∧
        (∀ k, category_at (gridMatrix g') k
              = if k =? 5 * y + x then "s" else category_at (gridMatrix g) k) ∧
        ((∀ j, 5 * y + x < j < 25 → category_at (gridMatrix g) j ≠ "s") →
           start_node g' = 5 * y + x) ∧
        (∀ j, 5 * y + x < j < 25 → category_at (gridMatrix g) j = "s" →
           j <= start_node g' < 25 ∧ category_at (gridMatrix g) (start_node g') = "s") ∧
        ((∀ j, 0 <= j < 25 → j ≠ 5 * y + x → category_at (gridMatrix g) j ≠ "g") →
           goal_node g' = goal_node g).
Proof.
  intros Hg Hx Hy. destruct (write_cell_exact g x y "s" Hg Hx Hy) as (m & Hm & Hcat & Hfill).
  exists (rebuild_of (with_gridMatrix g m)). unfold PlaceStart. rewrite Hm, bind_Ok_l.
  split; [exact Hfill |]. unfold rebuild_of.
  cbn [gridMatrix start_node goal_node with_gridMatrix].
  split; [exact Hcat |]. split; [| split].
  - intros Hlater. apply last_with_last; [lia | by rewrite Hcat, Z.eqb_refl |].
    intros j Hj. rewrite Hcat. destruct (Z.eqb_spec j (5 * y + x)); [lia |]. by apply Hlater.
  - intros j Hj Hs.
    destruct (last_with_after m "s" (start_node g) j) as [Hr Hc]; [lia | |].
    { rewrite Hcat. destruct (Z.eqb_spec j (5 * y + x)); [lia | done]. }
    split; [done |]. rewrite Hcat in Hc.
    destruct (Z.eqb_spec (last_with m "s" (start_node g)) (5 * y + x)); [lia | done].
  - intros Hnone. apply last_with_none. intros k Hk. rewrite Hcat.
    destruct (Z.eqb_spec k (5 * y + x)); [done | by apply Hnone].
Qed.

Lemma PlaceStart_writes_witness :
  wf5 placed5 ∧ 0 <= 1 < 5 ∧ 0 <= 0 < 5 ∧
  ∃ g', PlaceStart 1 0 placed5 = Ok g' ∧
        (∀ k, category_at (gridMatrix g') k
              = if k =? 5 * 0 + 1 then "s" else category_at (gridMatrix placed5) k) ∧
        ((∀ j, 5 * 0 + 1 < j < 25 → category_at (gridMatrix placed5) j ≠ "s") →
           start_node g' = 5 * 0 + 1) ∧
        (∀ j, 5 * 0 + 1 < j < 25 → category_at (gridMatrix placed5) j = "s" →
           j <= start_node g' < 25 ∧
           category_at (gridMatrix placed5) (start_node g') = "s") ∧
        ((∀ j, 0 <= j < 25 → j ≠ 5 * 0 + 1 → category_at (gridMatrix placed5) j ≠ "g") →
           goal_node g' = goal_node placed5).
Proof.
  split; [exact placed5_wf5 |]. split; [lia |]. split; [lia |].
  apply (PlaceStart_writes placed5 1 0); [exact placed5_wf5 | lia | lia].
Defined.

(** X7.  PlaceGoal on a cell of the grid writes "g" there and changes no
    other cell.  The goal index becomes the cell written only if no cell
    after it in row-major order holds "g"; otherwise it is the last such
    cell.  The start index is kept when no other cell holds "s", also when
    the goal was written over the start. *)
Theorem PlaceGoal_writes g x y :
  wf5 g → 0 <= x < 5 → 0 <= y < 5 →
  ∃ g', PlaceGoal x y g = Ok g' ∧
        (∀ k, category_at (gridMatrix g') k
              = if k =? 5 * y + x then "g" else category_at (gridMatrix g) k) ∧
        ((∀ j, 5 * y + x < j < 25 → category_at (gridMatrix g) j ≠ "g") →
           goal_node g' = 5 * y + x) ∧
        (∀ j, 5 * y + x < j < 25 → category_at (gridMatrix g) j = "g" →
           j <= goal_node g' < 25 ∧ category_at (gridMatrix g) (goal_node g') = "g") ∧
        ((∀ j, 0 <= j < 25 → j ≠ 5 * y + x → category_at (gridMatrix g) j ≠ "s") →
           start_node g' = start_node g).
Proof.
  intros Hg Hx Hy. destruct (write_cell_exact g x y "g" Hg Hx Hy) as (m & Hm & Hcat & Hfill).
  exists (rebuild_of (with_gridMatrix g m)). unfold PlaceGoal. rewrite Hm, bind_Ok_l.
  split; [exact Hfill |]. unfold rebuild_of.
  cbn [gridMatrix start_node goal_node with_gridMatrix].
  split; [exact Hcat |]. split; [| split].
  - intros Hlater. apply last_with_last; [lia | by rewrite Hcat, Z.eqb_refl |].
    intros j Hj. rewrite Hcat. destruct (Z.eqb_spec j (5 * y + x)); [lia |]. by apply Hlater.
  - intros j Hj Hs.
    destruct (last_with_after m "g" (goal_node g) j) as [Hr Hc]; [lia | |].
    { rewrite Hcat. destruct (Z.eqb_spec j (5 * y + x)); [lia | done]. }
    split; [done |]. rewrite Hcat in Hc.
    destruct (Z.eqb_spec (last_with m "g" (goal_node g)) (5 * y + x)); [lia | done].
  - intros Hnone. apply last_with_none. intros k Hk. rewrite Hcat.
    destruct (Z.eqb_spec k (5 * y + x)); [done | by apply Hnone].
Qed.

Lemma PlaceGoal_writes_witness :
  wf5 placed5 ∧ 0 <= 0 < 5 ∧ 0 <= 0 < 5 ∧
  ∃ g', PlaceGoal 0 0 placed5 = Ok g' ∧
        (∀ k, category_at (gridMatrix g') k
              = if k =? 5 * 0 + 0 then "g" else category_at (gridMatrix placed5) k) ∧
        ((∀ j, 5 * 0 + 0 < j < 25 → category_at (gridMatrix placed5) j ≠ "g") →
           goal_node g' = 5 * 0 + 0) ∧
        (∀ j, 5 * 0 + 0 < j < 25 → category_at (gridMatrix placed5) j = "g" →
           j <= goal_node g' < 25 ∧
           category_at (gridMatrix placed5) (goal_node g') = "g") ∧
        ((∀ j, 0 <= j < 25 → j ≠ 5 * 0 + 0 → category_at (gridMatrix placed5) j ≠ "s") →
           start_node g' = start_node placed5).
Proof.
  split; [exact placed5_wf5 |]. split; [lia |]. split; [lia |].
  apply (PlaceGoal_writes placed5 0 0); [exact placed5_wf5 | lia | lia].
Defined.

(** X8.  MakeWallBlock on a cell of the grid writes "#" there and changes no
    other cell; the adjacency list of that cell becomes empty.  The start
    and the goal index are kept when no other cell holds "s" or "g": a wall
    put on the start or on the goal leaves the index pointing at the
    wall. *)
Theorem MakeWallBlock_writes g x y :
  wf5 g → 0 <= x < 5 → 0 <= y < 5 →
  ∃ g', MakeWallBlock x y g = Ok g' ∧
        (∀ k, category_at (gridMatrix g') k
              = if k =? 5 * y + x then "#" else category_at (gridMatrix g) k) ∧
        index (adjecencyList g') (5 * y + x) = Ok [] ∧
        ((∀ j, 0 <= j < 25 → j ≠ 5 * y + x → category_at (gridMatrix g) j ≠ "s") →
           start_node g' = start_node g) ∧
        ((∀ j, 0 <= j < 25 → j ≠ 5 * y + x → category_at (gridMatrix g) j ≠ "g") →
           goal_node g' = goal_node g).
Proof.
  intros Hg Hx Hy. destruct (write_cell_exact g x y "#" Hg Hx Hy) as (m & Hm & Hcat & Hfill).
  exists (rebuild_of (with_gridMatrix g m)). unfold MakeWallBlock. rewrite Hm, bind_Ok_l.
  split; [exact Hfill |]. unfold rebuild_of.
  cbn [gridMatrix start_node goal_node adjecencyList with_gridMatrix].
  split; [exact Hcat |]. split; [| split].
  - apply index_Ok. split; [lia |]. rewrite list_lookup_fmap.
    rewrite (lookup_seqZ_lt 0 25) by lia. simpl. f_equal.
    replace (0 + Z.of_nat (Z.to_nat (5 * y + x))) with (5 * y + x) by lia.
    unfold neighbours_of, wall_cell.
    pose proof (store2_read _ _ _ _ _ ((5 * y + x) / 5) ((5 * y + x) mod 5) Hm) as Hread.
    destruct (cell_number y x Hx) as [Ey Ex]. rewrite Ey, Ex, !Z.eqb_refl in Hread.
    unfold cell. by rewrite Ey, Ex, Hread.
  - intros Hnone. apply last_with_none. intros k Hk. rewrite Hcat.
    destruct (Z.eqb_spec k (5 * y + x)); [done | by apply Hnone].
  - intros Hnone. apply last_with_none. intros k Hk. rewrite Hcat.
    destruct (Z.eqb_spec k (5 * y + x)); [done | by apply Hnone].
Qed.

Lemma MakeWallBlock_writes_witness :
  wf5 placed5 ∧ 0 <= 0 < 5 ∧ 0 <= 0 < 5 ∧
  ∃ g', MakeWallBlock 0 0 placed5 = Ok g' ∧
        (∀ k, category_at (gridMatrix g') k
              = if k =? 5 * 0 + 0 then "#" else category_at (gridMatrix placed5) k) ∧
        index (adjecencyList g') (5 * 0 + 0) = Ok [] ∧
        ((∀ j, 0 <= j < 25 → j ≠ 5 * 0 + 0 → category_at (gridMatrix placed5) j ≠ "s") →
           start_node g' = start_node placed5) ∧
        ((∀ j, 0 <= j < 25 → j ≠ 5 * 0 + 0 → category_at (gridMatrix placed5) j ≠ "g") →
           goal_node g' = goal_node placed5).
Proof.
  split; [exact placed5_wf5 |]. split; [lia |]. split; [lia |].
  apply (MakeWallBlock_writes placed5 0 0); [exact placed5_wf5 | lia | lia].
Defined.

Lemma category_at_empty_grid k : 0 <= k < 25 → category_at (empty_grid 5 5) k = " ".
Proof.
  intros Hk. unfold category_at, cell.
  destruct (cell_split_bounds k Hk) as [Hy Hx]. by rewrite index2_empty_grid.
Qed.

(** X9.  NewGrid blanks every cell of the grid, but the graph keeps the
    start and the goal index it had, and its distances and predecessors:
    the indices then point at blank cells. *)
Theorem NewGrid_keeps_indices g :
  wf5 g →
  ∃ g', NewGrid g = Ok g' ∧
        (∀ k, 0 <= k < 25 → category_at (gridMatrix g') k = " ") ∧
        start_node g' = start_node g ∧ goal_node g' = goal_node g ∧
        dist g' = dist g ∧ prev g' = prev g.
Proof.
  intros Hg. destruct (wf5_grid_width g Hg) as [Hw Hh].
  rewrite NewGrid_eq by lia. destruct Hg as [Ew Eh ? ? ? ? ? ? ? ?] eqn:E.
  rewrite Ew, Eh. clear E.
  rewrite fillAdjecencyList_exact by (apply wf5_with_gridMatrix; [done | apply empty_grid_shape]).
  eexists. split; [reflexivity |]. unfold rebuild_of.
  cbn [gridMatrix start_node goal_node dist prev with_gridMatrix].
  split; [exact category_at_empty_grid |].
  split; [| split; [| done]]; apply last_with_none; intros k Hk;
    by rewrite category_at_empty_grid.
Qed.

Lemma NewGrid_keeps_indices_witness :
  wf5 placed5 ∧
  ∃ g', NewGrid placed5 = Ok g' ∧
        (∀ k, 0 <= k < 25 → category_at (gridMatrix g') k = " ") ∧
        start_node g' = start_node placed5 ∧ goal_node g' = goal_node placed5 ∧
        dist g' = dist placed5 ∧ prev g' = prev placed5.
Proof. split; [exact placed5_wf5 |]. apply (NewGrid_keeps_indices placed5). exact placed5_wf5. Defined.

(** ** Walls *)

(* the loop of MakeWall down a column, from row [y1] *)
Lemma wall_column m0 x y1 n :
  grid_shape 5 5 m0 → 0 <= x < 5 → 0 <= y1 → y1 + Z.of_nat n <= 5 →
  ∃ m, for_range n y1 (λ i m, store2 m i x "#") m0 = Ok m ∧ grid_shape 5 5 m ∧
       ∀ yy xx, index2 m yy xx
                = if (xx =? x) && (y1 <=? yy) && (yy <? y1 + Z.of_nat n) then Ok "#"
                  else index2 m0 yy xx.
Proof.
  intros Hm0 Hx Hy1 Hn.
  apply (for_range_inv
           (λ j m, grid_shape 5 5 m ∧
                   ∀ yy xx, index2 m yy xx
                            = if (xx =? x) && (y1 <=? yy) && (yy <? j) then Ok "#"
                              else index2 m0 yy xx)).
  - split; [done |]. intros yy xx.
    destruct (Z.eqb_spec xx x), (Z.leb_spec y1 yy), (Z.ltb_spec yy y1); try done; lia.
  - intros j m Hj [Hm Hread].
    destruct (store2_in_grid m j x "#" Hm) as (m' & Hm' & Hshape); [lia | done |].
    exists m'. split; [done |]. split; [done |]. intros yy xx.
    rewrite (store2_read _ _ _ _ _ yy xx Hm'), Hread.
    destruct (Z.eqb_spec yy j), (Z.eqb_spec xx x), (Z.leb_spec y1 yy),
      (Z.ltb_spec yy j), (Z.ltb_spec yy (j + 1)); try done; lia.
Qed.

(* the loop of MakeWall along a row, from column [x1] *)
Lemma wall_row m0 y x1 n :
  grid_shape 5 5 m0 → 0 <= y < 5 → 0 <= x1 → x1 + Z.of_nat n <= 5 →
  ∃ m, for_range n x1 (λ i m, store2 m y i "#") m0 = Ok m ∧ grid_shape 5 5 m ∧
       ∀ yy xx, index2 m yy xx
                = if (yy =? y) && (x1 <=? xx) && (xx <? x1 + Z.of_nat n) then Ok "#"
                  else index2 m0 yy xx.
Proof.
  intros Hm0 Hy Hx1 Hn.
  apply (for_range_inv
           (λ j m, grid_shape 5 5 m ∧
                   ∀ yy xx, index2 m yy xx
                            = if (yy =? y) && (x1 <=? xx) && (xx <? j) then Ok "#"
                              else index2 m0 yy xx)).
  - split; [done |]. intros yy xx.
    destruct (Z.eqb_spec yy y), (Z.leb_spec x1 xx), (Z.ltb_spec xx x1); try done; lia.
  - intros j m Hj [Hm Hread].
    destruct (store2_in_grid m y j "#" Hm) as (m' & Hm' & Hshape); [done | lia |].
    exists m'. split; [done |]. split; [done |]. intros yy xx.
    rewrite (store2_read _ _ _ _ _ yy xx Hm'), Hread.
    destruct (Z.eqb_spec yy y), (Z.eqb_spec xx j), (Z.leb_spec x1 xx),
      (Z.ltb_spec xx j), (Z.ltb_spec xx (j + 1)); try done; lia.
Qed.

(** X10.  MakeWall between two cells of the grid on one column or on one
    row, given in increasing order, prints nothing, writes "#" on every cell
    from the first to the second, both included, and changes no other
    cell. *)
Theorem MakeWall_writes_the_line g x1 y1 x2 y2 :
  wf5 g → x1 = x2 ∨ y1 = y2 → 0 <= x1 <= x2 → x2 < 5 → 0 <= y1 <= y2 → y2 < 5 →
  ∃ g', MakeWall x1 y1 x2 y2 g = Ok (g', []) ∧
        ∀ k, category_at (gridMatrix g') k
             = if (x1 <=? k mod 5) && (k mod 5 <=? x2) && (y1 <=? k / 5) && (k / 5 <=? y2)
               then "#" else category_at (gridMatrix g) k.
Proof.
  intros Hg Hline Hx1 Hx2 Hy1 Hy2. pose proof Hg as [_ _ Hm _ _ _ _ _ _ _].
  unfold MakeWall, for_le.
  destruct (Z.eqb_spec x1 x2) as [<- | Hne].
  - cbn [negb andb].
    destruct (wall_column (gridMatrix g) x1 y1 (Z.to_nat (y2 - y1 + 1)))
      as (m & -> & Hshape & Hread); [done | lia | lia | lia |].
    rewrite !bind_Ok_l. cbv beta iota.
    rewrite fillAdjecencyList_exact by (by apply wf5_with_gridMatrix).
    rewrite bind_Ok_l. eexists. split; [reflexivity |].
    intros k. rewrite rebuild_of_grid. cbn [gridMatrix with_gridMatrix].
    unfold category_at, cell. rewrite Hread.
    destruct (Z.eqb_spec (k mod 5) x1), (Z.leb_spec x1 (k mod 5)), (Z.leb_spec (k mod 5) x1),
      (Z.leb_spec y1 (k / 5)), (Z.leb_spec (k / 5) y2),
      (Z.ltb_spec (k / 5) (y1 + Z.of_nat (Z.to_nat (y2 - y1 + 1)))); try done; lia.
  - destruct Hline as [| <-]; [done |]. rewrite Z.eqb_refl. cbn [negb andb].
    destruct (wall_row (gridMatrix g) y1 x1 (Z.to_nat (x2 - x1 + 1)))
      as (m & -> & Hshape & Hread); [done | lia | lia | lia |].
    rewrite !bind_Ok_l. cbv beta iota.
    rewrite fillAdjecencyList_exact by (by apply wf5_with_gridMatrix).
    rewrite bind_Ok_l. eexists. split; [reflexivity |].
    intros k. rewrite rebuild_of_grid. cbn [gridMatrix with_gridMatrix].
    unfold category_at, cell. rewrite Hread.
    destruct (Z.eqb_spec (k / 5) y1), (Z.leb_spec y1 (k / 5)), (Z.leb_spec (k / 5) y1),
      (Z.leb_spec x1 (k mod 5)), (Z.leb_spec (k mod 5) x2),
      (Z.ltb_spec (k mod 5) (x1 + Z.of_nat (Z.to_nat (x2 - x1 + 1)))); try done; lia.
Qed.

Lemma MakeWall_writes_the_line_witness :
  wf5 placed5 ∧ (1 = 1 ∨ 0 = 3) ∧ 0 <= 1 <= 1 ∧ 1 < 5 ∧ 0 <= 0 <= 3 ∧ 3 < 5 ∧
  ∃ g', MakeWall 1 0 1 3 placed5 = Ok (g', []) ∧
        ∀ k, category_at (gridMatrix g') k
             = if (1 <=? k mod 5) && (k mod 5 <=? 1) && (0 <=? k / 5) && (k / 5 <=? 3)
               then "#" else category_at (gridMatrix placed5) k.
Proof.
  split; [exact placed5_wf5 |]. split; [by left |].
  split; [lia |]. split; [lia |]. split; [lia |]. split; [lia |].
  apply (MakeWall_writes_the_line placed5 1 0 1 3);
    [exact placed5_wf5 | by left | lia | lia | lia | lia].
Defined.

(** ** Outside the grid *)

Lemma store2_cases {A} (m : list (list A)) y x v :
  (∃ m', store2 m y x v = Ok m') ∨ store2 m y x v = Panic IndexOutOfRange.
Proof.
  unfold store2. destruct (index_cases m y) as [[row ->] | ->]; [| by right].
  rewrite bind_Ok_l. destruct (store_cases row x v) as [-> | ->]; [| by right].
  rewrite bind_Ok_l. destruct (store_cases m y (<[Z.to_nat x:=v]> row)) as [-> | ->];
    [left; eauto | by right].
Qed.

Lemma store2_outside m y x v :
  grid_shape 5 5 m → ¬ (0 <= x < 5 ∧ 0 <= y < 5) →
  store2 m y x v = Panic IndexOutOfRange.
Proof.
  intros [Hlen Hrows] Hout. unfold store2.
  destruct (decide (0 <= y < 5)) as [Hy | Hy].
  - destruct (index_in_range m y) as (row & -> & Hrow); [unfold len; lia |].
    rewrite bind_Ok_l. rewrite Forall_lookup in Hrows. specialize (Hrows _ _ Hrow).
    unfold store, len. rewrite Hrows.
    destruct (Z.leb_spec 0 x), (Z.ltb_spec x (Z.of_nat 5)); try done. lia.
  - rewrite index_out_of_range; [done |]. unfold len. lia.
Qed.

(** X11.  On a well-formed graph PlaceStart, PlaceGoal and MakeWallBlock
    with a column or a row outside the grid fail with an index out of
    range. *)
Theorem write_outside_the_grid g x y :
  wf5 g → ¬ (0 <= x < 5 ∧ 0 <= y < 5) →
  PlaceStart x y g = Panic IndexOutOfRange ∧
  PlaceGoal x y g = Panic IndexOutOfRange ∧
  MakeWallBlock x y g = Panic IndexOutOfRange.
Proof.
  intros [_ _ Hm _ _ _ _ _ _ _] Hout. unfold PlaceStart, PlaceGoal, MakeWallBlock.
  by rewrite !store2_outside.
Qed.

Lemma write_outside_the_grid_witness :
  wf5 placed5 ∧ ¬ (0 <= 5 < 5 ∧ 0 <= 0 < 5) ∧
  PlaceStart 5 0 placed5 = Panic IndexOutOfRange ∧
  PlaceGoal 5 0 placed5 = Panic IndexOutOfRange ∧
  MakeWallBlock 5 0 placed5 = Panic IndexOutOfRange.
Proof.
  split; [exact placed5_wf5 |]. split; [lia |].
  apply (write_outside_the_grid placed5 5 0); [exact placed5_wf5 | lia].
Defined.

(** X12.  On a well-formed graph MakeWall along a column or a row, with the
    endpoints in increasing order, fails with an index out of range as soon
    as one of the cells from the first to the second lies outside the
    grid. *)
Theorem MakeWall_outside_the_grid g x1 y1 x2 y2 :
  wf5 g →
  (x1 = x2 ∧ y1 <= y2 ∧ ¬ (0 <= x1 < 5 ∧ 0 <= y1 ∧ y2 < 5))
  ∨ (y1 = y2 ∧ x1 < x2 ∧ ¬ (0 <= y1 < 5 ∧ 0 <= x1 ∧ x2 < 5)) →
  MakeWall x1 y1 x2 y2 g = Panic IndexOutOfRange.
Proof.
  intros [_ _ Hm _ _ _ _ _ _ _] Hline. unfold MakeWall, for_le.
  destruct Hline as [(<- & Hy & Hout) | (<- & Hx & Hout)].
  - rewrite Z.eqb_refl. cbn [negb andb].
    rewrite (for_range_panics (grid_shape 5 5) _ _ _ _
               (if decide (0 <= x1 < 5 ∧ 0 <= y1 < 5) then 5 else y1)); [done | | done | |].
    + destruct (decide _); lia.
    + intros j m Hs. destruct (store2_cases m j x1 "#") as [[m' Hm'] | ->]; [| by right].
      left. exists m'. split; [done |]. by apply (store2_Ok_shape _ _ _ _ _ _ _ Hm').
    + intros m Hs. apply store2_outside; [done |]. destruct (decide _); lia.
  - destruct (Z.eqb_spec x1 x2) as [| _]; [lia |]. rewrite Z.eqb_refl. cbn [negb andb].
    rewrite (for_range_panics (grid_shape 5 5) _ _ _ _
               (if decide (0 <= y1 < 5 ∧ 0 <= x1 < 5) then 5 else x1)); [done | | done | |].
    + destruct (decide _); lia.
    + intros j m Hs. destruct (store2_cases m y1 j "#") as [[m' Hm'] | ->]; [| by right].
      left. exists m'. split; [done |]. by apply (store2_Ok_shape _ _ _ _ _ _ _ Hm').
    + intros m Hs. apply store2_outside; [done |]. destruct (decide _); lia.
Qed.

Lemma MakeWall_outside_the_grid_witness :
  wf5 placed5 ∧
  ((2 = 2 ∧ 3 <= 5 ∧ ¬ (0 <= 2 < 5 ∧ 0 <= 3 ∧ 5 < 5))
   ∨ (3 = 5 ∧ 2 < 2 ∧ ¬ (0 <= 3 < 5 ∧ 0 <= 2 ∧ 2 < 5))) ∧
  MakeWall 2 3 2 5 placed5 = Panic IndexOutOfRange.
Proof.
  split; [exact placed5_wf5 |]. split; [left; lia |].
  apply (MakeWall_outside_the_grid placed5 2 3 2 5); [exact placed5_wf5 | left; lia].
Defined.

(** ** Degenerate sizes *)




(** X14.  NewGraph with a width or a height of zero, the other not
    negative and at most 2^20 so that the grid is allocated, returns a
    graph with no node: its slices are empty and its grid has no cell.  On
    that graph every method that writes a cell fails with an index out of
    range, and so does PathFinder. *)
Theorem NewGraph_without_cells w h :
  0 <= w <= 2 ^ 20 → 0 <= h <= 2 ^ 20 → w = 0 ∨ h = 0 →
  ∃ g, NewGraph w h = Ok g ∧
       set g = [] ∧ adjecencyList g = [] ∧ dist g = [] ∧ prev g = [] ∧
       gridMatrix g = empty_grid w h ∧ start_node g = -1 ∧ goal_node g = -1 ∧
       (∀ x y, PlaceStart x y g = Panic IndexOutOfRange ∧
               PlaceGoal x y g = Panic IndexOutOfRange ∧
               MakeWallBlock x y g = Panic IndexOutOfRange) ∧
       ∀ fuel, PathFinder fuel g = Panic IndexOutOfRange.
Proof.
  intros Hw Hh Hzero.
  assert (w *i h = 0) as Harea.
  { unfold Int.mul. destruct Hzero as [-> | ->]; by rewrite ?Z.mul_0_l, ?Z.mul_0_r. }
  rewrite NewGraph_eq by (rewrite ?Harea; lia).
  rewrite fill_no_cell by (cbn [grid_width grid_height blank]; tauto).
  exists (blank w h). split; [done |]. unfold blank. cbv zeta. rewrite Harea.
  change (Z.to_nat 0) with 0%nat. cbn [replicate set adjecencyList dist prev gridMatrix
    start_node goal_node].
  repeat (split; [done |]). split.
  - intros x y. unfold PlaceStart, PlaceGoal, MakeWallBlock. cbn [gridMatrix].
    assert (∀ v, store2 (empty_grid w h) y x v = Panic IndexOutOfRange) as Hfail.
    { intros v. unfold store2, empty_grid.
      destruct (index_cases (replicate (Z.to_nat h) (replicate (Z.to_nat w) " ")) y)
        as [[row Hrow] | ->]; [| done].
      rewrite Hrow, bind_Ok_l. apply index_Ok in Hrow as [Hy Hrow].
      apply lookup_replicate in Hrow as [-> Hlt].
      destruct Hzero as [-> | ->]; [| lia].
      unfold store, len. change (Z.to_nat 0) with 0%nat. cbn [replicate length].
      change (Z.of_nat 0) with 0.
      destruct (Z.leb_spec 0 x), (Z.ltb_spec x 0); try done. lia. }
    by rewrite !Hfail.
  - intros fuel. reflexivity.
Qed.

Lemma NewGraph_without_cells_witness :
  0 <= 0 <= 2 ^ 20 ∧ 0 <= 3 <= 2 ^ 20 ∧ (0 = 0 ∨ 3 = 0) ∧
  ∃ g, NewGraph 0 3 = Ok g ∧
       set g = [] ∧ adjecencyList g = [] ∧ dist g = [] ∧ prev g = [] ∧
       gridMatrix g = empty_grid 0 3 ∧ start_node g = -1 ∧ goal_node g = -1 ∧
       (∀ x y, PlaceStart x y g = Panic IndexOutOfRange ∧
               PlaceGoal x y g = Panic IndexOutOfRange ∧
               MakeWallBlock x y g = Panic IndexOutOfRange) ∧
       ∀ fuel, PathFinder fuel g = Panic IndexOutOfRange.
Proof.
  split; [lia |]. split; [lia |]. split; [by left |].
  apply (NewGraph_without_cells 0 3); [lia | lia | by left].
Defined.

(** ** The search *)

Lemma dist_at_Ok d v x : index d v = Ok x → dist_at d v = x.
Proof. intros H. unfold dist_at. by rewrite H. Qed.

Lemma dist_at_insert d i x v :
  0 <= i < len d →
  dist_at (<[Z.to_nat i := x]> d) v = if v =? i then x else dist_at d v.
Proof.
  intros Hi. unfold dist_at, index, len in *.
  destruct (Z.ltb_spec v 0).
  - destruct (Z.eqb_spec v i); [lia | done].
  - destruct (Z.eqb_spec v i) as [-> | Hne].
    + by rewrite list_lookup_insert_eq by lia.
    + by rewrite list_lookup_insert_ne by lia.
Qed.

Lemma dist_at_replicate v : dist_at (replicate 25 25) v = 25.
Proof.
  unfold dist_at, index. destruct (v <? 0); [done |].
  destruct (replicate 25 25 !! Z.to_nat v) as [x |] eqn:E; [| done].
  by apply lookup_replicate in E as [-> _].
Qed.

Lemma store_Ok {A} (l l' : list A) i a :
  store l i a = Ok l' → 0 <= i < len l ∧ l' = <[Z.to_nat i := a]> l.
Proof.
  unfold store. destruct (Z.leb_spec 0 i), (Z.ltb_spec i (len l)); try done.
  by intros [= <-].
Qed.

Lemma listed_in_grid g a b :
  length (adjecencyList g) = 25%nat → Forall (Forall index_ok) (adjecencyList g) →
  listed g a b = true → 0 <= a < 25 ∧ 0 <= b < 25.
Proof.
  intros Hlen Hok. unfold listed.
  destruct (index (adjecencyList g) a) as [nbs | |] eqn:E; try done.
  apply index_Ok in E as [Ha E]. pose proof (lookup_lt_Some _ _ _ E) as Hlt.
  rewrite Forall_lookup in Hok. specialize (Hok _ _ E).
  intros H. apply existsb_exists in H as (n & Hn & Hb). apply Z.eqb_eq in Hb. subst b.
  rewrite Forall_forall in Hok. split; [lia |]. apply Hok. by apply list_elem_of_In.
Qed.

Lemma listed_entry g a nbs n :
  index (adjecencyList g) a = Ok nbs → n ∈ nbs → listed g a (set_index n) = true.
Proof.
  intros Ha Hn. unfold listed. rewrite Ha. apply existsb_exists.
  exists n. split; [by apply list_elem_of_In | apply Z.eqb_refl].
Qed.

(* an invariant kept by every round that ends holds when the loop ends *)
Lemma range_from_Ok_inv {A S} (I : nat → S → Prop) (body : Z → A → S → result S)
    (l : list A) (k : nat) s s' :
  I k s →
  (∀ j a t t', l !! (j - k)%nat = Some a → (k <= j)%nat → I j t →
     body (Z.of_nat j) a t = Ok t' → I (Datatypes.S j) t') →
  range_from l (Z.of_nat k) body s = Ok s' → I (k + length l)%nat s'.
Proof.
  revert k s. induction l as [| a l IH]; intros k s Hs Hbody Hrun.
  - injection Hrun as <-. by rewrite Nat.add_0_r.
  - simpl in Hrun. apply bind_Ok in Hrun as (t & Ht & Hrun).
    replace (Z.of_nat k + 1) with (Z.of_nat (Datatypes.S k)) in Hrun by lia.
    replace (k + length (a :: l))%nat with (Datatypes.S k + length l)%nat by (simpl; lia).
    apply (IH _ t); [| | done].
    + apply (Hbody k a s); [by rewrite Nat.sub_diag | lia | done | done].
    + intros j b u u' Hb Hj Hu. apply Hbody; [| lia | done].
      replace (j - k)%nat with (Datatypes.S (j - Datatypes.S k)) by lia. done.
Qed.

(* Lines 468-476: the node found is nearest among the queue, or none is
   nearer than infinity and the index found is 0. *)
Lemma find_min_spec d u mn mi :
  find_min d 25 u = Ok (mn, mi) →
  (∀ n, n ∈ u → mn <= dist_at d (set_index n)) ∧
  ((mn = 25 ∧ mi = 0)
   ∨ (mn < 25 ∧ 0 <= mi ∧ ∃ c, u !! Z.to_nat mi = Some c ∧ dist_at d (set_index c) = mn)).
Proof.
  unfold find_min, range. change 0 with (Z.of_nat 0) at 1. intros Hrun.
  apply (range_from_Ok_inv
           (λ k (st : Z * Z),
              (∀ j n, (j < k)%nat → u !! j = Some n → st.1 <= dist_at d (set_index n)) ∧
              ((st.1 = 25 ∧ st.2 = 0)
               ∨ (st.1 < 25 ∧ 0 <= st.2 ∧
                  ∃ c, u !! Z.to_nat st.2 = Some c ∧ dist_at d (set_index c) = st.1))))
    in Hrun.
  - destruct Hrun as [Hmin Hcase]. cbn [fst snd] in *. split; [| done].
    intros n Hn. apply list_elem_of_lookup in Hn as [j Hj].
    apply (Hmin j); [| done]. apply lookup_lt_Some in Hj. lia.
  - cbn [fst snd]. split; [lia | by left].
  - intros j a [m0 i0] [m1 i1] Ha _ [Hmin Hcase] Hbody. cbn [fst snd] in *.
    rewrite Nat.sub_0_r in Ha.
    apply bind_Ok in Hbody as (d0 & Hd0 & Hbody). apply dist_at_Ok in Hd0.
    destruct (Z.ltb_spec d0 m0) as [Hlt | Hge]; injection Hbody as <- <-.
    + split.
      * intros j' n Hj' Hn. destruct (decide (j' = j)) as [-> | Hne].
        -- assert (n = a) as -> by congruence. lia.
        -- specialize (Hmin j' n ltac:(lia) Hn). lia.
      * right. split; [destruct Hcase as [[-> _] | [? _]]; lia |].
        split; [lia |]. exists a. by rewrite Nat2Z.id.
    + split; [| done].
      intros j' n Hj' Hn. destruct (decide (j' = j)) as [-> | Hne].
      * assert (n = a) as -> by congruence. lia.
      * apply (Hmin j' n); [lia | done].
Qed.

(* Lines 489-497: a distance changes only to one more than the distance of
   the current node, for an entry of its adjacency list and when that is
   less; afterwards no entry is farther than that. *)
Lemma relax_spec g c d p d' p' :
  0 <= dist_at d (set_index c) < 25 →
  relax (adjecencyList g) c (d, p) = Ok (d', p') →
  (∀ w, dist_at d' w = dist_at d w
        ∨ (dist_at d' w = dist_at d (set_index c) + 1 ∧
           dist_at d (set_index c) + 1 < dist_at d w ∧
           listed g (set_index c) w = true)) ∧
  (∀ w, listed g (set_index c) w = true → dist_at d' w <= dist_at d (set_index c) + 1).
Proof.
  intros Hc Hrun. unfold relax in Hrun.
  apply bind_Ok in Hrun as (nbs & Hnbs & Hrun).
  unfold range in Hrun. change 0 with (Z.of_nat 0) in Hrun at 1.
  set (Dc := dist_at d (set_index c)) in *.
  apply (range_from_Ok_inv
           (λ k (st : list Z * list Z),
              (∀ w, dist_at st.1 w = dist_at d w
                    ∨ (dist_at st.1 w = Dc + 1 ∧ Dc + 1 < dist_at d w ∧
                       listed g (set_index c) w = true)) ∧
              (∀ j n, (j < k)%nat → nbs !! j = Some n →
                 dist_at st.1 (set_index n) <= Dc + 1)))
    in Hrun.
  - destruct Hrun as [Hone Hall]. cbn [fst snd] in *. split; [done |].
    intros w Hw. unfold listed in Hw. rewrite Hnbs in Hw.
    apply existsb_exists in Hw as (n & Hn & Hw). apply Z.eqb_eq in Hw. subst w.
    apply list_elem_of_In, list_elem_of_lookup in Hn as [j Hj].
    apply (Hall j); [| done]. apply lookup_lt_Some in Hj. lia.
  - cbn [fst snd]. split; [by left | lia].
  - intros j a [dk pk] [dk' pk'] Ha _ [Hone Hall] Hbody. cbn [fst snd] in *.
    rewrite Nat.sub_0_r in Ha.
    apply bind_Ok in Hbody as (dc & Hdc & Hbody). apply dist_at_Ok in Hdc.
    assert (dc = Dc) as -> by (destruct (Hone (set_index c)) as [? | (? & ? & _)]; lia).
    cbv zeta in Hbody.
    apply bind_Ok in Hbody as (dn & Hdn & Hbody). apply dist_at_Ok in Hdn.
    assert (Dc +i 1 = Dc + 1) as Halt by (unfold Int.add; apply wrap_small; lia).
    rewrite Halt in Hbody.
    assert (listed g (set_index c) (set_index a) = true) as Hlisted.
    { apply (listed_entry g _ nbs); [done |]. by apply list_elem_of_lookup_2 in Ha. }
    destruct (Z.ltb_spec (Dc + 1) dn) as [Hlt | Hge].
    + apply bind_Ok in Hbody as (d2 & Hd2 & Hbody). apply store_Ok in Hd2 as [Hr ->].
      apply bind_Ok in Hbody as (p2 & _ & Hbody). injection Hbody as <- <-.
      split.
      * intros w. rewrite dist_at_insert by done.
        destruct (Z.eqb_spec w (set_index a)) as [-> | _]; [| apply Hone].
        right. split; [done |]. split; [| done].
        destruct (Hone (set_index a)) as [? | (? & ? & _)]; lia.
      * intros j' n Hj' Hn. rewrite dist_at_insert by done.
        destruct (Z.eqb_spec (set_index n) (set_index a)); [lia |].
        destruct (decide (j' = j)) as [-> | Hne]; [congruence |].
        apply (Hall j'); [lia | done].
    + injection Hbody as <- <-. split; [done |].
      intros j' n Hj' Hn. destruct (decide (j' = j)) as [-> | Hne].
      * assert (n = a) as -> by congruence. lia.
      * apply (Hall j'); [lia | done].
Qed.

(* the loop ends with an empty queue *)
Lemma settled_empty g u d :
  length (adjecencyList g) = 25%nat → Forall (Forall index_ok) (adjecencyList g) →
  len u <= 0 → dijkstra_inv g u d → settled g d.
Proof.
  intros Hlen Hok Hu [Hq Hrange Hstart Hsound Hcount Hvis Hclosed Horder].
  assert (u = []) as -> by (destruct u; [done | unfold len in Hu; simpl in Hu; lia]).
  assert (∀ v, ¬ unvisited [] v) as Hnone.
  { intros v (n & Hn & _). by apply elem_of_nil in Hn. }
  split; [done |]. split; [done |]. split; [done |].
  intros v w Hv Hw. change (len []) with 0 in *.
  destruct (listed_in_grid g v w Hlen Hok Hw) as [Hvr Hwr].
  split; [by apply Hclosed |]. specialize (Hvis w Hwr (Hnone w)). lia.
Qed.

(* the loop ends at a queue with no node nearer than infinity *)
Lemma settled_break g u d :
  length (adjecencyList g) = 25%nat → Forall (Forall index_ok) (adjecencyList g) →
  0 < len u → (∀ n, n ∈ u → 25 <= dist_at d (set_index n)) →
  dijkstra_inv g u d → settled g d.
Proof.
  intros Hlen Hok Hu Hfar [Hq Hrange Hstart Hsound Hcount Hvis Hclosed Horder].
  split; [done |]. split; [done |]. split; [done |].
  intros v w Hv Hw.
  destruct (listed_in_grid g v w Hlen Hok Hw) as [Hvr Hwr].
  assert (¬ unvisited u v) as Hdone.
  { intros (n & Hn & <-). specialize (Hfar n Hn). lia. }
  specialize (Hclosed v w Hvr Hdone Hw). specialize (Hvis v Hvr Hdone).
  split; lia.
Qed.

(* one round of the loop: the nearest node [c] of the queue leaves it and
   its adjacency list is relaxed *)
Lemma dijkstra_step g u d d' mi c :
  dijkstra_inv g u d → 0 <= mi → u !! Z.to_nat mi = Some c →
  dist_at d (set_index c) < 25 →
  (∀ n, n ∈ u → dist_at d (set_index c) <= dist_at d (set_index n)) →
  (∀ w, dist_at d' w = dist_at d w
        ∨ (dist_at d' w = dist_at d (set_index c) + 1 ∧
           dist_at d (set_index c) + 1 < dist_at d w ∧
           listed g (set_index c) w = true)) →
  (∀ w, listed g (set_index c) w = true → dist_at d' w <= dist_at d (set_index c) + 1) →
  dijkstra_inv g (take (Z.to_nat mi) u ++ drop (Z.to_nat (mi +i 1)) u) d'.
Proof.
  intros [Hq Hrange Hstart Hsound Hcount Hvis Hclosed Horder] Hmi Hc Hnear Hmin Hone Hall.
  set (Dc := dist_at d (set_index c)) in *.
  pose proof (lookup_lt_Some _ _ _ Hc) as Hlt.
  assert (mi +i 1 = mi + 1) as ->
    by (unfold Int.add; apply wrap_small; unfold len in Hq; lia).
  replace (Z.to_nat (mi + 1)) with (Datatypes.S (Z.to_nat mi)) by lia.
  set (u' := (take (Z.to_nat mi) u ++ drop (Datatypes.S (Z.to_nat mi)) u)%list).
  assert (len u' = len u - 1) as Hlen'.
  { unfold len, u'. rewrite length_app, length_take, length_drop. lia. }
  assert (∀ n, n ∈ u ↔ n = c ∨ n ∈ u') as Hsplit.
  { intros n. rewrite <- (take_drop_middle u _ c Hc) at 1. unfold u'.
    rewrite !elem_of_app, elem_of_cons. tauto. }
  assert (c ∈ u) as Hcu by (apply Hsplit; by left).
  assert (0 <= Dc) as Hc0 by apply Hrange.
  assert (∀ w, unvisited u' w → unvisited u w) as Hstill.
  { intros w (n & Hn & Hw). exists n. split; [| done]. apply Hsplit. by right. }
  assert (∀ v, ¬ unvisited u' v → ¬ unvisited u v ∨ v = set_index c) as Hleft.
  { intros v Hv. destruct (decide (v = set_index c)) as [| Hne]; [by right | left].
    intros (n & Hn & Hw). apply Hv. exists n. split; [| done].
    apply Hsplit in Hn as [-> | Hn]; [congruence | done]. }
  assert (∀ v, 0 <= v < 25 → ¬ unvisited u' v → dist_at d' v = dist_at d v) as Hsame.
  { intros v Hvr Hv. destruct (Hone v) as [| (_ & Hless & _)]; [done | exfalso].
    destruct (Hleft v Hv) as [Hdone | ->]; [| fold Dc in Hless; lia].
    specialize (Horder v (set_index c) Hvr Hdone). fold Dc in Horder.
    assert (unvisited u (set_index c)) as Hq' by (by exists c).
    specialize (Horder Hq'). lia. }
  constructor.
  - lia.
  - intros v. specialize (Hrange v). destruct (Hone v) as [-> | (-> & _)]; lia.
  - destruct (Hone (start_node g)) as [-> | (_ & Hless & _)]; [done | lia].
  - intros v Hv. destruct (Hone v) as [E | (E & _ & Hl)]; rewrite E in *.
    + by apply Hsound.
    + replace (Z.to_nat (Dc + 1)) with (Datatypes.S (Z.to_nat Dc)) by lia.
      exists (set_index c). split; [| done]. apply Hsound. fold Dc. lia.
  - intros v Hv. rewrite Hlen'. pose proof (Hcount (set_index c) Hnear) as Hcc.
    fold Dc in Hcc. destruct (Hone v) as [E | (E & _)]; rewrite E in *; [| lia].
    specialize (Hcount v Hv). lia.
  - intros v Hvr Hv. rewrite Hlen', (Hsame v Hvr Hv).
    destruct (Hleft v Hv) as [Hdone | ->].
    + specialize (Hvis v Hvr Hdone). lia.
    + specialize (Hcount (set_index c) Hnear). lia.
  - intros v w Hvr Hv Hw. rewrite (Hsame v Hvr Hv).
    destruct (Hleft v Hv) as [Hdone | ->].
    + specialize (Hclosed v w Hvr Hdone Hw).
      destruct (Hone w) as [-> | (_ & Hless & _)]; [done |].
      destruct (Hone w) as [E | (E & _)]; lia.
    + by apply Hall.
  - intros v w Hvr Hv Hw. rewrite (Hsame v Hvr Hv).
    pose proof (Hstill w Hw) as Hwu.
    assert (Dc <= dist_at d w) as Hcw by (destruct Hwu as (n & Hn & <-); by apply Hmin).
    destruct (Hleft v Hv) as [Hdone | ->].
    + pose proof (Horder v w Hvr Hdone Hwu) as Hvw.
      assert (unvisited u (set_index c)) as Hq' by (by exists c).
      pose proof (Horder v (set_index c) Hvr Hdone Hq') as H0.
      destruct (Hone w) as [-> | (-> & _)]; [done |]. fold Dc in H0. lia.
    + destruct (Hone w) as [-> | (-> & _)]; fold Dc; lia.
Qed.

(* Lines 465-498: when the loop ends the distances are settled. *)
Lemma search_settles g fuel u dp dp' :
  length (adjecencyList g) = 25%nat → Forall (Forall index_ok) (adjecencyList g) →
  search fuel (adjecencyList g) 25 u dp = Ok dp' →
  dijkstra_inv g u dp.1 → settled g dp'.1.
Proof.
  intros Hlen Hok. revert u dp.
  induction fuel as [| fuel IH]; intros u [d p] Hrun Hinv; cbn [search] in Hrun;
    destruct (Z.ltb_spec 0 (len u)) as [Hpos | Hempty]; try done;
    try (injection Hrun as <-; by apply (settled_empty g u)).
  cbn [fst] in *.
  apply bind_Ok in Hrun as ([mn mi] & Hfm & Hrun). cbv beta iota in Hrun.
  apply bind_Ok in Hrun as (curr & Hcurr & Hrun). apply index_Ok in Hcurr as [Hmi Hcurr].
  cbv zeta in Hrun.
  apply bind_Ok in Hrun as (dc & Hdc & Hrun). apply dist_at_Ok in Hdc.
  destruct (find_min_spec d u mn mi Hfm) as [Hmin Hcase].
  pose proof (dj_range g u d Hinv (set_index curr)) as Hdc_range.
  assert (curr ∈ u) as Hcu by (by apply list_elem_of_lookup_2 in Hcurr).
  destruct (Z.eqb_spec dc 25) as [Hinf | Hfin].
  - injection Hrun as <-. apply (settled_break g u); try done.
    intros n Hn. specialize (Hmin n Hn).
    destruct Hcase as [[-> _] | (Hlt & _ & c & Hc & Hdist)]; [done |].
    assert (c = curr) as -> by congruence. lia.
  - apply bind_Ok in Hrun as ([d1 p1] & Hrelax & Hrun).
    apply IH in Hrun; [done |]. cbn [fst].
    assert (mn = dc ∧ dc < 25) as [-> Hnear].
    { destruct Hcase as [[-> _] | (Hlt & _ & c & Hc & Hdist)].
      - specialize (Hmin curr Hcu). lia.
      - assert (c = curr) as -> by congruence. lia. }
    subst dc.
    destruct (relax_spec g curr d p d1 p1) as [Hone Hall]; [lia | done |].
    by apply (dijkstra_step g u d d1 mi curr).
Qed.

(* the state in which the loop is entered *)
Lemma dijkstra_start g :
  length (set g) = 25%nat → numbered g → 0 <= start_node g < 25 →
  dijkstra_inv g (set g) (<[Z.to_nat (start_node g) := 0]> (replicate 25 25)).
Proof.
  intros Hset Hnum Hstart.
  assert (∀ v, dist_at (<[Z.to_nat (start_node g) := 0]> (replicate 25 25)) v
               = if v =? start_node g then 0 else 25) as Hd.
  { intros v. rewrite dist_at_insert by (unfold len; rewrite length_replicate; lia).
    by rewrite dist_at_replicate. }
  assert (∀ v, 0 <= v < 25 → unvisited (set g) v) as Hall.
  { intros v Hv. assert (v ∈ map set_index (set g)) as Hin.
    { rewrite Hnum. apply elem_of_seqZ. lia. }
    apply list_elem_of_fmap in Hin as (n & -> & Hn). by exists n. }
  constructor.
  - unfold len. lia.
  - intros v. rewrite Hd. destruct (v =? start_node g); lia.
  - by rewrite Hd, Z.eqb_refl.
  - intros v. rewrite Hd. destruct (Z.eqb_spec v (start_node g)) as [-> | _]; [| lia].
    intros _. reflexivity.
  - intros v. rewrite Hd. unfold len. destruct (v =? start_node g); lia.
  - intros v Hv Hdone. destruct (Hdone (Hall v Hv)).
  - intros v w Hv Hdone. destruct (Hdone (Hall v Hv)).
  - intros v w Hv Hdone. destruct (Hdone (Hall v Hv)).
Qed.

(* settled distances are the lengths of the shortest chains *)
Lemma settled_hop_distance g d v :
  settled g d → hop_distance g (start_node g) v (dist_at d v).
Proof.
  intros (Hrange & Hstart & Hsound & Hclosed).
  assert (∀ n w, hops g n (start_node g) w →
            dist_at d w < 25 ∧ dist_at d w <= Z.of_nat n) as Hleast.
  { induction n as [| n IH]; intros w Hw.
    - simpl in Hw. subst w. rewrite Hstart. lia.
    - destruct Hw as (c & Hc & Hl). destruct (IH c Hc) as [Hfin Hle].
      destruct (Hclosed c w Hfin Hl). lia. }
  destruct (decide (dist_at d v < 25)) as [Hfin | Hinf].
  - right. specialize (Hrange v). split; [lia |]. split; [by apply Hsound |].
    intros n Hn. by apply Hleast.
  - left. specialize (Hrange v). split; [lia |].
    intros n Hn. by destruct (Hleast n v Hn).
Qed.

(* Lines 454-498: the distances PathFinder computes. *)
Lemma search_phase_settled g d p :
  wf5 g → numbered g → 0 <= start_node g < 25 →
  search_phase g = Ok (d, p) → settled g d.
Proof.
  intros [Hw Hh Hm Hset Hset_ok Hadj Hadj_ok Hdist Hprev Hprev_ok] Hnum Hstart.
  unfold search_phase.
  assert (len (adjecencyList g) = 25) as -> by (unfold len; lia).
  assert (len (set g) = 25) as -> by (unfold len; lia).
  rewrite make_ok, bind_Ok_l by lia.
  rewrite init_search_ok by (rewrite ?length_replicate; lia).
  rewrite bind_Ok_l, Hset.
  rewrite store_in_range by (unfold len; rewrite length_replicate; lia).
  rewrite bind_Ok_l. intros Hrun.
  apply (search_settles g _ _ _ _ Hadj Hadj_ok) in Hrun; [done |].
  by apply dijkstra_start.
Qed.

(** ** The node set *)

Lemma rebuild_numbered g : numbered (rebuild_of g).
Proof.
  unfold numbered, rebuild_of. cbn [set]. rewrite map_map. cbn [set_index]. apply map_id.
Qed.

Lemma fill_Ok_numbered g g' : wf5 g → fillAdjecencyList g = Ok g' → numbered g'.
Proof.
  intros Hg Hrun. rewrite fillAdjecencyList_exact in Hrun by done.
  injection Hrun as <-. apply rebuild_numbered.
Qed.

(* every graph made from NewGraph(5, 5) has its nodes numbered by position *)
Lemma created5_numbered g : created5 g → numbered g.
Proof.
  induction 1 as [g Hnew | g g' Hc IH Hrun | g x y g' Hc IH Hrun
                 | g x1 y1 x2 y2 g' out Hc IH Hrun | g x y g' Hc IH Hrun
                 | g x y g' Hc IH Hrun | g fuel g' d Hc IH Hrun
                 | g x y c m Hc IH Hrun | g g' Hc IH Hrun];
    try pose proof (created5_wf5 g Hc) as Hwf.
  - rewrite NewGraph_eq in Hnew by (vm_compute; split; discriminate).
    exact (fill_Ok_numbered _ _ blank_5_5 Hnew).
  - destruct (wf5_grid_width g Hwf). rewrite NewGrid_eq in Hrun by lia.
    rewrite (wf_width g Hwf), (wf_height g Hwf) in Hrun.
    eapply fill_Ok_numbered; [| done].
    apply wf5_with_gridMatrix; [done | apply empty_grid_shape].
  - unfold MakeWallBlock in Hrun. apply bind_Ok in Hrun as (m & Hm & Hrun).
    eapply fill_Ok_numbered; [| done]. apply wf5_with_gridMatrix; [done |].
    eapply store2_Ok_shape; [done | by destruct Hwf].
  - unfold MakeWall in Hrun. apply bind_Ok in Hrun as ([m o] & Hm & Hrun).
    apply bind_Ok in Hrun as (g'' & Hfill & [= <- <-]).
    eapply fill_Ok_numbered; [| done]. apply wf5_with_gridMatrix; [done |].
    assert (grid_shape 5 5 (gridMatrix g)) as Hshape by (by destruct Hwf).
    destruct (negb (x1 =? x2) && negb (y1 =? y2)); [by injection Hm as <- <- |].
    destruct (x1 =? x2); [| destruct (y1 =? y2)].
    + apply bind_Ok in Hm as (m' & Hloop & [= <- <-]).
      eapply (for_range_Ok_inv (grid_shape 5 5)); [| done | done].
      intros j t t' Ht Hs. exact (store2_Ok_shape _ _ _ _ _ _ _ Ht Hs).
    + apply bind_Ok in Hm as (m' & Hloop & [= <- <-]).
      eapply (for_range_Ok_inv (grid_shape 5 5)); [| done | done].
      intros j t t' Ht Hs. exact (store2_Ok_shape _ _ _ _ _ _ _ Ht Hs).
    + by injection Hm as <- <-.
  - unfold PlaceStart in Hrun. apply bind_Ok in Hrun as (m & Hm & Hrun).
    eapply fill_Ok_numbered; [| done]. apply wf5_with_gridMatrix; [done |].
    eapply store2_Ok_shape; [done | by destruct Hwf].
  - unfold PlaceGoal in Hrun. apply bind_Ok in Hrun as (m & Hm & Hrun).
    eapply fill_Ok_numbered; [| done]. apply wf5_with_gridMatrix; [done |].
    eapply store2_Ok_shape; [done | by destruct Hwf].
  - assert (placed g ∨ ¬ placed g) as [Hpl | Hpl] by (unfold placed; lia).
    + destruct (PathFinder_safe fuel g Hwf Hpl) as [Ht | (g'' & d' & Hg'' & _ & Hset & _)];
        [congruence |].
      rewrite Hg'' in Hrun. injection Hrun as <- <-. unfold numbered. by rewrite Hset.
    + rewrite (PathFinder_unplaced fuel g Hwf Hpl) in Hrun. discriminate.
  - exact IH.
  - by eapply fill_Ok_numbered.
Qed.

(** X15.  On a graph made from NewGraph(5, 5) with start and goal placed,
    a call of PathFinder that returns gives the length of the shortest chain
    of adjacency-list entries from the start to the goal, and -1 exactly
    when no chain leads there; the distance it leaves for every cell is the
    length of the shortest chain to it, and 25 when there is none. *)
Theorem PathFinder_shortest g fuel :
  created5 g → placed g →
  PathFinder fuel g = Timeout ∨
  ∃ g' d, PathFinder fuel g = Ok (g', d) ∧
          (∀ v, hop_distance g (start_node g) v (dist_at (dist g') v)) ∧
          ((d = -1 ∧ ∀ n, ¬ hops g n (start_node g) (goal_node g))
           ∨ (0 <= d < 25 ∧ hops g (Z.to_nat d) (start_node g) (goal_node g) ∧
              ∀ n, hops g n (start_node g) (goal_node g) → d <= Z.of_nat n)).
Proof.
  intros Hc Hpl. pose proof (created5_wf5 g Hc) as Hwf.
  pose proof (created5_numbered g Hc) as Hnum.
  destruct (PathFinder_safe fuel g Hwf Hpl) as [Ht | (g' & d & Hrun & _)]; [by left | right].
  exists g', d. split; [done |].
  unfold PathFinder in Hrun. apply bind_Ok in Hrun as ([dd p] & Hsp & Hrun).
  cbv beta iota zeta in Hrun.
  apply (search_phase_settled g dd p Hwf Hnum (proj1 Hpl)) in Hsp.
  apply bind_Ok in Hrun as (i & _ & Hrun).
  apply bind_Ok in Hrun as (grid & _ & Hrun).
  apply bind_Ok in Hrun as (dg & Hdg & Hrun). apply dist_at_Ok in Hdg.
  assert (len (set g) = 25) as Hinf by (unfold len; rewrite (wf_set g Hwf); lia).
  rewrite Hinf in Hrun.
  pose proof (settled_hop_distance g dd (goal_node g) Hsp) as Hgoal. rewrite Hdg in Hgoal.
  destruct (Z.eqb_spec dg 25) as [-> | Hne]; injection Hrun as <- <-;
    (split; [intros v; by apply settled_hop_distance |]).
  - left. split; [done |]. destruct Hgoal as [[_ Hnone] | [? _]]; [done | lia].
  - right. destruct Hgoal as [[? _] | Hfound]; [lia | done].
Qed.

Lemma PathFinder_shortest_witness :
  created5 placed5 ∧ placed placed5 ∧
  (PathFinder 25 placed5 = Timeout ∨
   ∃ g' d, PathFinder 25 placed5 = Ok (g', d) ∧
           (∀ v, hop_distance placed5 (start_node placed5) v (dist_at (dist g') v)) ∧
           ((d = -1 ∧ ∀ n, ¬ hops placed5 n (start_node placed5) (goal_node placed5))
            ∨ (0 <= d < 25 ∧
               hops placed5 (Z.to_nat d) (start_node placed5) (goal_node placed5) ∧
               ∀ n, hops placed5 n (start_node placed5) (goal_node placed5) →
                    d <= Z.of_nat n))).
Proof.
  split; [exact placed5_created |]. split; [exact placed5_placed |].
  apply (PathFinder_shortest placed5 25); [exact placed5_created | exact placed5_placed].
Defined.

(** ** What PathFinder leaves *)

(* Lines 502-507 write "." only, and never to cell 0. *)
Lemma mark_path_marks p fuel i grid grid' :
  Forall (λ q, 0 <= q < 25) p → i < 25 →
  mark_path fuel p i grid = Ok grid' →
  ∀ k, category_at grid' k = category_at grid k
       ∨ (0 < k < 25 ∧ category_at grid' k = ".").
Proof.
  intros Hp. revert i grid.
  induction fuel as [| fuel IH]; intros i grid Hi Hrun k; cbn [mark_path] in Hrun;
    destruct (Z.ltb_spec 0 i) as [Hpos | Hend]; try done;
    try (injection Hrun as <-; by left).
  destruct (path_cell i) as [Ex Ey]; [lia |]. rewrite Ex in Ey.
  cbv zeta in Hrun. rewrite Ex, Ey in Hrun.
  apply bind_Ok in Hrun as (g1 & Hst & Hrun).
  apply bind_Ok in Hrun as (i' & Hi' & Hrun).
  apply index_Ok in Hi' as [_ Hi']. rewrite Forall_lookup in Hp.
  pose proof (Hp _ _ Hi') as Hr.
  assert (0 <= i mod 5 < 5) as Hx by (apply Z.mod_pos_bound; lia).
  pose proof (store2_category _ _ _ _ _ k Hx Hst) as Hcat.
  replace (5 * (i / 5) + i mod 5) with i in Hcat by (Z.div_mod_to_equations; lia).
  destruct (IH i' g1 ltac:(lia) Hrun k) as [E | Hm]; [| by right].
  rewrite E, Hcat. destruct (Z.eqb_spec k i) as [-> | _]; [right | by left].
  split; [lia | done].
Qed.

(** X16.  On a well-formed graph with start and goal placed, a call of
    PathFinder that returns leaves the node set, the adjacency list and the
    start and goal indices as they were.  In the grid it writes "." and
    nothing else, on whatever the marked cell held, and never on cell
    (0,0). *)
Theorem PathFinder_marks_only g fuel :
  wf5 g → placed g →
  PathFinder fuel g = Timeout ∨
  ∃ g' d, PathFinder fuel g = Ok (g', d) ∧
          set g' = set g ∧ adjecencyList g' = adjecencyList g ∧
          start_node g' = start_node g ∧ goal_node g' = goal_node g ∧
          ∀ k, category_at (gridMatrix g') k = category_at (gridMatrix g) k
               ∨ (0 < k < 25 ∧ category_at (gridMatrix g') k = ".").
Proof.
  intros Hwf Hpl.
  destruct (PathFinder_safe fuel g Hwf Hpl)
    as [Ht | (g' & d & Hrun & _ & Hset & Hadj & Hs & Hg)]; [by left | right].
  exists g', d. repeat (split; [done |]).
  destruct (search_phase_ok g Hwf (proj1 Hpl)) as (dd & p & Hsp & _ & Hlen & Hp).
  unfold PathFinder in Hrun. rewrite Hsp, bind_Ok_l in Hrun. cbv zeta in Hrun.
  apply bind_Ok in Hrun as (i & Hi & Hrun).
  apply bind_Ok in Hrun as (grid & Hmark & Hrun).
  apply bind_Ok in Hrun as (dg & _ & Hrun).
  apply index_Ok in Hi as [_ Hi]. pose proof Hp as Hp'. rewrite Forall_lookup in Hp'.
  pose proof (Hp' _ _ Hi) as Hr.
  assert (gridMatrix g' = grid) as ->.
  { destruct (negb (dg =? len (set g))); by injection Hrun as <- _. }
  apply (mark_path_marks p fuel i); [done | lia | done].
Qed.

Lemma PathFinder_marks_only_witness :
  wf5 placed5 ∧ placed placed5 ∧
  (PathFinder 25 placed5 = Timeout ∨
   ∃ g' d, PathFinder 25 placed5 = Ok (g', d) ∧
           set g' = set placed5 ∧ adjecencyList g' = adjecencyList placed5 ∧
           start_node g' = start_node placed5 ∧ goal_node g' = goal_node placed5 ∧
           ∀ k, category_at (gridMatrix g') k = category_at (gridMatrix placed5) k
                ∨ (0 < k < 25 ∧ category_at (gridMatrix g') k = ".")).
Proof.
  split; [exact placed5_wf5 |]. split; [exact placed5_placed |].
  apply (PathFinder_marks_only placed5 25); [exact placed5_wf5 | exact placed5_placed].
Defined.

(** X17.  On a well-formed graph whose start or goal index is not a cell of
    the grid, as after NewGraph with no start or no goal placed, PathFinder
    fails with an index out of range. *)
Theorem PathFinder_before_placing g fuel :
  wf5 g → ¬ placed g → PathFinder fuel g = Panic IndexOutOfRange.
Proof. intros Hwf Hnot. by apply PathFinder_unplaced. Qed.

Lemma PathFinder_before_placing_witness :
  wf5 started5 ∧ ¬ placed started5 ∧ PathFinder 25 started5 = Panic IndexOutOfRange.
Proof.
  assert (wf5 started5) as Hwf.
  { apply (fill_Ok_wf5 (with_gridMatrix empty5
             (<[0%nat := <[0%nat := "s"]> (replicate 5 " ")]> (gridMatrix empty5)))).
    - apply wf5_with_gridMatrix; [exact empty5_wf5 |]. split; [done |]. repeat constructor.
    - vm_compute. reflexivity. }
  assert (¬ placed started5) as Hnot by (unfold placed; vm_compute; intuition discriminate).
  split; [exact Hwf |]. split; [exact Hnot |].
  apply (PathFinder_before_placing started5 25); [exact Hwf | exact Hnot].
Defined.

(** X18.  On a well-formed graph with start and goal placed and no
    predecessor recorded yet, as before the first search, PathFinder
    returns: the loop that marks the path ends within 25 rounds. *)
Theorem first_PathFinder_returns g :
  wf5 g → placed g → Forall (λ k, k = 0) (prev g) →
  ∃ g' d, PathFinder 25 g = Ok (g', d).
Proof. intros Hwf Hpl Hfresh. by apply first_search_returns. Qed.

Lemma first_PathFinder_returns_witness :
  wf5 placed5 ∧ placed placed5 ∧ Forall (λ k, k = 0) (prev placed5) ∧
  ∃ g' d, PathFinder 25 placed5 = Ok (g', d).
Proof.
  assert (Forall (λ k, k = 0) (prev placed5)) as Hfresh by (repeat constructor).
  split; [exact placed5_wf5 |]. split; [exact placed5_placed |]. split; [exact Hfresh |].
  apply (first_PathFinder_returns placed5);
    [exact placed5_wf5 | exact placed5_placed | exact Hfresh].
Defined.

(** ** The editor *)

(* PrintGrid prints the rows in order and does nothing else *)
Lemma PrintGrid_eq g c :
  PrintGrid g c
  = Ok (mk_console (lines_read c) (printed c ++ map show_row (gridMatrix g))%list).
Proof.
  unfold PrintGrid, for_lt. set (m := gridMatrix g).
  replace (Z.to_nat (len m - 0)) with (length m) by (unfold len; lia).
  destruct (for_range_inv
              (λ j c', c' = mk_console (lines_read c)
                              (printed c ++ map show_row (take (Z.to_nat j) m))%list)
              (λ i c, row ← index m i; mret (Println (show_row row) c))
              (length m) 0 c) as (c' & -> & ->).
  - destruct c. simpl. by rewrite app_nil_r.
  - intros j t Hj ->.
    destruct (index_in_range m j) as (row & -> & Hrow); [unfold len; lia |].
    rewrite bind_Ok_l. eexists. split; [reflexivity |]. unfold Println. simpl. f_equal.
    replace (Z.to_nat (j + 1)) with (Datatypes.S (Z.to_nat j)) by lia.
    rewrite (take_S_r _ _ _ Hrow), map_app. simpl. by rewrite app_assoc.
  - do 3 f_equal. rewrite Z.add_0_l, Nat2Z.id. by rewrite take_ge.
Qed.

Lemma string_concat_cons sep x y r :
  String.concat sep (x :: y :: r) = x ++ sep ++ String.concat sep (y :: r).
Proof. reflexivity. Qed.

(* the text of a row of one-character cells: cell [x] is character [2x+1] *)
Lemma concat_cells row x cell tail :
  Forall (λ s, String.length s = 1%nat) row → row !! x = Some cell →
  String.get (2 * x) (String.concat " " row ++ tail) = String.get 0 cell.
Proof.
  revert x. induction row as [| c r IH]; intros x Hone Hx; [done |].
  apply Forall_cons in Hone as [Hc Hr].
  destruct c as [| a [| b c]]; try done.
  destruct x as [| x].
  - injection Hx as <-. by destruct r.
  - simpl in Hx. destruct r as [| c2 r']; [done |].
    rewrite string_concat_cons.
    replace (2 * Datatypes.S x)%nat with (Datatypes.S (Datatypes.S (2 * x))) by lia.
    cbn [String.append String.get]. by apply IH.
Qed.

Lemma coordinateInput_eq input c :
  ∃ c', coordinateInput input c
        = ((Atoi (input (lines_read c))).1,
           (Atoi (input (Datatypes.S (lines_read c)))).1, c') ∧
        lines_read c' = Datatypes.S (Datatypes.S (lines_read c)).
Proof.
  unfold coordinateInput, Scan, Println. cbn [lines_read printed].
  destruct (Atoi (input (lines_read c))) as [x [|]],
    (Atoi (input (Datatypes.S (lines_read c)))) as [y [|]];
    eexists; (split; [reflexivity |]); reflexivity.
Qed.

(* Lines 137-142 and 147-152: the cell of the previous position is blanked
   unless it holds the other marker, then the marker is written. *)
Lemma move_marker m xp yp x y mark other :
  grid_shape 5 5 m → 0 <= xp < 5 → 0 <= yp < 5 → 0 <= x < 5 → 0 <= y < 5 →
  ∃ cur m1 m',
    index2 m yp xp = Ok cur ∧
    (if negb (String.eqb cur other) then store2 m yp xp " " else mret m) = Ok m1 ∧
    store2 m1 y x mark = Ok m' ∧ grid_shape 5 5 m' ∧
    ∀ k, category_at m' k
         = if k =? 5 * y + x then mark
           else if (k =? 5 * yp + xp)
                   && negb (String.eqb (category_at m (5 * yp + xp)) other)
                then " " else category_at m k.
Proof.
  intros Hm Hxp Hyp Hx Hy.
  destruct (index2_in_grid m yp xp Hm Hyp Hxp) as (cur & Hcur).
  rewrite (category_at_cell m yp xp cur Hxp Hcur).
  exists cur. destruct (String.eqb cur other); cbn [negb].
  - destruct (store2_in_grid m y x mark Hm Hy Hx) as (m' & Hm' & Hshape).
    exists m, m'. repeat (split; [done |]). intros k.
    rewrite (store2_category _ _ _ _ _ k Hx Hm'). by rewrite andb_false_r.
  - destruct (store2_in_grid m yp xp " " Hm Hyp Hxp) as (m1 & Hm1 & Hshape1).
    destruct (store2_in_grid m1 y x mark Hshape1 Hy Hx) as (m' & Hm' & Hshape).
    exists m1, m'. repeat (split; [done |]). intros k.
    rewrite (store2_category _ _ _ _ _ k Hx Hm'), (store2_category _ _ _ _ _ k Hxp Hm1).
    by rewrite andb_true_r.
Qed.

(* the round of lines 135-143 *)
Lemma start_round input st c x y :
  grid_shape 5 5 (gridMatrix (ed_graph st)) → in_grid (startPos st) →
  input (lines_read c) = "s" →
  (Atoi (input (Datatypes.S (lines_read c)))).1 = x →
  (Atoi (input (Datatypes.S (Datatypes.S (lines_read c))))).1 = y →
  0 <= x < 5 → 0 <= y < 5 →
  ∃ m c',
    question input st c
    = Ok (mk_editor (with_gridMatrix (ed_graph st) m) (x, y) (goalPos st)
            true (goal_chosen st), c', false) ∧
    lines_read c' = (lines_read c + 3)%nat ∧ grid_shape 5 5 m ∧
    ∀ k, category_at m k
         = if k =? 5 * y + x then "s"
           else if (k =? cell_of (startPos st))
                   && negb (String.eqb (category_at (gridMatrix (ed_graph st))
                                          (cell_of (startPos st))) "g")
                then " " else category_at (gridMatrix (ed_graph st)) k.
Proof.
  intros Hm [Hxp Hyp] Hinp Hx Hy Hxr Hyr. unfold question. cbv zeta.
  rewrite PrintGrid_eq, bind_Ok_l. unfold Scan. cbn [lines_read printed Println].
  rewrite Hinp.
  change (String.eqb "s" "c") with false. change (String.eqb "s" "b") with false.
  change (String.eqb "s" "w") with false. change (String.eqb "s" "s") with true.
  cbv iota.
  match goal with
  | |- context [coordinateInput input ?c0] =>
      destruct (coordinateInput_eq input c0) as (c' & -> & Hread)
  end.
  cbn [lines_read] in *. rewrite Hx, Hy.
  unfold cell_of. destruct (startPos st) as [xp yp]. cbn [fst snd] in *.
  destruct (move_marker (gridMatrix (ed_graph st)) xp yp x y "s" "g")
    as (cur & m1 & m' & -> & Hm1 & Hm' & Hshape & Hcat); try done.
  rewrite bind_Ok_l, Hm1, bind_Ok_l, Hm', bind_Ok_l.
  exists m', c'. split; [reflexivity |]. split; [lia |]. done.
Qed.

(* the round of lines 145-153 *)
Lemma goal_round input st c x y :
  grid_shape 5 5 (gridMatrix (ed_graph st)) → in_grid (goalPos st) →
  input (lines_read c) = "g" →
  (Atoi (input (Datatypes.S (lines_read c)))).1 = x →
  (Atoi (input (Datatypes.S (Datatypes.S (lines_read c))))).1 = y →
  0 <= x < 5 → 0 <= y < 5 →
  ∃ m c',
    question input st c
    = Ok (mk_editor (with_gridMatrix (ed_graph st) m) (startPos st) (x, y)
            (start_chosen st) true, c', false) ∧
    lines_read c' = (lines_read c + 3)%nat ∧ grid_shape 5 5 m ∧
    ∀ k, category_at m k
         = if k =? 5 * y + x then "g"
           else if (k =? cell_of (goalPos st))
                   && negb (String.eqb (category_at (gridMatrix (ed_graph st))
                                          (cell_of (goalPos st))) "s")
                then " " else category_at (gridMatrix (ed_graph st)) k.
Proof.
  intros Hm [Hxp Hyp] Hinp Hx Hy Hxr Hyr. unfold question. cbv zeta.
  rewrite PrintGrid_eq, bind_Ok_l. unfold Scan. cbn [lines_read printed Println].
  rewrite Hinp.
  change (String.eqb "g" "c") with false. change (String.eqb "g" "b") with false.
  change (String.eqb "g" "w") with false. change (String.eqb "g" "s") with false.
  change (String.eqb "g" "g") with true. cbv iota.
  match goal with
  | |- context [coordinateInput input ?c0] =>
      destruct (coordinateInput_eq input c0) as (c' & -> & Hread)
  end.
  cbn [lines_read] in *. rewrite Hx, Hy.
  unfold cell_of. destruct (goalPos st) as [xp yp]. cbn [fst snd] in *.
  destruct (move_marker (gridMatrix (ed_graph st)) xp yp x y "g" "s")
    as (cur & m1 & m' & -> & Hm1 & Hm' & Hshape & Hcat); try done.
  rewrite bind_Ok_l, Hm1, bind_Ok_l, Hm', bind_Ok_l.
  exists m', c'. split; [reflexivity |]. split; [lia |]. done.
Qed.

(** X20.  A round of EditGraph with the answer "s" and a position of the
    grid reads three lines, writes "s" at the position, blanks the cell of
    the position chosen before (column 0 of row 0 the first time, whatever
    it held) unless that cell holds "g", and records the start as chosen.
    It does not rebuild: the node set, the adjacency list and the start
    index stay as they were. *)
Theorem question_start input st c x y :
  grid_shape 5 5 (gridMatrix (ed_graph st)) → in_grid (startPos st) →
  input (lines_read c) = "s" →
  (Atoi (input (Datatypes.S (lines_read c)))).1 = x →
  (Atoi (input (Datatypes.S (Datatypes.S (lines_read c))))).1 = y →
  0 <= x < 5 → 0 <= y < 5 →
  ∃ m c',
    question input st c
    = Ok (mk_editor (with_gridMatrix (ed_graph st) m) (x, y) (goalPos st)
            true (goal_chosen st), c', false) ∧
    lines_read c' = (lines_read c + 3)%nat ∧ grid_shape 5 5 m ∧
    ∀ k, category_at m k
         = if k =? 5 * y + x then "s"
           else if (k =? cell_of (startPos st))
                   && negb (String.eqb (category_at (gridMatrix (ed_graph st))
                                          (cell_of (startPos st))) "g")
                then " " else category_at (gridMatrix (ed_graph st)) k.
Proof. apply start_round. Qed.

(** X21.  A round of EditGraph with the answer "g" and a position of the
    grid reads three lines, writes "g" at the position, blanks the cell of
    the position chosen before (column 0 of row 0 the first time) unless
    that cell holds "s", and records the goal as chosen; it does not
    rebuild. *)
Theorem question_goal input st c x y :
  grid_shape 5 5 (gridMatrix (ed_graph st)) → in_grid (goalPos st) →
  input (lines_read c) = "g" →
  (Atoi (input (Datatypes.S (lines_read c)))).1 = x →
  (Atoi (input (Datatypes.S (Datatypes.S (lines_read c))))).1 = y →
  0 <= x < 5 → 0 <= y < 5 →
  ∃ m c',
    question input st c
    = Ok (mk_editor (with_gridMatrix (ed_graph st) m) (startPos st) (x, y)
            (start_chosen st) true, c', false) ∧
    lines_read c' = (lines_read c + 3)%nat ∧ grid_shape 5 5 m ∧
    ∀ k, category_at m k
         = if k =? 5 * y + x then "g"
           else if (k =? cell_of (goalPos st))
                   && negb (String.eqb (category_at (gridMatrix (ed_graph st))
                                          (cell_of (goalPos st))) "s")
                then " " else category_at (gridMatrix (ed_graph st)) k.
Proof. apply goal_round. Qed.

Lemma question_start_witness :
  let input := typed ["s"; "1"; "2"] in
  let st := editing empty5 in
  let c := mk_console 0 [] in
  grid_shape 5 5 (gridMatrix (ed_graph st)) ∧ in_grid (startPos st) ∧
  input (lines_read c) = "s" ∧
  (Atoi (input (Datatypes.S (lines_read c)))).1 = 1 ∧
  (Atoi (input (Datatypes.S (Datatypes.S (lines_read c))))).1 = 2 ∧
  0 <= 1 < 5 ∧ 0 <= 2 < 5 ∧
  ∃ m c',
    question input st c
    = Ok (mk_editor (with_gridMatrix (ed_graph st) m) (1, 2) (goalPos st)
            true (goal_chosen st), c', false) ∧
    lines_read c' = (lines_read c + 3)%nat ∧ grid_shape 5 5 m ∧
    ∀ k, category_at m k
         = if k =? 5 * 2 + 1 then "s"
           else if (k =? cell_of (startPos st))
                   && negb (String.eqb (category_at (gridMatrix (ed_graph st))
                                          (cell_of (startPos st))) "g")
                then " " else category_at (gridMatrix (ed_graph st)) k.
Proof.
  cbv zeta.
  assert (grid_shape 5 5 (gridMatrix (ed_graph (editing empty5)))) as Hm
    by (split; [done | repeat constructor]).
  assert (in_grid (startPos (editing empty5))) as Hpos by (unfold in_grid; simpl; lia).
  split; [exact Hm |]. split; [exact Hpos |]. split; [reflexivity |].
  split; [reflexivity |]. split; [reflexivity |]. split; [lia |]. split; [lia |].
  apply (question_start (typed ["s"; "1"; "2"]) (editing empty5) (mk_console 0 []) 1 2);
    [exact Hm | exact Hpos | reflexivity | reflexivity | reflexivity | lia | lia].
Defined.

Lemma question_goal_witness :
  let input := typed ["g"; "4"; "3"] in
  let st := editing empty5 in
  let c := mk_console 0 [] in
  grid_shape 5 5 (gridMatrix (ed_graph st)) ∧ in_grid (goalPos st) ∧
  input (lines_read c) = "g" ∧
  (Atoi (input (Datatypes.S (lines_read c)))).1 = 4 ∧
  (Atoi (input (Datatypes.S (Datatypes.S (lines_read c))))).1 = 3 ∧
  0 <= 4 < 5 ∧ 0 <= 3 < 5 ∧
  ∃ m c',
    question input st c
    = Ok (mk_editor (with_gridMatrix (ed_graph st) m) (startPos st) (4, 3)
            (start_chosen st) true, c', false) ∧
    lines_read c' = (lines_read c + 3)%nat ∧ grid_shape 5 5 m ∧
    ∀ k, category_at m k
         = if k =? 5 * 3 + 4 then "g"
           else if (k =? cell_of (goalPos st))
                   && negb (String.eqb (category_at (gridMatrix (ed_graph st))
                                          (cell_of (goalPos st))) "s")
                then " " else category_at (gridMatrix (ed_graph st)) k.
Proof.
  cbv zeta.
  assert (grid_shape 5 5 (gridMatrix (ed_graph (editing empty5)))) as Hm
    by (split; [done | repeat constructor]).
  assert (in_grid (goalPos (editing empty5))) as Hpos by (unfold in_grid; simpl; lia).
  split; [exact Hm |]. split; [exact Hpos |]. split; [reflexivity |].
  split; [reflexivity |]. split; [reflexivity |]. split; [lia |]. split; [lia |].
  apply (question_goal (typed ["g"; "4"; "3"]) (editing empty5) (mk_console 0 []) 4 3);
    [exact Hm | exact Hpos | reflexivity | reflexivity | reflexivity | lia | lia].
Defined.

(* a round with an answer that names no edit *)
Lemma quiet_round input st c :
  let inp := input (lines_read c) in
  inp ∉ ["c"; "b"; "w"; "s"; "g"] →
  question input st c
  = Ok (st,
        mk_console (Datatypes.S (lines_read c))
          (printed c ++ asked (ed_graph st)
           ++ (if String.eqb inp "exit"
               then if start_chosen st && goal_chosen st then []
                    else ["You must choose both start and goal."]
               else ["Invalid choice. Try again"]))%list,
        String.eqb inp "exit" && start_chosen st && goal_chosen st).
Proof.
  cbv zeta. intros Hnot. unfold question. cbv zeta.
  rewrite PrintGrid_eq, bind_Ok_l. unfold Scan. cbn [lines_read printed Println].
  repeat match goal with
  | |- context [String.eqb (input (lines_read c)) ?k] =>
      lazymatch k with
      | "exit" => fail
      | _ => destruct (String.eqb_spec (input (lines_read c)) k) as [E | _];
             [exfalso; apply Hnot; rewrite E; set_solver |]
      end
  end.
  unfold asked, Println, mret, result_ret. cbn [lines_read printed].
  destruct (String.eqb (input (lines_read c)) "exit"); cbn [andb];
    [destruct (start_chosen st && goal_chosen st) |];
    do 3 f_equal; repeat (rewrite <- app_assoc; cbn [app]);
    by rewrite ?app_nil_r.
Qed.

(** X22.  A round of EditGraph whose answer is none of c, b, w, s and g
    reads that one line and leaves the graph and the positions as they were.
    The loop is left only on the answer "exit" with both the start and the
    goal chosen; on "exit" without both the round prints "You must choose
    both start and goal.", on any other answer "Invalid choice. Try
    again". *)
Theorem question_without_edit input st c :
  input (lines_read c) ∉ ["c"; "b"; "w"; "s"; "g"] →
  ∃ c', question input st c
        = Ok (st, c',
              String.eqb (input (lines_read c)) "exit"
              && start_chosen st && goal_chosen st) ∧
        lines_read c' = Datatypes.S (lines_read c) ∧
        printed c'
        = (printed c ++ asked (ed_graph st)
           ++ (if String.eqb (input (lines_read c)) "exit"
               then if start_chosen st && goal_chosen st then []
                    else ["You must choose both start and goal."]
               else ["Invalid choice. Try again"]))%list.
Proof.
  intros Hnot. eexists. split; [by apply quiet_round |]. split; reflexivity.
Qed.

Lemma question_without_edit_witness :
  let input := typed ["exit"] in
  let st := editing empty5 in
  let c := mk_console 0 [] in
  (input (lines_read c) ∉ ["c"; "b"; "w"; "s"; "g"]) ∧
  ∃ c', question input st c
        = Ok (st, c',
              String.eqb (input (lines_read c)) "exit"
              && start_chosen st && goal_chosen st) ∧
        lines_read c' = Datatypes.S (lines_read c) ∧
        printed c'
        = (printed c ++ asked (ed_graph st)
           ++ (if String.eqb (input (lines_read c)) "exit"
               then if start_chosen st && goal_chosen st then []
                    else ["You must choose both start and goal."]
               else ["Invalid choice. Try again"]))%list.
Proof.
  cbv zeta.
  assert (typed ["exit"] (lines_read (mk_console 0 [])) ∉ ["c"; "b"; "w"; "s"; "g"])
    as Hnot.
  { change (typed ["exit"] (lines_read (mk_console 0 []))) with "exit".
    rewrite !not_elem_of_cons. repeat split; try discriminate. apply not_elem_of_nil. }
  split; [exact Hnot |].
  apply (question_without_edit (typed ["exit"]) (editing empty5) (mk_console 0 []) Hnot).
Defined.

(** ** EditGraph as a whole *)

Lemma rebuild_of_again g : rebuild_of (rebuild_of g) = rebuild_of g.
Proof.
  unfold rebuild_of at 1. rewrite rebuild_of_grid.
  change (start_node (rebuild_of g)) with (last_with (gridMatrix g) "s" (start_node g)).
  change (goal_node (rebuild_of g)) with (last_with (gridMatrix g) "g" (goal_node g)).
  by rewrite !last_with_again.
Qed.

(* every round leaves a graph of the kind the methods make *)
Lemma question_created5 input st c st' c' leave :
  created5 (ed_graph st) → question input st c = Ok (st', c', leave) →
  created5 (ed_graph st').
Proof.
  intros Hc. unfold question. cbv zeta.
  rewrite PrintGrid_eq, bind_Ok_l. unfold Scan. cbn [lines_read printed Println].
  set (c0 := mk_console _ _). set (inp := input (lines_read c)).
  destruct (String.eqb inp "c").
  { intros Hrun. apply bind_Ok in Hrun as (g1 & Hg1 & [= <- _ _]).
    by apply (created_NewGrid (ed_graph st)). }
  destruct (String.eqb inp "b").
  { destruct (coordinateInput input c0) as [[x y] c1].
    intros Hrun. apply bind_Ok in Hrun as (g1 & Hg1 & [= <- _ _]).
    by apply (created_MakeWallBlock (ed_graph st) x y). }
  destruct (String.eqb inp "w").
  { destruct (coordinateInput input _) as [[x1 y1] c1].
    destruct (coordinateInput input _) as [[x2 y2] c2].
    intros Hrun. apply bind_Ok in Hrun as ([g1 out] & Hg1 & [= <- _ _]).
    by apply (created_MakeWall (ed_graph st) x1 y1 x2 y2 g1 out). }
  destruct (String.eqb inp "s").
  { destruct (coordinateInput input c0) as [[x y] c1]. destruct (startPos st) as [xp yp].
    intros Hrun. apply bind_Ok in Hrun as (cur & _ & Hrun).
    apply bind_Ok in Hrun as (m1 & Hm1 & Hrun).
    apply bind_Ok in Hrun as (m2 & Hm2 & [= <- _ _]). cbn [ed_graph].
    destruct (negb (String.eqb cur "g")).
    - apply (created_assign (with_gridMatrix (ed_graph st) m1) x y "s" m2); [| done].
      by apply (created_assign (ed_graph st) xp yp " " m1).
    - injection Hm1 as <-. by apply (created_assign (ed_graph st) x y "s" m2). }
  destruct (String.eqb inp "g").
  { destruct (coordinateInput input c0) as [[x y] c1]. destruct (goalPos st) as [xp yp].
    intros Hrun. apply bind_Ok in Hrun as (cur & _ & Hrun).
    apply bind_Ok in Hrun as (m1 & Hm1 & Hrun).
    apply bind_Ok in Hrun as (m2 & Hm2 & [= <- _ _]). cbn [ed_graph].
    destruct (negb (String.eqb cur "s")).
    - apply (created_assign (with_gridMatrix (ed_graph st) m1) x y "g" m2); [| done].
      by apply (created_assign (ed_graph st) xp yp " " m1).
    - injection Hm1 as <-. by apply (created_assign (ed_graph st) x y "g" m2). }
  destruct (String.eqb inp "exit"); [destruct (start_chosen st && goal_chosen st) |];
    by intros [= <- _ _].
Qed.

Lemma questionLoop_created5 fuel input st c st' c' :
  created5 (ed_graph st) → questionLoop fuel input st c = Ok (st', c') →
  created5 (ed_graph st').
Proof.
  revert st c. induction fuel as [| fuel IH]; intros st c Hc Hrun; [done |].
  cbn [questionLoop] in Hrun.
  apply bind_Ok in Hrun as ([[st1 c1] leave] & Hq & Hrun).
  pose proof (question_created5 _ _ _ _ _ _ Hc Hq) as Hc1.
  destruct leave.
  - by injection Hrun as <- _.
  - by apply (IH st1 c1).
Qed.

(** X23.  Whatever is typed, the graph EditGraph returns is one the
    methods make from NewGraph(5, 5), and it is rebuilt: its node set, its
    adjacency list and its start and goal index are those a rebuild computes
    from its grid, although the rounds that place the start and the goal do
    not rebuild. *)
Theorem EditGraph_returns_rebuilt fuel input g c g' c' :
  created5 g → EditGraph fuel input g c = Ok (g', c') →
  created5 g' ∧ rebuild_of g' = g' ∧ fillAdjecencyList g' = Ok g'.
Proof.
  intros Hc Hrun. unfold EditGraph in Hrun.
  apply bind_Ok in Hrun as ([st1 c1] & Hloop & Hrun).
  apply bind_Ok in Hrun as (g1 & Hfill & [= <- _]).
  apply questionLoop_created5 in Hloop; [| done].
  pose proof (created5_wf5 _ Hloop) as Hwf.
  assert (created5 g1) as Hc1 by (by apply (created_fill (ed_graph st1))).
  split; [done |].
  rewrite fillAdjecencyList_exact in Hfill by done. injection Hfill as <-.
  split; [apply rebuild_of_again |].
  rewrite fillAdjecencyList_exact by (by apply created5_wf5).
  f_equal. apply rebuild_of_again.
Qed.

Lemma EditGraph_returns_rebuilt_witness :
  created5 empty5 ∧
  EditGraph 3 (typed ["s"; "1"; "2"; "g"; "4"; "3"; "exit"]) empty5 (mk_console 0 [])
  = Ok (edited5, edited_console) ∧
  created5 edited5 ∧ rebuild_of edited5 = edited5 ∧ fillAdjecencyList edited5 = Ok edited5.
Proof.
  assert (created5 empty5) as Hc by (apply created_NewGraph; exact NewGraph_5_5_value).
  assert (EditGraph 3 (typed ["s"; "1"; "2"; "g"; "4"; "3"; "exit"]) empty5
            (mk_console 0 []) = Ok (edited5, edited_console)) as Hrun
    by (vm_compute; reflexivity).
  split; [exact Hc |]. split; [exact Hrun |].
  exact (EditGraph_returns_rebuilt 3 _ empty5 _ edited5 edited_console Hc Hrun).
Defined.

(** X19.  PrintGrid never fails and reads nothing: it prints one line for
    every row of the grid, in order, the cells between brackets and
    separated by one space.  In the line of a row of one-character cells,
    cell [x] is the character at offset [2x + 1]. *)
Theorem PrintGrid_prints_the_rows g c :
  ∃ c', PrintGrid g c = Ok c' ∧ lines_read c' = lines_read c ∧
        printed c' = (printed c ++ map show_row (gridMatrix g))%list ∧
        ∀ row x cell,
          Forall (λ s, String.length s = 1%nat) row → row !! x = Some cell →
          String.get (2 * x + 1) (show_row row) = String.get 0 cell.
Proof.
  eexists. split; [apply PrintGrid_eq |]. split; [reflexivity |]. split; [reflexivity |].
  intros row x cell Hone Hx. unfold show_row.
  replace (2 * x + 1)%nat with (Datatypes.S (2 * x)) by lia.
  cbn [String.append String.get]. by apply concat_cells.
Qed.

(** X24.  EditGraph can return with no start in the grid although its
    guard asks for a start and a goal: when the goal is placed on the cell
    of the start and "exit" is typed, on a graph that had no start before,
    the loop is left, the grid of the graph returned holds no "s", its start
    index is not a cell of the grid, and PathFinder on it fails with an
    index out of range. *)
Theorem EditGraph_goal_over_start input g c x y :
  wf5 g → (∀ k, category_at (gridMatrix g) k ≠ "s") → ¬ 0 <= start_node g < 25 →
  lines_read c = 0%nat →
  input 0%nat = "s" → (Atoi (input 1%nat)).1 = x → (Atoi (input 2%nat)).1 = y →
  input 3%nat = "g" → (Atoi (input 4%nat)).1 = x → (Atoi (input 5%nat)).1 = y →
  input 6%nat = "exit" → 0 <= x < 5 → 0 <= y < 5 →
  ∃ g' c', EditGraph 3 input g c = Ok (g', c') ∧ lines_read c' = 7%nat ∧
           (∀ k, category_at (gridMatrix g') k ≠ "s") ∧
           ¬ placed g' ∧ ∀ fuel, PathFinder fuel g' = Panic IndexOutOfRange.
Proof.
  intros Hwf Hnone Hstart Hc Hs Hx1 Hy1 Hg Hx2 Hy2 Hexit Hx Hy.
  pose proof (wf_grid g Hwf) as Hm.
  destruct (start_round input (editing g) c x y) as (m1 & c1 & Hq1 & Hr1 & Hm1 & Hcat1);
    try done; try (by rewrite Hc); try (unfold in_grid; simpl; lia).
  rewrite Hc in Hr1. change (0 + 3)%nat with 3%nat in Hr1. unfold editing in *.
  cbn [ed_graph goalPos goal_chosen startPos] in *.
  destruct (goal_round input
              (mk_editor (with_gridMatrix g m1) (x, y) (0, 0) true false) c1 x y)
    as (m2 & c2 & Hq2 & Hr2 & Hm2 & Hcat2);
    try done; try (by rewrite Hr1); try (unfold in_grid; simpl; lia).
  rewrite Hr1 in Hr2. change (3 + 3)%nat with 6%nat in Hr2.
  cbn [ed_graph goalPos start_chosen startPos gridMatrix
    with_gridMatrix] in *.
  set (st2 := mk_editor (with_gridMatrix (with_gridMatrix g m1) m2) (x, y) (x, y) true true)
    in *.
  pose proof (quiet_round input st2 c2) as Hq3. cbv zeta in Hq3.
  rewrite Hr2, Hexit in Hq3.
  assert ("exit" ∉ ["c"; "b"; "w"; "s"; "g"]) as Hquiet.
  { rewrite !not_elem_of_cons. repeat split; try discriminate. apply not_elem_of_nil. }
  specialize (Hq3 Hquiet).
  change (String.eqb "exit" "exit") with true in Hq3.
  cbn [st2 start_chosen goal_chosen andb] in Hq3.
  assert (∀ k, category_at m2 k ≠ "s") as Hnone2.
  { intros k. rewrite Hcat2. destruct (Z.eqb_spec k (5 * y + x)) as [| Hne]; [done |].
    destruct (_ && _); [done |]. rewrite Hcat1.
    destruct (Z.eqb_spec k (5 * y + x)); [done |].
    destruct (_ && _); [done | apply Hnone]. }
  assert (wf5 (with_gridMatrix (with_gridMatrix g m1) m2)) as Hwf2.
  { apply wf5_with_gridMatrix; [| done]. by apply wf5_with_gridMatrix. }
  unfold EditGraph. cbn [questionLoop].
  rewrite Hq1, bind_Ok_l. cbv beta iota. cbn [fst snd].
  rewrite Hq2, bind_Ok_l. cbv beta iota. cbn [fst snd].
  rewrite Hq3, bind_Ok_l. cbv beta iota. rewrite bind_Ok_l. cbv beta iota.
  cbn [st2 ed_graph]. rewrite fillAdjecencyList_exact by done. rewrite bind_Ok_l.
  eexists _, _. split; [reflexivity |]. cbn [lines_read]. split; [reflexivity |].
  split; [exact Hnone2 |].
  assert (¬ placed (rebuild_of (with_gridMatrix (with_gridMatrix g m1) m2))) as Hnot.
  { unfold placed, rebuild_of. cbn [start_node goal_node gridMatrix with_gridMatrix].
    rewrite last_with_none by (intros k _; apply Hnone2). tauto. }
  split; [exact Hnot |]. intros fuel. apply PathFinder_unplaced; [| exact Hnot].
  destruct (fillAdjecencyList_ok _ Hwf2) as (g2 & Hg2 & Hwf' & _).
  rewrite fillAdjecencyList_exact in Hg2 by done. by injection Hg2 as <-.
Qed.

Lemma EditGraph_goal_over_start_witness :
  wf5 empty5 ∧ (∀ k, category_at (gridMatrix empty5) k ≠ "s") ∧
  ¬ 0 <= start_node empty5 < 25 ∧ lines_read (mk_console 0 []) = 0%nat ∧
  typed ["s"; "1"; "2"; "g"; "1"; "2"; "exit"] 0%nat = "s" ∧
  (Atoi (typed ["s"; "1"; "2"; "g"; "1"; "2"; "exit"] 1%nat)).1 = 1 ∧
  (Atoi (typed ["s"; "1"; "2"; "g"; "1"; "2"; "exit"] 2%nat)).1 = 2 ∧
  typed ["s"; "1"; "2"; "g"; "1"; "2"; "exit"] 3%nat = "g" ∧
  (Atoi (typed ["s"; "1"; "2"; "g"; "1"; "2"; "exit"] 4%nat)).1 = 1 ∧
  (Atoi (typed ["s"; "1"; "2"; "g"; "1"; "2"; "exit"] 5%nat)).1 = 2 ∧
  typed ["s"; "1"; "2"; "g"; "1"; "2"; "exit"] 6%nat = "exit" ∧
  0 <= 1 < 5 ∧ 0 <= 2 < 5 ∧
  ∃ g' c', EditGraph 3 (typed ["s"; "1"; "2"; "g"; "1"; "2"; "exit"]) empty5
             (mk_console 0 []) = Ok (g', c') ∧
           lines_read c' = 7%nat ∧
           (∀ k, category_at (gridMatrix g') k ≠ "s") ∧
           ¬ placed g' ∧ ∀ fuel, PathFinder fuel g' = Panic IndexOutOfRange.
Proof.
  assert (∀ k, category_at (gridMatrix empty5) k ≠ "s") as Hnone.
  { intros k. unfold category_at, cell.
    destruct (index2_cases (gridMatrix empty5) (k / 5) (k mod 5)) as [[a Ha] | ->]; [| done].
    rewrite Ha. change (gridMatrix empty5) with (empty_grid 5 5) in Ha.
    destruct (decide (0 <= k / 5 < 5 ∧ 0 <= k mod 5 < 5)) as [[Hy Hx] | Hout].
    - rewrite index2_empty_grid in Ha by done. by injection Ha as <-.
    - assert (0 <= k mod 5 < 5) by (apply Z.mod_pos_bound; lia).
      destruct (decide (k / 5 < 0)) as [Hneg | Hpos].
      + unfold index2 in Ha. rewrite index_out_of_range in Ha by (by left). done.
      + rewrite index2_empty_grid_outside in Ha by lia. done. }
  assert (¬ 0 <= start_node empty5 < 25) as Hstart by (vm_compute; intuition discriminate).
  split; [exact empty5_wf5 |]. split; [exact Hnone |]. split; [exact Hstart |].
  do 8 (split; [reflexivity |]). split; [lia |]. split; [lia |].
  apply (EditGraph_goal_over_start (typed ["s"; "1"; "2"; "g"; "1"; "2"; "exit"]) empty5
           (mk_console 0 []) 1 2);
    [exact empty5_wf5 | exact Hnone | exact Hstart | reflexivity | reflexivity
    | reflexivity | reflexivity | reflexivity | reflexivity | reflexivity | reflexivity
    | lia | lia].
Defined.

(** ** The predecessors *)

Lemma prev_at_insert p i x v :
  0 <= i < len p →
  prev_at (<[Z.to_nat i := x]> p) v = if v =? i then x else prev_at p v.
Proof.
  intros Hi. unfold prev_at, index, len in *.
  destruct (Z.ltb_spec v 0).
  - destruct (Z.eqb_spec v i); [lia | done].
  - destruct (Z.eqb_spec v i) as [-> | Hne].
    + by rewrite list_lookup_insert_eq by lia.
    + by rewrite list_lookup_insert_ne by lia.
Qed.

(* Lines 489-497 keep the predecessors right and never write the one of
   the start. *)
Lemma relax_pred g c d p d' p' :
  0 <= dist_at d (set_index c) < 25 → dist_at d (start_node g) = 0 →
  pred_inv g (d, p) →
  relax (adjecencyList g) c (d, p) = Ok (d', p') →
  pred_inv g (d', p') ∧ prev_at p' (start_node g) = prev_at p (start_node g).
Proof.
  intros Hc Hstart Hpred Hrun. unfold relax in Hrun.
  apply bind_Ok in Hrun as (nbs & Hnbs & Hrun).
  unfold range in Hrun. change 0 with (Z.of_nat 0) in Hrun at 1.
  set (Dc := dist_at d (set_index c)) in *.
  apply (range_from_Ok_inv
           (λ (_ : nat) (st : list Z * list Z),
              (∀ w, dist_at st.1 w <= dist_at d w) ∧
              dist_at st.1 (set_index c) = Dc ∧
              dist_at st.1 (start_node g) = 0 ∧
              pred_inv g st ∧
              prev_at st.2 (start_node g) = prev_at p (start_node g)))
    in Hrun.
  - by destruct Hrun as (_ & _ & _ & Hq & Hs).
  - cbn [fst snd]. split; [intros w; lia |]. split; [reflexivity |].
    split; [done |]. split; [done | reflexivity].
  - intros j a [dk pk] [dk' pk'] Ha _ (Hmono & Hdc & Hds & Hq & Hps) Hbody.
    cbn [fst snd] in *. rewrite Nat.sub_0_r in Ha.
    apply bind_Ok in Hbody as (dc & Hdc' & Hbody). apply dist_at_Ok in Hdc'.
    assert (dc = Dc) as -> by congruence. cbv zeta in Hbody.
    apply bind_Ok in Hbody as (dn & Hdn & Hbody). apply dist_at_Ok in Hdn.
    assert (Dc +i 1 = Dc + 1) as Halt by (unfold Int.add; apply wrap_small; lia).
    rewrite Halt in Hbody.
    destruct (Z.ltb_spec (Dc + 1) dn) as [Hlt | Hge]; [| by injection Hbody as <- <-].
    apply bind_Ok in Hbody as (d2 & Hd2 & Hbody). apply store_Ok in Hd2 as [Hrd ->].
    apply bind_Ok in Hbody as (p2 & Hp2 & Hbody). apply store_Ok in Hp2 as [Hrp ->].
    injection Hbody as <- <-.
    assert (set_index a ≠ set_index c) as Hac by (intros E; rewrite E in Hdn; lia).
    assert (set_index a ≠ start_node g) as Has by (intros E; rewrite E in Hdn; lia).
    assert (listed g (set_index c) (set_index a) = true) as Hlisted.
    { apply (listed_entry g _ nbs); [done |]. by apply list_elem_of_lookup_2 in Ha. }
    split; [| split; [| split; [| split]]].
    + intros w. rewrite dist_at_insert by done.
      destruct (Z.eqb_spec w (set_index a)) as [-> | _]; [| apply Hmono].
      specialize (Hmono (set_index a)). lia.
    + rewrite dist_at_insert by done.
      destruct (Z.eqb_spec (set_index c) (set_index a)); [congruence | done].
    + rewrite dist_at_insert by done.
      destruct (Z.eqb_spec (start_node g) (set_index a)); [congruence | done].
    + intros v Hv. cbn [fst snd]. rewrite (dist_at_insert _ _ _ v) by done.
      rewrite prev_at_insert by done.
      destruct (Z.eqb_spec v (set_index a)) as [-> | Hva].
      * intros _. split; [done |]. rewrite dist_at_insert by done.
        destruct (Z.eqb_spec (set_index c) (set_index a)); [congruence | lia].
      * intros Hfin. destruct (Hq v Hv Hfin) as [Hl Hle]. cbn [fst snd] in *.
        split; [done |]. rewrite dist_at_insert by done.
        destruct (Z.eqb_spec (prev_at pk v) (set_index a)) as [E | _]; [| done].
        rewrite E in Hle. lia.
    + rewrite prev_at_insert by done.
      destruct (Z.eqb_spec (start_node g) (set_index a)); [congruence | done].
Qed.

(* Lines 465-498 keep the predecessors right. *)
Lemma search_pred g fuel u dp dp' :
  search fuel (adjecencyList g) 25 u dp = Ok dp' →
  dijkstra_inv g u dp.1 → pred_inv g dp →
  pred_inv g dp' ∧ prev_at dp'.2 (start_node g) = prev_at dp.2 (start_node g).
Proof.
  revert u dp.
  induction fuel as [| fuel IH]; intros u [d p] Hrun Hinv Hpred; cbn [search] in Hrun;
    destruct (Z.ltb_spec 0 (len u)) as [Hpos | Hempty]; try done;
    try (by injection Hrun as <-).
  cbn [fst snd] in *.
  apply bind_Ok in Hrun as ([mn mi] & Hfm & Hrun). cbv beta iota in Hrun.
  apply bind_Ok in Hrun as (curr & Hcurr & Hrun). apply index_Ok in Hcurr as [Hmi Hcurr].
  cbv zeta in Hrun.
  apply bind_Ok in Hrun as (dc & Hdc & Hrun). apply dist_at_Ok in Hdc.
  destruct (find_min_spec d u mn mi Hfm) as [Hmin Hcase].
  pose proof (dj_range g u d Hinv (set_index curr)) as Hdc_range.
  assert (curr ∈ u) as Hcu by (by apply list_elem_of_lookup_2 in Hcurr).
  destruct (Z.eqb_spec dc 25) as [Hinf | Hfin]; [by injection Hrun as <- |].
  apply bind_Ok in Hrun as ([d1 p1] & Hrelax & Hrun).
  assert (mn = dc ∧ dc < 25) as [-> Hnear].
  { destruct Hcase as [[-> _] | (Hlt & _ & c & Hc & Hdist)].
    - specialize (Hmin curr Hcu). lia.
    - assert (c = curr) as -> by congruence. lia. }
  subst dc.
  destruct (relax_spec g curr d p d1 p1) as [Hone Hall]; [lia | done |].
  destruct (relax_pred g curr d p d1 p1) as [Hpred1 Hstart1];
    [lia | apply (dj_start g u d Hinv) | done | done |].
  apply IH in Hrun; [| by apply (dijkstra_step g u d d1 mi curr) | done].
  cbn [fst snd] in *. destruct Hrun as [Hq Hs]. split; [done | congruence].
Qed.

(** X25.  On a graph made from NewGraph(5, 5) with start and goal placed,
    after a call of PathFinder that returns, every cell other than the
    start that has a distance below 25 has as predecessor a cell whose
    adjacency list holds it and whose distance is one less.  The
    predecessor of the start is never written: it is what it was before the
    call. *)
Theorem PathFinder_predecessors g fuel :
  created5 g → placed g →
  PathFinder fuel g = Timeout ∨
  ∃ g' d, PathFinder fuel g = Ok (g', d) ∧
          (∀ v, v ≠ start_node g → dist_at (dist g') v < 25 →
             listed g (prev_at (prev g') v) v = true ∧
             dist_at (dist g') (prev_at (prev g') v) + 1 = dist_at (dist g') v) ∧
          prev_at (prev g') (start_node g) = prev_at (prev g) (start_node g).
Proof.
  intros Hc Hpl. pose proof (created5_wf5 g Hc) as Hwf.
  pose proof (created5_numbered g Hc) as Hnum.
  destruct (PathFinder_safe fuel g Hwf Hpl) as [Ht | (g' & d & Hrun & _)]; [by left | right].
  exists g', d. split; [done |].
  unfold PathFinder in Hrun. apply bind_Ok in Hrun as ([dd p] & Hsp & Hrun).
  cbv beta iota zeta in Hrun.
  pose proof (search_phase_settled g dd p Hwf Hnum (proj1 Hpl) Hsp) as Hset.
  assert (pred_inv g (dd, p) ∧ prev_at p (start_node g) = prev_at (prev g) (start_node g))
    as [Hpred Hstart].
  { destruct Hwf as [Hw Hh Hm Hlen Hset_ok Hadj Hadj_ok Hdist Hprev Hprev_ok].
    destruct Hpl as [Hs _]. unfold search_phase in Hsp.
    assert (len (adjecencyList g) = 25) as E1 by (unfold len; lia).
    assert (len (set g) = 25) as E2 by (unfold len; lia).
    rewrite E1, E2 in Hsp. rewrite make_ok, bind_Ok_l in Hsp by lia.
    rewrite init_search_ok in Hsp by (rewrite ?length_replicate; lia).
    rewrite bind_Ok_l, Hlen in Hsp.
    rewrite store_in_range in Hsp by (unfold len; rewrite length_replicate; lia).
    rewrite bind_Ok_l in Hsp.
    apply search_pred in Hsp; [done | by apply dijkstra_start |].
    intros v Hv. cbn [fst snd].
    rewrite dist_at_insert by (unfold len; rewrite length_replicate; lia).
    rewrite dist_at_replicate. destruct (Z.eqb_spec v (start_node g)); [done | lia]. }
  apply bind_Ok in Hrun as (i & _ & Hrun).
  apply bind_Ok in Hrun as (grid & _ & Hrun).
  apply bind_Ok in Hrun as (dg & _ & Hrun).
  assert (dist g' = dd ∧ prev g' = p) as [-> ->].
  { destruct (negb (dg =? len (set g))); by injection Hrun as <- _. }
  split; [| done]. intros v Hv Hfin.
  destruct (Hpred v Hv Hfin) as [Hl Hle]. cbn [fst snd] in *. split; [done |].
  destruct Hset as (_ & _ & _ & Hclosed).
  destruct (Hclosed (prev_at p v) v ltac:(lia) Hl). lia.
Qed.

Lemma PathFinder_predecessors_witness :
  created5 placed5 ∧ placed placed5 ∧
  (PathFinder 25 placed5 = Timeout ∨
   ∃ g' d, PathFinder 25 placed5 = Ok (g', d) ∧
           (∀ v, v ≠ start_node placed5 → dist_at (dist g') v < 25 →
              listed placed5 (prev_at (prev g') v) v = true ∧
              dist_at (dist g') (prev_at (prev g') v) + 1 = dist_at (dist g') v) ∧
           prev_at (prev g') (start_node placed5)
           = prev_at (prev placed5) (start_node placed5)).
Proof.
  split; [exact placed5_created |]. split; [exact placed5_placed |].
  apply (PathFinder_predecessors placed5 25); [exact placed5_created | exact placed5_placed].
Defined.

(** ** What EditGraph waits for *)

(* what a round tells about the line it read as the answer *)
Lemma question_trace input st c st' c' leave :
  question input st c = Ok (st', c', leave) →
  (lines_read c < lines_read c')%nat ∧
  (start_chosen st' = true → start_chosen st = true ∨ input (lines_read c) = "s") ∧
  (goal_chosen st' = true → goal_chosen st = true ∨ input (lines_read c) = "g") ∧
  (leave = true →
     input (lines_read c) = "exit" ∧ start_chosen st = true ∧ goal_chosen st = true).
Proof.
  unfold question. cbv zeta.
  rewrite PrintGrid_eq, bind_Ok_l. unfold Scan. cbn [lines_read printed Println].
  set (c0 := mk_console _ _). set (inp := input (lines_read c)).
  assert (lines_read c0 = Datatypes.S (lines_read c)) as Hc0 by reflexivity.
  destruct (String.eqb_spec inp "c") as [_ | _].
  { intros Hrun. apply bind_Ok in Hrun as (g1 & _ & [= <- <- <-]).
    cbn [with_graph start_chosen goal_chosen]. rewrite Hc0. repeat split; auto; done. }
  destruct (String.eqb_spec inp "b") as [_ | _].
  { destruct (coordinateInput_eq input c0) as (c1 & -> & Hr1).
    intros Hrun. apply bind_Ok in Hrun as (g1 & _ & [= <- <- <-]).
    cbn [with_graph start_chosen goal_chosen]. rewrite Hr1, Hc0.
    repeat split; auto; try done; lia. }
  destruct (String.eqb_spec inp "w") as [_ | _].
  { match goal with
    | |- context [coordinateInput input ?k] =>
        destruct (coordinateInput_eq input k) as (c1 & -> & Hr1)
    end.
    match goal with
    | |- context [coordinateInput input ?k] =>
        destruct (coordinateInput_eq input k) as (c2 & -> & Hr2)
    end.
    intros Hrun. apply bind_Ok in Hrun as ([g1 out] & _ & [= <- <- <-]).
    cbn [with_graph start_chosen goal_chosen lines_read Println] in *.
    rewrite Hr2, Hr1, Hc0. repeat split; auto; try done; lia. }
  destruct (String.eqb_spec inp "s") as [Es | _].
  { destruct (coordinateInput_eq input c0) as (c1 & -> & Hr1).
    destruct (startPos st) as [xp yp].
    intros Hrun. apply bind_Ok in Hrun as (cur & _ & Hrun).
    apply bind_Ok in Hrun as (m1 & _ & Hrun).
    apply bind_Ok in Hrun as (m2 & _ & [= <- <- <-]).
    cbn [start_chosen goal_chosen]. rewrite Hr1, Hc0.
    repeat split; auto; try done; lia. }
  destruct (String.eqb_spec inp "g") as [Eg | _].
  { destruct (coordinateInput_eq input c0) as (c1 & -> & Hr1).
    destruct (goalPos st) as [xp yp].
    intros Hrun. apply bind_Ok in Hrun as (cur & _ & Hrun).
    apply bind_Ok in Hrun as (m1 & _ & Hrun).
    apply bind_Ok in Hrun as (m2 & _ & [= <- <- <-]).
    cbn [start_chosen goal_chosen]. rewrite Hr1, Hc0.
    repeat split; auto; try done; lia. }
  destruct (String.eqb_spec inp "exit") as [Ee | _].
  - destruct (start_chosen st) eqn:Hs, (goal_chosen st) eqn:Hg; cbn [andb];
      intros [= <- <- <-]; cbn [lines_read Println]; rewrite ?Hc0, ?Hs, ?Hg;
      repeat split; auto; done.
  - intros [= <- <- <-]. cbn [lines_read Println]. rewrite Hc0.
    repeat split; auto; done.
Qed.

Lemma questionLoop_trace fuel input st c st' c' :
  questionLoop fuel input st c = Ok (st', c') →
  ∃ ne, (lines_read c <= ne < lines_read c')%nat ∧ input ne = "exit" ∧
        (start_chosen st = true
         ∨ ∃ ns, (lines_read c <= ns < ne)%nat ∧ input ns = "s") ∧
        (goal_chosen st = true
         ∨ ∃ ng, (lines_read c <= ng < ne)%nat ∧ input ng = "g").
Proof.
  revert st c. induction fuel as [| fuel IH]; intros st c Hrun; [done |].
  cbn [questionLoop] in Hrun.
  apply bind_Ok in Hrun as ([[st1 c1] leave] & Hq & Hrun).
  destruct (question_trace _ _ _ _ _ _ Hq) as (Hlt & Hs & Hg & Hleave).
  destruct leave.
  - injection Hrun as <- <-. destruct (Hleave eq_refl) as (He & Hs1 & Hg1).
    exists (lines_read c). split; [lia |]. split; [done |]. by split; left.
  - cbn [fst snd] in Hrun. destruct (IH st1 c1 Hrun) as (ne & Hne & He & Hs1 & Hg1).
    exists ne. split; [lia |]. split; [done |]. split.
    + destruct Hs1 as [Hs1 | (ns & Hns & Es)].
      * destruct (Hs Hs1) as [| Es]; [by left | right].
        exists (lines_read c). split; [lia | done].
      * right. exists ns. split; [lia | done].
    + destruct Hg1 as [Hg1 | (ng & Hng & Eg)].
      * destruct (Hg Hg1) as [| Eg]; [by left | right].
        exists (lines_read c). split; [lia | done].
      * right. exists ng. split; [lia | done].
Qed.

(** X26.  EditGraph does not return before an "s", a "g" and then an
    "exit" have been typed: when it returns, among the lines it read there
    is a line "exit", and before it a line "s" and a line "g". *)
Theorem EditGraph_waits_for_exit fuel input g c g' c' :
  EditGraph fuel input g c = Ok (g', c') →
  ∃ ns ng ne, (lines_read c <= ns < ne)%nat ∧ (lines_read c <= ng < ne)%nat ∧
              (ne < lines_read c')%nat ∧
              input ns = "s" ∧ input ng = "g" ∧ input ne = "exit".
Proof.
  intros Hrun. unfold EditGraph in Hrun.
  apply bind_Ok in Hrun as ([st1 c1] & Hloop & Hrun).
  apply bind_Ok in Hrun as (g1 & _ & [= _ <-]).
  destruct (questionLoop_trace _ _ _ _ _ _ Hloop) as (ne & Hne & He & Hs & Hg).
  cbn [start_chosen goal_chosen] in Hs, Hg.
  destruct Hs as [| (ns & Hns & Es)]; [done |].
  destruct Hg as [| (ng & Hng & Eg)]; [done |].
  exists ns, ng, ne. repeat split; try done; lia.
Qed.

Lemma EditGraph_waits_for_exit_witness :
  EditGraph 3 (typed ["s"; "1"; "2"; "g"; "4"; "3"; "exit"]) empty5 (mk_console 0 [])
  = Ok (edited5, edited_console) ∧
  ∃ ns ng ne, (lines_read (mk_console 0 []) <= ns < ne)%nat ∧
              (lines_read (mk_console 0 []) <= ng < ne)%nat ∧
              (ne < lines_read edited_console)%nat ∧
              typed ["s"; "1"; "2"; "g"; "4"; "3"; "exit"] ns = "s" ∧
              typed ["s"; "1"; "2"; "g"; "4"; "3"; "exit"] ng = "g" ∧
              typed ["s"; "1"; "2"; "g"; "4"; "3"; "exit"] ne = "exit".
Proof.
  assert (EditGraph 3 (typed ["s"; "1"; "2"; "g"; "4"; "3"; "exit"]) empty5
            (mk_console 0 []) = Ok (edited5, edited_console)) as Hrun
    by (vm_compute; reflexivity).
  split; [exact Hrun |].
  exact (EditGraph_waits_for_exit 3 _ empty5 _ edited5 edited_console Hrun).
Defined.
